(** * PV Water Heating Manager: a shallow embedding of the control core

    The development follows [pv_water_heating_manager/manager.py] and
    [pv_water_heating_manager/switch.py], then the manager select of
    [pv_water_heating_manager/select.py], the night target of
    [pv_water_heating_manager/number.py] and the step [additionals] of
    [config_flow.py].

    The code is embedded at two levels.
    - The first takes the readings of a callback as numbers already
      obtained and computes on exact rationals ([Q]), with [round(x, 2)] as
      round-half-even on the exact value: it is the level of the
      properties of the formulas, of the schedule and of the widgets.
    - The module [Hass] takes the states of the host as the strings they
      are: [float(s)] and [int(s)] can raise, a Python [float] is an IEEE
      754 binary64 number (a primitive float) whose operators round, and
      the calls of Python and numpy ([round], [sum], [min],
      [np.percentile], [str.isdigit], ...) are parameters, with CPython's
      as a reference implementation.  It is the level of the properties of
      [boiler_logic], of [_get_sensor_history] and of the scheduler flags.

    Conventions of both.
    - [None] is [None] of an [option]; a Python exception is a [Raise] of the
      result type, and the state reached when it is raised is kept.
    - A [datetime] is a number of microseconds on one local wall clock, a
      [time] the number of microseconds since midnight.
    - [hass.data[DOMAIN]] is a record, the actuator's service calls are
      appended to a trace kept in that record. *)

From Stdlib Require Import ZArith QArith Qround Qabs Qminmax List String Bool Lia Lqa.
From Stdlib Require Floats.PrimFloat Floats.SpecFloat Floats.FloatOps.
Import ListNotations.

Local Open Scope Z_scope.

(* ------------------------------------------------------------------ *)
(** ** Python numbers *)

Module PyNum.

Definition Qltb (x y : Q) : bool := negb (Qle_bool y x).
Definition Qgeb (x y : Q) : bool := Qle_bool y x.
Definition Qgtb (x y : Q) : bool := negb (Qle_bool x y).

(** [round(x)] to an integer, ties to the even neighbour. *)
Definition round_half_even (x : Q) : Z :=
  let f := Qfloor x in
  let r := (x - inject_Z f)%Q in
  match Qcompare r (1 # 2) with
  | Lt => f
  | Gt => f + 1
  | Eq => if Z.even f then f else f + 1
  end.

(** [round(x, 2)]. *)
Definition round2 (x : Q) : Q :=
  Qred (Qmake (round_half_even (x * 100)) 100).

(** [min(a, b)] and [max(a, b)] of Python: the first argument wins ties. *)
Definition py_min (a b : Q) : Q := if Qltb b a then b else a.
Definition py_max (a b : Q) : Q := if Qgtb b a then b else a.

End PyNum.
Import PyNum.

Arguments Qltb : simpl never.
Arguments Qgtb : simpl never.
Arguments Qgeb : simpl never.
Arguments round2 : simpl never.

(* ------------------------------------------------------------------ *)
(** ** Exceptions and results *)

Inductive Exn : Type :=
| TypeError   (* an operation applied to [None] *)
| ValueError. (* a value outside the domain of a library function *)

Inductive Res (A : Type) : Type :=
| Ok (a : A)
| Raise (e : Exn).
Arguments Ok {A} a.
Arguments Raise {A} e.

(* ------------------------------------------------------------------ *)
(** ** ThermalModel: [_calculate_boiler_heat], [_calculate_battery_energy] *)

(** Truthiness of a configuration number: [not x] holds of [None] and of 0. *)
Definition py_not (x : option Z) : bool :=
  match x with
  | None => true
  | Some z => Z.eqb z 0
  end.

(** [_calculate_boiler_heat(boiler_power, boiler_volume, water_temp, temp_to_heat)].
    The guard on volume and power comes first and never looks at the
    temperatures; the comparison of the temperatures raises [TypeError] when
    one of them is [None]. *)
Definition _calculate_boiler_heat
    (boiler_power boiler_volume : option Z)
    (water_temp temp_to_heat : option Q) : Res (Q * Q) :=
  if py_not boiler_volume || py_not boiler_power then Ok (0, 0)%Q
  else
    match boiler_power, boiler_volume, water_temp, temp_to_heat with
    | Some p, Some v, Some w, Some t =>
        if Qgeb w t then Ok (0, 0)%Q
        else
          let Pt := (((4186 # 1000) * inject_Z v * (t - w)) / 3600)%Q in
          let Pt_time := (Pt / (inject_Z p / 1000) * 60)%Q in
          Ok (round2 Pt, round2 Pt_time)
    | _, _, _, _ => Raise TypeError
    end.

(** [_calculate_battery_energy(battery_capacity, battery_soc, battery_to_charge=80)].
    The capacity is a float at the only call site
    ([battery_capacity * battery_threshold_bottom / 100]). *)
Definition _calculate_battery_energy
    (battery_capacity : Q) (battery_soc : Z) (battery_to_charge : Z) : Q :=
  if Qeq_bool battery_capacity 0 then 0%Q
  else if Z.geb battery_soc battery_to_charge then 0%Q
  else round2 (battery_capacity / 1000
               * inject_Z (battery_to_charge - battery_soc) / 100)%Q.

Definition battery_to_charge_default : Z := 80.

(* ------------------------------------------------------------------ *)
(** ** SensorAggregator: [_get_sensor_history] *)

(** The entities of [entry.data] the manager reads, now or in the history. *)
Inductive Entity : Type :=
| grid_l          (* grid power on the active phase, [grid_l{phase}] *)
| critical_load
| pv_power
| battery_soc
| boiler_temp2    (* boiler water temperature *)
| boiler_state    (* Connected / Disconnected *)
| boiler_heat.    (* hardware heating status, on / off *)

(** A recorded state is a string; it is kept here as what [float(s)] makes of
    it: its value, or nothing when the conversion fails ([unavailable],
    [unknown], ...).  The guard [s.isdigit() or _is_float(s)] of the filter is
    taken to hold of exactly the states that convert (a string of decimal
    digits converts), so the filter keeps the [Numeric] states.  [Hass]
    keeps the strings and the guard as it is written. *)
Inductive HState : Type :=
| Numeric (value : Q)
| NonNumeric.

(** [history.get_significant_states(...)].get(entity_id): the states of the
    entity between [start_time] and [end_time], [None] when the recorder has
    no entry for it. *)
Definition Recorder : Type := Entity -> Z -> Z -> option (list HState).

Definition numeric_states (states : list HState) : list Q :=
  flat_map (fun s => match s with Numeric q => [q] | NonNumeric => [] end) states.

Fixpoint insert_sorted (x : Q) (l : list Q) : list Q :=
  match l with
  | [] => [x]
  | y :: l' => if Qle_bool x y then x :: l else y :: insert_sorted x l'
  end.

Definition sorted (l : list Q) : list Q := fold_right insert_sorted [] l.

(** [min(numeric_states)] on a non-empty list. *)
Definition list_min (x : Q) (l : list Q) : Q := fold_left py_min l x.

(** [sum(numeric_states) / len(numeric_states)]. *)
Definition mean (l : list Q) : Q :=
  (fold_left Qplus l 0 / inject_Z (Z.of_nat (List.length l)))%Q.

(** [np.percentile(a, q)] with the default (linear) interpolation: the value
    at the virtual index [q/100 * (n-1)] of the sorted samples. *)
Definition np_percentile (a : list Q) (q : Z) : Res Q :=
  if (q <? 0) || (100 <? q) then Raise ValueError
  else
    let s := sorted a in
    let n := Z.of_nat (List.length s) in
    let virtual_index := (inject_Z q / 100 * inject_Z (n - 1))%Q in
    let lo := Qfloor virtual_index in
    let hi := Z.min (lo + 1) (n - 1) in
    let gamma := (virtual_index - inject_Z lo)%Q in
    let a_lo := nth (Z.to_nat lo) s 0%Q in
    let a_hi := nth (Z.to_nat hi) s 0%Q in
    Ok (a_lo + gamma * (a_hi - a_lo))%Q.

Definition us_per_second : Z := 1000000.
Definition us_per_minute : Z := 60 * us_per_second.
Definition us_per_day : Z := 86400 * us_per_second.

(** The window of a history query: [timedelta(minutes=mins, seconds=secs)]
    back from [s_time] when it is given, from the clock otherwise. *)
Definition history_window (utcnow : Z) (s_time : option Z) (mins secs : Z) : Z * Z :=
  let window := mins * us_per_minute + secs * us_per_second in
  match s_time with
  | Some t => (t - window, t)
  | None => (utcnow - window, utcnow)
  end.

(** [_get_sensor_history(entity_id, s_time, mins, secs, min_val, percentile)],
    with the recorder and the clock ([dt_util.utcnow()]) as inputs. *)
Definition _get_sensor_history
    (recorder : Recorder) (utcnow : Z)
    (entity_id : Entity) (s_time : option Z) (mins secs : Z)
    (min_val : bool) (percentile : option Z) : Res (option Q) :=
  let '(start_time, end_time) := history_window utcnow s_time mins secs in
  match recorder entity_id start_time end_time with
  | None | Some [] => Ok None
  | Some sensor_history =>
      match numeric_states sensor_history with
      | [] => Ok None
      | x :: rest =>
          let numeric := x :: rest in
          match percentile with
          | Some p =>
              if negb (p =? 0) then
                match np_percentile numeric p with
                | Ok percentile_value => Ok (Some (round2 percentile_value))
                | Raise e => Raise e
                end
              else if min_val then Ok (Some (round2 (list_min x rest)))
              else Ok (Some (round2 (mean numeric)))
          | None =>
              if min_val then Ok (Some (round2 (list_min x rest)))
              else Ok (Some (round2 (mean numeric)))
          end
      end
  end.

(* ------------------------------------------------------------------ *)
(** ** Dates and times *)

Module PyTime.

(** [dt.date()] as a day number and [dt.time()]. *)
Definition date_of (dt : Z) : Z := dt / us_per_day.
Definition time_of (dt : Z) : Z := dt mod us_per_day.

(** [datetime.combine(d, t)]. *)
Definition combine (d t : Z) : Z := d * us_per_day + t.

(** [timedelta(minutes=m)], rounded to a whole number of microseconds. *)
Definition timedelta_minutes (m : Q) : Z :=
  round_half_even (m * inject_Z us_per_minute).

(** [delta.seconds]: the seconds field of the normalised timedelta, in
    [0, 86400) also for a negative [delta] (whose [days] field is then
    negative). *)
Definition seconds (delta : Z) : Z := (delta mod us_per_day) / us_per_second.

Definition hour (t : Z) : Z := t / (3600 * us_per_second).
Definition minute (t : Z) : Z := (t / us_per_minute) mod 60.

(** A time of day from hours, minutes and seconds. *)
Definition hms (h m sec : Z) : Z := ((h * 60 + m) * 60 + sec) * us_per_second.

End PyTime.

(** [_planned_to_past(planned_datetime)], with the clock as input.  The
    first test compares times of day, the second the [seconds] field of
    [datetime_now - planned_datetime_new]. *)
Definition _planned_to_past (utcnow planned_datetime : Z) : bool :=
  let datetime_now := utcnow in
  let time_now := PyTime.time_of datetime_now in
  let planned_datetime_new := planned_datetime in
  let planned_time_new := PyTime.time_of planned_datetime_new in
  (planned_time_new <=? time_now)
  || Qltb (inject_Z (PyTime.seconds (datetime_now - planned_datetime_new)) / 60) 5.

(* ------------------------------------------------------------------ *)
(** ** Configuration, inputs and session state *)

(** [entry.data]: the configuration of the session. *)
Record Config : Type := {
  boiler_power : Z;
  boiler_volume : Z;
  boiler_min_temp : Z;
  battery_capacity : Z;
  battery_soc_top : Z;
  battery_soc_bottom : Z;
  grid_threshold : Z;
  temp_variable : Z;
  phase : option Z;
  solar_conf_mode : string
}.

(** What one callback invocation reads from the host: the clock, the states
    of the entities already converted as [_get_sensor_state] asks for (a state
    that does not convert raises out of the callback: that is part of
    [Hass.World], not of this record), the recorder, and the widgets of the
    integration. *)
Record World : Type := {
  utcnow : Z;
  states_float : Entity -> Q;
  states_int : Entity -> Z;
  states_str : Entity -> string;
  recorder : Recorder;
  heating_temp : Q;              (* day heating target *)
  night_heating_temp : Q;        (* night pre-heat target *)
  morning_time_time : Z;         (* time of day of the morning deadline *)
  manager_status_select : string;
  pv_generation_forecast_today_sensor : Z;
  pv_generation_forecast_tomorrow_sensor : Z;
  mqtt_connected : bool
}.

(** The calls made on the actuator. *)
Inductive ServiceCall : Type :=
| climate_set_temperature (temperature : option Q)
| select_select_option (option : string).

Definition ServiceCall_eq_dec (a b : ServiceCall) : {a = b} + {a <> b}.
Proof.
  decide equality.
  - destruct temperature as [q|], temperature0 as [q0|];
      try (right; discriminate); [|now left].
    destruct q as [n d], q0 as [n0 d0].
    destruct (Z.eq_dec n n0) as [->|Hn]; [|right; congruence].
    destruct (Pos.eq_dec d d0) as [->|Hd]; [now left | right; congruence].
  - apply string_dec.
Defined.

(** The scheduler's callbacks. *)
Inductive Callback : Type :=
| plan_start_cb   (* _plan_start_night_pre_heating *)
| start_cb        (* _start_night_pre_heating *)
| end_cb.         (* _end_pre_heating *)

(** A listener registered with the host: [async_track_point_in_utc_time]
    fires once, [async_track_time_change] every day at the given time until
    it is cancelled. *)
Inductive Timer : Type :=
| point_in_utc_time (point : Z) (action : Callback)
| time_change (hour minute second : Z) (action : Callback).

Definition action_of (t : Timer) : Callback :=
  match t with
  | point_in_utc_time _ a => a
  | time_change _ _ _ a => a
  end.

(** [hass.data[DOMAIN]], the listeners the host holds, and the trace of
    service calls. *)
Record State : Type := mkState {
  night_heating_event : option nat;
  night_heating_calc_event : option nat;
  night_heating_planned : bool;
  night_heating_calc_planned : bool;
  night_heating_canceled : bool;
  night_preheating : bool;
  boiler_power_on : bool;
  manager_status_sensor : string;
  night_heating_switch : bool;
  listeners : list (nat * Timer);
  next_handle : nat;
  service_calls : list ServiceCall
}.

Definition set_night_heating_event v s :=
  mkState v (night_heating_calc_event s) (night_heating_planned s)
    (night_heating_calc_planned s) (night_heating_canceled s) (night_preheating s)
    (boiler_power_on s) (manager_status_sensor s) (night_heating_switch s)
    (listeners s) (next_handle s) (service_calls s).
Definition set_night_heating_calc_event v s :=
  mkState (night_heating_event s) v (night_heating_planned s)
    (night_heating_calc_planned s) (night_heating_canceled s) (night_preheating s)
    (boiler_power_on s) (manager_status_sensor s) (night_heating_switch s)
    (listeners s) (next_handle s) (service_calls s).
Definition set_night_heating_planned v s :=
  mkState (night_heating_event s) (night_heating_calc_event s) v
    (night_heating_calc_planned s) (night_heating_canceled s) (night_preheating s)
    (boiler_power_on s) (manager_status_sensor s) (night_heating_switch s)
    (listeners s) (next_handle s) (service_calls s).
Definition set_night_heating_calc_planned v s :=
  mkState (night_heating_event s) (night_heating_calc_event s) (night_heating_planned s)
    v (night_heating_canceled s) (night_preheating s)
    (boiler_power_on s) (manager_status_sensor s) (night_heating_switch s)
    (listeners s) (next_handle s) (service_calls s).
Definition set_night_heating_canceled v s :=
  mkState (night_heating_event s) (night_heating_calc_event s) (night_heating_planned s)
    (night_heating_calc_planned s) v (night_preheating s)
    (boiler_power_on s) (manager_status_sensor s) (night_heating_switch s)
    (listeners s) (next_handle s) (service_calls s).
Definition set_night_preheating v s :=
  mkState (night_heating_event s) (night_heating_calc_event s) (night_heating_planned s)
    (night_heating_calc_planned s) (night_heating_canceled s) v
    (boiler_power_on s) (manager_status_sensor s) (night_heating_switch s)
    (listeners s) (next_handle s) (service_calls s).
Definition set_boiler_power_on v s :=
  mkState (night_heating_event s) (night_heating_calc_event s) (night_heating_planned s)
    (night_heating_calc_planned s) (night_heating_canceled s) (night_preheating s)
    v (manager_status_sensor s) (night_heating_switch s)
    (listeners s) (next_handle s) (service_calls s).
Definition set_manager_status_sensor v s :=
  mkState (night_heating_event s) (night_heating_calc_event s) (night_heating_planned s)
    (night_heating_calc_planned s) (night_heating_canceled s) (night_preheating s)
    (boiler_power_on s) v (night_heating_switch s)
    (listeners s) (next_handle s) (service_calls s).
Definition set_night_heating_switch v s :=
  mkState (night_heating_event s) (night_heating_calc_event s) (night_heating_planned s)
    (night_heating_calc_planned s) (night_heating_canceled s) (night_preheating s)
    (boiler_power_on s) (manager_status_sensor s) v
    (listeners s) (next_handle s) (service_calls s).
Definition set_listeners v s :=
  mkState (night_heating_event s) (night_heating_calc_event s) (night_heating_planned s)
    (night_heating_calc_planned s) (night_heating_canceled s) (night_preheating s)
    (boiler_power_on s) (manager_status_sensor s) (night_heating_switch s)
    v (next_handle s) (service_calls s).
Definition set_next_handle v s :=
  mkState (night_heating_event s) (night_heating_calc_event s) (night_heating_planned s)
    (night_heating_calc_planned s) (night_heating_canceled s) (night_preheating s)
    (boiler_power_on s) (manager_status_sensor s) (night_heating_switch s)
    (listeners s) v (service_calls s).
Definition set_service_calls v s :=
  mkState (night_heating_event s) (night_heating_calc_event s) (night_heating_planned s)
    (night_heating_calc_planned s) (night_heating_canceled s) (night_preheating s)
    (boiler_power_on s) (manager_status_sensor s) (night_heating_switch s)
    (listeners s) (next_handle s) v.

(* ------------------------------------------------------------------ *)
(** ** The monad of the callbacks: session state and exceptions *)

Definition M (A : Type) : Type := State -> Res A * State.

Definition ret {A} (a : A) : M A := fun s => (Ok a, s).
Definition raise {A} (e : Exn) : M A := fun s => (Raise e, s).
Definition bind {A B} (m : M A) (k : A -> M B) : M B :=
  fun s =>
    match m s with
    | (Ok a, s') => k a s'
    | (Raise e, s') => (Raise e, s')
    end.
Definition gets {A} (f : State -> A) : M A := fun s => (Ok (f s), s).
Definition modify (f : State -> State) : M unit := fun s => (Ok tt, f s).
Definition lift {A} (r : Res A) : M A :=
  match r with
  | Ok a => ret a
  | Raise e => raise e
  end.

Declare Scope py_scope.
Delimit Scope py_scope with py.
Notation "x <- m ;; k" := (bind m (fun x => k))
  (at level 61, m at next level, right associativity) : py_scope.
Notation "m ;; k" := (bind m (fun _ => k))
  (at level 61, right associativity) : py_scope.
Local Open Scope py_scope.

(** An operand that must not be [None]: arithmetic and ordering on [None]
    raise [TypeError]. *)
Definition operand (x : option Q) : M Q :=
  match x with
  | Some q => ret q
  | None => raise TypeError
  end.

(** Calling an [async def] function without [await] only builds a coroutine
    object; its body never runs. *)
Definition not_awaited {A} (coroutine : M A) : M unit := ret tt.

(** Registering a listener returns the handle that cancels it. *)
Definition track (t : Timer) : M nat :=
  fun s =>
    let h := next_handle s in
    (Ok h, set_next_handle (S h) (set_listeners ((h, t) :: listeners s) s)).

(** [with suppress(KeyError), suppress(TypeError): handle()]: calling [None]
    is suppressed, cancelling a listener that is gone does nothing. *)
Definition cancel (handle : option nat) : M unit :=
  match handle with
  | None => ret tt
  | Some h =>
      modify (fun s =>
        set_listeners (filter (fun ht => negb (Nat.eqb (fst ht) h)) (listeners s)) s)
  end.

(* ------------------------------------------------------------------ *)
(** ** PVWaterHeatingManager *)

Section Manager.

Variable entry : Config.

(** [_boiler_power(power, temp=None)]. *)
Definition _boiler_power (power : bool) (temp : option Q) : M unit :=
  let call c := modify (fun s => set_service_calls (service_calls s ++ [c]) s) in
  if power then
    call (climate_set_temperature temp) ;;
    call (select_select_option "MANUAL") ;;
    modify (set_boiler_power_on true)
  else
    call (select_select_option "ANTIFREEZE") ;;
    modify (set_boiler_power_on false).

(** The two statistics [boiler_logic] asks of the history: the median of
    the critical load over the last 30 seconds and the 70th percentile of
    the PV power over the last 10 minutes. *)
Definition critical_loads_history (w : World) : Res (option Q) :=
  _get_sensor_history (recorder w) (utcnow w) critical_load None 0 30 false (Some 50).
Definition pv_power_history (w : World) : Res (option Q) :=
  _get_sensor_history (recorder w) (utcnow w) pv_power None 10 0 false (Some 70).

(** [boiler_logic()]. *)
Definition boiler_logic (w : World) : M unit :=
  let boiler_power := inject_Z (boiler_power entry) in
  let battery_top_threshold := inject_Z (battery_soc_top entry) in
  let battery_bottom_threshold := inject_Z (battery_soc_bottom entry) in
  let grid_threshold := inject_Z (grid_threshold entry) in
  let grid_power := states_float w grid_l in
  critical_loads_history <- lift (critical_loads_history w) ;;
  pv_power_history <- lift (pv_power_history w) ;;
  let critical_loads := states_float w critical_load in
  let battery_soc := states_float w battery_soc in
  let boiler_heating := states_str w boiler_heat in
  boiler_power_on <- gets boiler_power_on ;;
  let boiler_temp_to_heat := heating_temp w in
  if boiler_power_on then
    if Qltb battery_soc battery_bottom_threshold then _boiler_power false None
    else if Qgtb grid_power grid_threshold then _boiler_power false None
    else if String.eqb boiler_heating "off" then
      clh <- operand critical_loads_history ;;
      pv <- operand pv_power_history ;;
      if Qltb pv ((7 # 10) * (clh + boiler_power)) then
        if Qltb pv ((7 # 10) * (critical_loads + boiler_power))
        then _boiler_power false None
        else ret tt
      else ret tt
    else
      clh <- operand critical_loads_history ;;
      pv <- operand pv_power_history ;;
      if Qltb pv ((7 # 10) * clh) then
        if Qltb pv ((7 # 10) * critical_loads)
        then _boiler_power false None
        else ret tt
      else ret tt
  else
    if Qltb battery_soc battery_top_threshold then ret tt
    else if Qgtb grid_power grid_threshold then ret tt
    else
      clh <- operand critical_loads_history ;;
      pv <- operand pv_power_history ;;
      if Qltb pv ((75 # 100) * (clh + boiler_power)) then ret tt
      else _boiler_power true (Some boiler_temp_to_heat).

(** [date.today()] and [datetime.now().date()]: the day of the clock. *)
Definition today (w : World) : Z := PyTime.date_of (utcnow w).

(** [night_pre_heating()]. *)
Definition night_pre_heating (w : World) : M unit :=
  night_heating_planned <- gets night_heating_planned ;;
  night_heating_calc_planned <- gets night_heating_calc_planned ;;
  night_heating_canceled <- gets night_heating_canceled ;;
  night_preheating <- gets night_preheating ;;
  if night_heating_planned || night_heating_calc_planned
     || night_heating_canceled || night_preheating
  then ret tt
  else
    night_heating <- gets night_heating_switch ;;
    if negb night_heating then ret tt
    else
      let water_min_temp := 1%Q in
      let preheat_temp := night_heating_temp w in
      max_time_to_heat <-
        lift (_calculate_boiler_heat (Some (boiler_power entry))
                (Some (boiler_volume entry)) (Some water_min_temp)
                (Some preheat_temp)) ;;
      let max_time_to_heat := snd max_time_to_heat in
      let morning_time := morning_time_time w in
      let planned_datetime1 :=
        PyTime.combine (today w) morning_time
        - PyTime.timedelta_minutes max_time_to_heat in
      let planned_time := PyTime.time_of planned_datetime1 in
      let planned_datetime2 :=
        if _planned_to_past (utcnow w) planned_datetime1
        then PyTime.combine (today w + 1) planned_time
        else PyTime.combine (today w) planned_time in
      h <- track (point_in_utc_time planned_datetime2 plan_start_cb) ;;
      modify (set_night_heating_calc_event (Some h)) ;;
      modify (set_night_heating_calc_planned true).

(** [_end_pre_heating(now)]. *)
Definition _end_pre_heating : M unit :=
  ev <- gets night_heating_event ;;
  cancel ev ;;
  canceled <- gets night_heating_canceled ;;
  if canceled then modify (set_night_heating_canceled false)
  else
    _boiler_power false None ;;
    modify (set_night_preheating false).

(** The block that [_start_night_pre_heating] runs, after setting
    [night_heating_canceled] or switching the boiler on, to end the cycle:
    at once when the morning time counts as past, at the morning time
    otherwise. *)
Definition schedule_end (w : World) : M unit :=
  let morning_time := morning_time_time w in
  let check_planned_datetime := PyTime.combine (today w) morning_time in
  if _planned_to_past (utcnow w) check_planned_datetime then
    modify (set_night_heating_planned false) ;;
    _end_pre_heating
  else
    h <- track (time_change (PyTime.hour morning_time)
                  (PyTime.minute morning_time) 0 end_cb) ;;
    modify (set_night_heating_event (Some h)) ;;
    modify (set_night_heating_planned false).

(** [_start_night_pre_heating(now)]. *)
Definition _start_night_pre_heating (w : World) : M unit :=
  ev <- gets night_heating_event ;;
  cancel ev ;;
  let boiler_water_temp := (states_float w boiler_temp2 - 3)%Q in
  let preheat_temp := night_heating_temp w in
  let morning_time := morning_time_time w in
  if Qgeb boiler_water_temp preheat_temp then
    modify (set_night_heating_canceled true) ;;
    schedule_end w
  else
    boiler_heat <-
      lift (_calculate_boiler_heat (Some (boiler_power entry))
              (Some (boiler_volume entry)) (Some boiler_water_temp)
              (Some preheat_temp)) ;;
    let needed_time := snd boiler_heat in
    let time_now := utcnow w in
    let morning_time2 := PyTime.combine (today w) morning_time in
    let time_left := PyTime.seconds (morning_time2 - time_now) / 60 in
    let time_difference := (inject_Z time_left - needed_time)%Q in
    if Qgtb time_difference 60 then
      let planned_time :=
        PyTime.time_of (time_now + PyTime.timedelta_minutes time_difference) in
      h <- track (time_change (PyTime.hour planned_time)
                    (PyTime.minute planned_time) 0 start_cb) ;;
      modify (set_night_heating_event (Some h))
    else
      let boiler_connection := states_str w boiler_state in
      if String.eqb boiler_connection "Disconnected" then
        modify (set_night_heating_canceled true) ;;
        schedule_end w
      else
        let start :=
          modify (set_night_preheating true) ;;
          _boiler_power true (Some preheat_temp) ;;
          schedule_end w in
        let manager_status := manager_status_select w in
        if String.eqb manager_status "Automatic" then
          let heating_temp := heating_temp w in
          let temp_variation := inject_Z (temp_variable entry) in
          let min_boiler_temp := inject_Z (boiler_min_temp entry) in
          let battery_soc := states_int w battery_soc in
          let battery_capacity := inject_Z (battery_capacity entry) in
          let battery_threshold_bottom := inject_Z (battery_soc_bottom entry) in
          let desired_batt_cap :=
            (battery_capacity * battery_threshold_bottom / 100)%Q in
          let morning_time_check := PyTime.combine (today w) morning_time in
          let pv_forecast :=
            if _planned_to_past (utcnow w) morning_time_check
            then pv_generation_forecast_tomorrow_sensor w
            else pv_generation_forecast_today_sensor w in
          let min_temp := py_max (heating_temp - temp_variation) min_boiler_temp in
          let delta_temp := py_max (min_temp - preheat_temp) 0 in
          boiler_energy_day <-
            lift (_calculate_boiler_heat (Some (boiler_power entry))
                    (Some (boiler_volume entry)) (Some preheat_temp)
                    (Some delta_temp)) ;;
          let battery_energy :=
            _calculate_battery_energy desired_batt_cap battery_soc
              battery_to_charge_default in
          if Qgtb (fst boiler_energy_day + battery_energy)
                  (inject_Z pv_forecast / 1000)
          then
            modify (set_night_heating_canceled true) ;;
            schedule_end w
          else start
        else start.

(** [_plan_start_night_pre_heating(now)]. *)
Definition _plan_start_night_pre_heating (w : World) : M unit :=
  ev <- gets night_heating_calc_event ;;
  cancel ev ;;
  let morning_time := morning_time_time w in
  let yesterday_morning_time := PyTime.combine (today w - 1) morning_time in
  yesterday_boiler_temp <-
    lift (_get_sensor_history (recorder w) (utcnow w) boiler_temp2
            (Some yesterday_morning_time) 300 0 true None) ;;
  let boiler_temp_now := states_float w boiler_temp2 in
  y <- operand yesterday_boiler_temp ;;
  let calc_temp := py_min y boiler_temp_now in
  let preheat_temp := night_heating_temp w in
  boiler_heat <-
    lift (_calculate_boiler_heat (Some (boiler_power entry))
            (Some (boiler_volume entry)) (Some calc_temp) (Some preheat_temp)) ;;
  let needed_time :=
    if Qeq_bool (fst boiler_heat) 0 then 120%Q else (snd boiler_heat + 60)%Q in
  let planned_datetime :=
    PyTime.combine (today w) morning_time - PyTime.timedelta_minutes needed_time in
  let planned_time := PyTime.time_of planned_datetime in
  (if _planned_to_past (utcnow w) planned_datetime then
     modify (set_night_heating_planned true) ;;
     _start_night_pre_heating w
   else
     h <- track (time_change (PyTime.hour planned_time)
                   (PyTime.minute planned_time) 0 start_cb) ;;
     modify (set_night_heating_event (Some h)) ;;
     modify (set_night_heating_planned true)) ;;
  modify (set_night_heating_calc_planned false).

(** [run()]: one control tick. *)
Definition run (w : World) : M unit :=
  let boiler_connection := states_str w boiler_state in
  manager_status <- gets manager_status_sensor ;;
  if String.eqb boiler_connection "Disconnected" then
    if negb (String.eqb manager_status "Paused - Warning (Boiler Disconnected)")
    then modify (set_manager_status_sensor "Paused - Warning (Boiler Disconnected)")
    else ret tt
  else
    (if String.eqb manager_status "Paused - Warning (Boiler Disconnected)"
     then modify (set_manager_status_sensor "Running")
     else ret tt) ;;
    if String.eqb (solar_conf_mode entry) "automatic" && negb (mqtt_connected w)
    then ret tt
    else
      night_pre_heating w ;;
      match phase entry with
      | None => ret tt
      | Some p =>
          if p =? 0 then ret tt
          else
            preheating <- gets night_preheating ;;
            if negb preheating then boiler_logic w else ret tt
      end.

(** [NightHeatingSwitch._toggle_state(value)] of [switch.py]. *)
Definition _toggle_state (value : bool) (w : World) : M unit :=
  modify (set_night_heating_switch value) ;;
  manager_status <- gets manager_status_sensor ;;
  if negb value then
    (if negb (String.eqb manager_status "Initializing") then
       ev <- gets night_heating_event ;;
       cancel ev ;;
       calc_ev <- gets night_heating_calc_event ;;
       cancel calc_ev
     else ret tt) ;;
    preheating <- gets night_preheating ;;
    (if preheating then
       let boiler_heating := states_str w boiler_heat in
       if String.eqb boiler_heating "on"
       then not_awaited (_boiler_power false None)
       else ret tt
     else ret tt) ;;
    modify (set_night_heating_planned false) ;;
    modify (set_night_heating_calc_planned false) ;;
    modify (set_night_heating_canceled false) ;;
    modify (set_night_preheating false)
  else ret tt.

(** What happens to the session: a control tick, a listener of the host
    firing, the operator toggling the night-heating switch. *)
Inductive Event : Type :=
| Tick (w : World)
| Fire (handle : nat) (w : World)
| Toggle (value : bool) (w : World).

Definition callback (c : Callback) (w : World) : M unit :=
  match c with
  | plan_start_cb => _plan_start_night_pre_heating w
  | start_cb => _start_night_pre_heating w
  | end_cb => _end_pre_heating
  end.

Definition find_listener (h : nat) (s : State) : option Timer :=
  match find (fun ht => Nat.eqb (fst ht) h) (listeners s) with
  | Some (_, t) => Some t
  | None => None
  end.

(** One event.  A point-in-time listener is dropped by the host when it
    fires; a time-change listener stays until it is cancelled.  The state in
    which a callback stops, normally or by an exception, is the state the
    next event finds.  A pending listener may fire in any world: the clock of
    the world is not checked against the time the listener was set for, which
    only adds runs to those of the host. *)
Definition step (ev : Event) (s : State) : State :=
  match ev with
  | Tick w => snd (run w s)
  | Fire h w =>
      match find_listener h s with
      | None => s
      | Some (point_in_utc_time _ c) =>
          snd ((cancel (Some h) ;; callback c w) s)
      | Some (time_change _ _ _ c) => snd (callback c w s)
      end
  | Toggle value w => snd (_toggle_state value w s)
  end.

Definition run_events (evs : list Event) (s : State) : State :=
  fold_left (fun s ev => step ev s) evs s.

End Manager.

(* ------------------------------------------------------------------ *)
(** ** Vocabulary of the statements *)

(** A moment of day [d] at [h]:[m]:[sec]. *)
Definition at_day (d h m sec : Z) : Z := PyTime.combine d (PyTime.hms h m sec).

(** The samples a history query fetches. *)
Definition fetched (recorder : Recorder) (utcnow : Z) (entity_id : Entity)
    (s_time : option Z) (mins secs : Z) : list HState :=
  let '(start_time, end_time) := history_window utcnow s_time mins secs in
  match recorder entity_id start_time end_time with
  | Some states => states
  | None => []
  end.

(** The service calls made between two states of a session. *)
Definition calls_since (s s' : State) : list ServiceCall :=
  skipn (List.length (service_calls s)) (service_calls s').

(** The three conditions to start heating. *)
Definition start_conditions (entry : Config) (w : World) : Prop :=
  (inject_Z (battery_soc_top entry) <= states_float w battery_soc)%Q
  /\ (states_float w grid_l <= inject_Z (grid_threshold entry))%Q
  /\ exists load pv,
       critical_loads_history w = Ok (Some load)
       /\ pv_power_history w = Ok (Some pv)
       /\ ((75 # 100) * (load + inject_Z (boiler_power entry)) <= pv)%Q.

(** The conditions to stop heating. *)
Definition stop_conditions (entry : Config) (w : World) : Prop :=
  (states_float w battery_soc < inject_Z (battery_soc_bottom entry))%Q
  \/ (inject_Z (grid_threshold entry) < states_float w grid_l)%Q
  \/ (states_str w boiler_heat = "off"%string
      /\ exists load pv,
           critical_loads_history w = Ok (Some load)
           /\ pv_power_history w = Ok (Some pv)
           /\ (pv < (7 # 10) * (load + inject_Z (boiler_power entry)))%Q
           /\ (pv < (7 # 10)
                    * (states_float w critical_load
                       + inject_Z (boiler_power entry)))%Q)
  \/ (states_str w boiler_heat <> "off"%string
      /\ exists load pv,
           critical_loads_history w = Ok (Some load)
           /\ pv_power_history w = Ok (Some pv)
           /\ (pv < (7 # 10) * load)%Q
           /\ (pv < (7 # 10) * states_float w critical_load)%Q).

(** The command that switches the boiler on to the day heating target, and
    the command that switches it off. *)
Definition on_command (w : World) : list ServiceCall :=
  [climate_set_temperature (Some (heating_temp w)); select_select_option "MANUAL"].
Definition off_command : list ServiceCall :=
  [select_select_option "ANTIFREEZE"].

(** The four flags of the scheduler, in the order calc-planned,
    start-planned, pre-heating, cancelled. *)
Definition flags (s : State) : list bool :=
  [night_heating_calc_planned s; night_heating_planned s;
   night_preheating s; night_heating_canceled s].

Definition count_true (l : list bool) : nat := List.length (filter (fun b => b) l).

Definition at_most_one_flag (s : State) : Prop := (count_true (flags s) <= 1)%nat.

Definition idle (s : State) : Prop := flags s = [false; false; false; false].

(** No event of the run toggles the night-heating switch. *)
Definition switch_untouched (evs : list Event) : Prop :=
  forall ev, In ev evs ->
    match ev with Toggle _ _ => False | _ => True end.

(** The invariant of the scheduler between two callbacks: the host holds at
    most one of its listeners, the one whose handle the session stores, and
    the flags tell which callback it is waiting for. *)
Definition scheduler_inv (s : State) : Prop :=
  match listeners s with
  | [] => at_most_one_flag s
  | [(h, t)] =>
      match action_of t with
      | plan_start_cb =>
          flags s = [true; false; false; false]
          /\ night_heating_calc_event s = Some h
      | start_cb =>
          flags s = [false; true; false; false]
          /\ night_heating_event s = Some h
      | end_cb =>
          (flags s = [false; false; false; true]
           \/ flags s = [false; false; true; false])
          /\ night_heating_event s = Some h
      end
  | _ => False
  end.

(** The energy balance as the specification words it: the thermal energy of
    a rise of [max(min_temp - preheat_target, 0)] degrees, with
    [min_temp = max(day_target - temp_variable, min_boiler_temp)], and the
    battery top-up [capacity_Wh/1000 * max(soc_target - soc_now, 0)/100]. *)
Definition claimed_thermal_energy
    (volume : Z) (day_target temp_variable min_boiler_temp preheat_target : Q) : Q :=
  let min_temp := Qmax (day_target - temp_variable) min_boiler_temp in
  let rise := Qmax (min_temp - preheat_target) 0 in
  ((4186 # 1000) * inject_Z volume * rise / 3600)%Q.

Definition claimed_battery_energy (capacity_Wh soc_target soc_now : Z) : Q :=
  (inject_Z capacity_Wh / 1000 * inject_Z (Z.max (soc_target - soc_now) 0) / 100)%Q.

Definition claimed_required_energy
    (volume : Z) (day_target temp_variable min_boiler_temp preheat_target : Q)
    (capacity_Wh soc_target soc_now : Z) : Q :=
  (claimed_thermal_energy volume day_target temp_variable min_boiler_temp preheat_target
   + claimed_battery_energy capacity_Wh soc_target soc_now)%Q.

(* ------------------------------------------------------------------ *)
(** ** A session, for the examples *)

Module Example.

(** The defaults of the configuration flow, a 2 kW boiler of 150 litres. *)
Definition entry : Config := {|
  boiler_power := 2000;
  boiler_volume := 150;
  boiler_min_temp := 10;
  battery_capacity := 4800;
  battery_soc_top := 65;
  battery_soc_bottom := 60;
  grid_threshold := 150;
  temp_variable := 20;
  phase := Some 1;
  solar_conf_mode := "manual"
|}.

(** A world at day [d], [h]:[m], with the boiler water at [water] degrees
    now and over yesterday's window, a deadline at 06:00, a night target of
    40 C, a day target of [day_target] degrees, the manager in [mode], the
    battery at [soc] percent and a forecast of [forecast] Wh. *)
Definition world (d h m : Z) (water day_target : Q) (mode : string) (soc forecast : Z) : World := {|
  utcnow := at_day d h m 0;
  states_float := fun e =>
    match e with
    | boiler_temp2 => water
    | battery_soc => inject_Z soc
    | _ => 0%Q
    end;
  states_int := fun _ => soc;
  states_str := fun e =>
    match e with
    | boiler_state => "Connected"%string
    | _ => "on"%string
    end;
  recorder := fun _ _ _ => Some [Numeric water];
  heating_temp := day_target;
  night_heating_temp := 40;
  morning_time_time := PyTime.hms 6 0 0;
  manager_status_select := mode;
  pv_generation_forecast_today_sensor := forecast;
  pv_generation_forecast_tomorrow_sensor := forecast;
  mqtt_connected := true
|}.

(** The session as [async_setup_entry] leaves it, the manager running and
    the night-heating switch on. *)
Definition session_start : State := {|
  night_heating_event := None;
  night_heating_calc_event := None;
  night_heating_planned := false;
  night_heating_calc_planned := false;
  night_heating_canceled := false;
  night_preheating := false;
  boiler_power_on := false;
  manager_status_sensor := "Running";
  night_heating_switch := true;
  listeners := [];
  next_handle := 0;
  service_calls := []
|}.

End Example.

(** A midday world: the PV power over the last ten minutes around [pv] W,
    the critical load at 400 W, the battery at [soc] percent, 20 W drawn from
    the grid, and the boiler reporting [heating]. *)
Definition midday (pv : Q) (soc : Q) (heating : string) : World := {|
  utcnow := at_day 19800 12 0 0;
  states_float := fun e =>
    match e with
    | grid_l => 20
    | critical_load => 400
    | battery_soc => soc
    | _ => 45
    end%Q;
  states_int := fun _ => 0;
  states_str := fun e =>
    match e with
    | boiler_heat => heating
    | _ => "Connected"%string
    end;
  recorder := fun e _ _ =>
    match e with
    | critical_load => Some [Numeric 380; Numeric 420]
    | pv_power => Some [Numeric pv; NonNumeric; Numeric (pv + 40)]
    | _ => None
    end;
  heating_temp := 75;
  night_heating_temp := 40;
  morning_time_time := PyTime.hms 6 0 0;
  manager_status_select := "Manual";
  pv_generation_forecast_today_sensor := 0;
  pv_generation_forecast_tomorrow_sensor := 0;
  mqtt_connected := true
|}.

(** The session in which pre-heating is active: a tick plans the
    calculation, the calculation plans the start for 03:15, the start finds
    the water at 20 C and switches the boiler on to the night target. *)
Definition preheat_active : State :=
  run_events Example.entry
    [Tick (Example.world 19800 20 0 20 75 "Manual" 50 0);
     Fire 0 (Example.world 19801 2 36 20 75 "Manual" 50 0);
     Fire 1 (Example.world 19801 3 15 20 75 "Manual" 50 0)]
    Example.session_start.

(** The session in which the start is planned for 03:15. *)
Definition start_planned : State :=
  run_events Example.entry
    [Tick (Example.world 19800 20 0 20 75 "Automatic" 50 2000);
     Fire 0 (Example.world 19801 2 36 20 75 "Automatic" 50 2000)]
    Example.session_start.

(* ------------------------------------------------------------------ *)
(** ** Further vocabulary *)

(** The status a control tick sets while the boiler reports [Disconnected]. *)
Definition paused : string := "Paused - Warning (Boiler Disconnected)".


(** Yesterday's minimum of the boiler temperature, as
    [_plan_start_night_pre_heating] queries it. *)
Definition yesterday_boiler_temp (w : World) : Res (option Q) :=
  _get_sensor_history (recorder w) (utcnow w) boiler_temp2
    (Some (PyTime.combine (today w - 1) (morning_time_time w))) 300 0 true None.




(* ------------------------------------------------------------------ *)
(** ** The manager select ([select.py]) and the grid handler *)

(** The listeners [select.py] registers with the host: the recurring control
    tick ([async_track_time_interval] on [manager.run]) and the state listener
    of [sensor.venus_grid_lost]. *)
Inductive HostListener : Type :=
| manager_interval (seconds : Z)
| grid_lost_listener.

(** What [_set_state] and [grid_lost_handler] read beside the [World]: the
    state of the boiler mode selector, the state of [sensor.venus_grid_lost],
    [hass.data["manager_updates"]] when it is set, and
    [hass.data["component_loading"]]. *)
Record HostInputs : Type := {
  boiler_mode : string;
  venus_grid_lost : string;
  manager_updates : option Z;
  component_loading : bool
}.

(** The session with the select entity: [hass.data[DOMAIN]] as before, the
    state of the select, the two handles it stores and the listeners behind
    them. *)
Record Session : Type := mkSession {
  data : State;
  select_state : string;                 (* ManagerStatusSelect._state *)
  cancel_manager : option nat;
  cancel_grid_lost_handler : option nat;
  host_listeners : list (nat * HostListener);
  next_host_handle : nat
}.

Definition set_data v x :=
  mkSession v (select_state x) (cancel_manager x) (cancel_grid_lost_handler x)
    (host_listeners x) (next_host_handle x).
Definition set_select_state v x :=
  mkSession (data x) v (cancel_manager x) (cancel_grid_lost_handler x)
    (host_listeners x) (next_host_handle x).
Definition set_cancel_manager v x :=
  mkSession (data x) (select_state x) v (cancel_grid_lost_handler x)
    (host_listeners x) (next_host_handle x).
Definition set_cancel_grid_lost_handler v x :=
  mkSession (data x) (select_state x) (cancel_manager x) v
    (host_listeners x) (next_host_handle x).
Definition set_host_listeners v x :=
  mkSession (data x) (select_state x) (cancel_manager x) (cancel_grid_lost_handler x)
    v (next_host_handle x).
Definition set_next_host_handle v x :=
  mkSession (data x) (select_state x) (cancel_manager x) (cancel_grid_lost_handler x)
    (host_listeners x) v.

(** A callback of the manager run on the [hass.data] part of the session. *)
Definition on_data (m : M unit) (x : Session) : Session :=
  set_data (snd (m (data x))) x.

(** Cancelling through a stored handle, suppressed when the handle is
    missing or [None]; cancelling a listener that is gone does nothing. *)
Definition cancel_host (handle : option nat) (x : Session) : Session :=
  match handle with
  | None => x
  | Some h =>
      set_host_listeners
        (filter (fun hl => negb (Nat.eqb (fst hl) h)) (host_listeners x)) x
  end.

Definition track_host (l : HostListener) (x : Session) : nat * Session :=
  let h := next_host_handle x in
  (h, set_next_host_handle (S h) (set_host_listeners ((h, l) :: host_listeners x) x)).

(** [ManagerStatusSelect._set_state(state)]. *)
Definition _set_state (entry : Config) (w : World) (i : HostInputs)
    (state : string) (x : Session) : Session :=
  let manager_status := manager_status_sensor (data x) in
  let x :=
    if String.eqb state "Off" then
      let x :=
        if negb (String.eqb manager_status "Initializing") then
          let x := cancel_host (cancel_manager x) x in
          let x := cancel_host (cancel_grid_lost_handler x) x in
          let x := on_data (ev <- gets night_heating_event ;; cancel ev) x in
          let x := on_data (ev <- gets night_heating_calc_event ;; cancel ev) x in
          let boiler_state := boiler_mode i in
          if String.eqb boiler_state "MANUAL"
          then on_data (_boiler_power false None) x
          else x
        else x in
      on_data (modify (set_night_heating_planned false) ;;
               modify (set_night_heating_calc_planned false) ;;
               modify (set_night_heating_canceled false) ;;
               modify (set_night_preheating false) ;;
               modify (set_manager_status_sensor "Off")) x
    else x in
  if (String.eqb state "Automatic" || String.eqb state "Manual")
     && String.eqb (select_state x) "Off"
  then
    if String.eqb (solar_conf_mode entry) "automatic" && negb (mqtt_connected w) then
      let x := on_data (modify (set_manager_status_sensor
                                  "Off - Warning (MQTT connection lost)")) x in
      set_select_state "Off" x
    else if negb (String.eqb manager_status "Initializing")
            && negb (String.eqb (venus_grid_lost i) "0") then
      let x := on_data (modify (set_manager_status_sensor
                                  "Off - Warning (Grid Lost)")) x in
      set_select_state "Off" x
    else
      let seconds := match manager_updates i with Some n => n | None => 10 end in
      let '(h, x) := track_host (manager_interval seconds) x in
      let x := set_cancel_manager (Some h) x in
      let '(h, x) := track_host grid_lost_listener x in
      let x := set_cancel_grid_lost_handler (Some h) x in
      let x := on_data (modify (set_manager_status_sensor "Running")) x in
      set_select_state state x
  else set_select_state state x.

(** [new_data == s] for the state of an event, [None] when the event
    carries no new state. *)
Definition state_is (new_data : option string) (s : string) : bool :=
  match new_data with
  | Some d => String.eqb d s
  | None => false
  end.

(** [grid_lost_handler(event)]. *)
Definition grid_lost_handler (entry : Config) (w : World) (i : HostInputs)
    (new_data : option string) (x : Session) : Session :=
  if String.eqb (solar_conf_mode entry) "automatic" && negb (mqtt_connected w) then x
  else if negb (component_loading i) then
    if state_is new_data "1" then
      let x := _set_state entry w i "Off" x in
      on_data (modify (set_manager_status_sensor "Off - Warning (Grid Lost)")) x
    else if negb (state_is new_data "0" || state_is new_data "1") then
      let x := _set_state entry w i "Off" x in
      on_data (modify (set_manager_status_sensor "Off - Warning (Grid Unknown)")) x
    else x
  else x.

(** The session as [async_setup_entry] leaves it: no listener, the select
    [Off], the status [Initializing]; the night-heating switch is on. *)
Definition setup_session : Session := {|
  data := set_manager_status_sensor "Initializing" Example.session_start;
  select_state := "Off";
  cancel_manager := None;
  cancel_grid_lost_handler := None;
  host_listeners := [];
  next_host_handle := 0
|}.

(** What happens to the select: the operator (or a restore) selects an
    option, the grid sensor changes, the registered control tick fires. *)
Inductive SelectEvent : Type :=
| Select (state : string) (w : World) (i : HostInputs)
| GridChange (new_data : option string) (w : World) (i : HostInputs)
| IntervalFires (w : World).

Definition is_manager_interval (hl : nat * HostListener) : bool :=
  match snd hl with
  | manager_interval _ => true
  | grid_lost_listener => false
  end.

(** One event of the select; the control tick runs only while its interval
    is registered. *)
Definition select_step (entry : Config) (ev : SelectEvent) (x : Session) : Session :=
  match ev with
  | Select state w i => _set_state entry w i state x
  | GridChange new_data w i => grid_lost_handler entry w i new_data x
  | IntervalFires w =>
      if existsb is_manager_interval (host_listeners x)
      then on_data (run entry w) x
      else x
  end.

Definition select_events (entry : Config) (evs : list SelectEvent) (x : Session) : Session :=
  fold_left (fun x ev => select_step entry ev x) evs x.

(** The invariant of the select: the host holds no listener of the select,
    or it holds the control tick and the grid listener, once each, their
    handles are the stored ones, the select is not [Off] and the status is
    past [Initializing]. *)
Definition select_inv (x : Session) : Prop :=
  host_listeners x = []
  \/ (select_state x <> "Off"%string
      /\ manager_status_sensor (data x) <> "Initializing"%string
      /\ exists h1 h2 seconds,
           host_listeners x = [(h2, grid_lost_listener); (h1, manager_interval seconds)]
           /\ cancel_manager x = Some h1
           /\ cancel_grid_lost_handler x = Some h2
           /\ h1 <> h2).


(** The handler ignores a change of the grid sensor while MQTT is down under
    the automatic solar configuration and while the component loads. *)
Definition grid_change_ignored (entry : Config) (w : World) (i : HostInputs) : Prop :=
  (solar_conf_mode entry = "automatic"%string /\ mqtt_connected w = false)
  \/ component_loading i = true.

(** Host inputs with the boiler mode selector at [mode] and the grid sensor
    at [grid]. *)
Definition host_inputs (mode grid : string) : HostInputs := {|
  boiler_mode := mode;
  venus_grid_lost := grid;
  manager_updates := None;
  component_loading := false
|}.

(** The session after the operator selected [Manual] at noon and the
    scheduler planned its calculation on the first tick. *)
Definition manual_session : Session :=
  select_events Example.entry
    [Select "Manual" (midday 3000 90 "off") (host_inputs "ANTIFREEZE" "0");
     IntervalFires (midday 3000 90 "off")]
    setup_session.

(* ------------------------------------------------------------------ *)
(** ** The configuration flow ([config_flow.py]) and the night target ([number.py]) *)

Module ConfigFlow.

(** The form of the step [additionals]. *)
Record UserInput : Type := mkUserInput {
  battery_capacity : Z;
  battery_soc_top : Z;
  battery_soc_bottom : Z;
  temp_variable : Z;
  grid_threshold : Z;
  manager_updates : Z
}.

(** The ranges of [data_schema], which the host checks before the step sees
    the input. *)
Definition data_schema (user_input : UserInput) : Prop :=
  0 <= battery_capacity user_input
  /\ 0 <= battery_soc_top user_input <= 100
  /\ 0 <= battery_soc_bottom user_input <= 100
  /\ 0 <= temp_variable user_input <= 100
  /\ 10 <= grid_threshold user_input
  /\ 5 <= manager_updates user_input <= 60.

(** The step ends with the form shown again with its errors, or with the
    input appended to the configuration. *)
Inductive StepResult : Type :=
| show_form (errors : list (string * string))
| config_update (user_input : UserInput).

(** [async_step_additionals(user_input)] for a submitted form. *)
Definition async_step_additionals (user_input : UserInput) : StepResult :=
  let user_input :=
    if battery_capacity user_input <? 1000
    then mkUserInput (battery_capacity user_input * 1000)
           (battery_soc_top user_input) (battery_soc_bottom user_input)
           (temp_variable user_input) (grid_threshold user_input)
           (manager_updates user_input)
    else user_input in
  let errors :=
    if battery_soc_bottom user_input >=? battery_soc_top user_input
    then [("battery_soc_bottom", "battery_soc_bottom")]%string
    else [] in
  match errors with
  | [] => config_update user_input
  | _ => show_form errors
  end.

End ConfigFlow.

Module NightHeatingTemp.

(** [async_added_to_hass]: the value the entity takes from the stored number
    data [ret].  The condition reads
    [ret and not ret.native_value < min or ret.native_value > max]; without
    stored data its second operand reads [ret.native_value] and raises
    [AttributeError], which is [None] here. *)
Definition async_added_to_hass
    (native_min_value native_max_value : Q) (ret : option Q) : option Q :=
  match ret with
  | Some native_value =>
      if (true && negb (Qltb native_value native_min_value))
         || Qgtb native_value native_max_value
      then Some native_value
      else Some native_min_value
  | None => None
  end.

End NightHeatingTemp.

(* ================================================================== *)
(** * The manager on Home Assistant states

    The definitions above take the readings of a callback as numbers already
    converted and compute on exact rationals.  The module [Hass] embeds the
    same functions of [manager.py] one level lower: the state of an entity is
    the string the host holds, reading and converting it can raise, and a
    Python [float] is an IEEE 754 binary64 number whose operators round. *)

(* ------------------------------------------------------------------ *)
(** ** Python floats *)

Module PyFloat.

Definition float : Set := PrimFloat.float.

(** The double nearest to [n/d], ties to even; an infinity beyond the
    range. *)
Definition round_quotient (s : bool) (n d : positive) : float :=
  let '(mz, ez, lz) :=
    SpecFloat.SFdiv_core_binary FloatOps.prec FloatOps.emax (Zpos n) 0 (Zpos d) 0 in
  FloatOps.SF2Prim (SpecFloat.binary_round_aux FloatOps.prec FloatOps.emax s mz ez lz).

(** The double a decimal literal or a correctly rounded conversion
    denotes. *)
Definition nearest (q : Q) : float :=
  match Qnum q with
  | Z0 => PrimFloat.zero
  | Zpos n => round_quotient false n (Qden q)
  | Zneg n => round_quotient true n (Qden q)
  end.

(** The exact value of a finite double. *)
Definition value (x : float) : option Q :=
  match FloatOps.Prim2SF x with
  | SpecFloat.S754_zero _ => Some 0%Q
  | SpecFloat.S754_finite s m e =>
      let n := if s then Zneg m else Zpos m in
      Some (match e with
            | Zneg k => n # (2 ^ k)
            | _ => inject_Z (n * 2 ^ e)
            end)
  | _ => None
  end.

(** [x ? n] for a float [x] and an int [n]: Python compares the exact
    values; a NaN compares with nothing. *)
Definition compare_int (x : float) (n : Z) : option comparison :=
  match FloatOps.Prim2SF x with
  | SpecFloat.S754_nan => None
  | SpecFloat.S754_infinity s => Some (if s then Lt else Gt)
  | _ =>
      match value x with
      | Some q => Some (Qcompare q (inject_Z n))
      | None => None
      end
  end.

Definition lt_int (x : float) (n : Z) : bool :=
  match compare_int x n with Some Lt => true | _ => false end.
Definition gt_int (x : float) (n : Z) : bool :=
  match compare_int x n with Some Gt => true | _ => false end.
Definition le_int (x : float) (n : Z) : bool :=
  match compare_int x n with Some (Lt | Eq) => true | _ => false end.
Definition ge_int (x : float) (n : Z) : bool :=
  match compare_int x n with Some (Gt | Eq) => true | _ => false end.
Definition eq_int (x : float) (n : Z) : bool :=
  match compare_int x n with Some Eq => true | _ => false end.

(** [x ? y] on two floats: the IEEE comparison, [None] when one of them is
    a NaN. *)
Definition compare (x y : float) : option comparison :=
  match PrimFloat.compare x y with
  | PrimFloat.FEq => Some Eq
  | PrimFloat.FLt => Some Lt
  | PrimFloat.FGt => Some Gt
  | PrimFloat.FNotComparable => None
  end.

Definition ltb (x y : float) : bool :=
  match compare x y with Some Lt => true | _ => false end.
Definition gtb (x y : float) : bool :=
  match compare x y with Some Gt => true | _ => false end.
Definition leb (x y : float) : bool :=
  match compare x y with Some (Lt | Eq) => true | _ => false end.
Definition geb (x y : float) : bool :=
  match compare x y with Some (Gt | Eq) => true | _ => false end.

(** [min(a, b)]: the second argument is taken only when it is strictly
    below the first. *)
Definition min2 (a b : float) : float := if ltb b a then b else a.

End PyFloat.

Abbreviation float := PyFloat.float.

(* ------------------------------------------------------------------ *)
(** ** The embedding *)

Module Hass.

Import PrimFloat.PrimFloatNotations.

Inductive Exn : Type :=
| TypeError       (* an operation applied to [None] *)
| ValueError      (* [float(s)], [int(s)] of a string that does not convert *)
| AttributeError  (* [.state] of an entity the host does not know *)
| KeyError        (* an entity that is not configured *)
| OverflowError.  (* an int too large for a float, a duration out of range *)

Inductive Res (A : Type) : Type :=
| Ok (a : A)
| Raise (e : Exn).
Arguments Ok {A} a.
Arguments Raise {A} e.

(** [float(n)] of an int, as the mixed operators [float + int],
    [float * int] convert their int operand: correctly rounded, and an
    [OverflowError] beyond the range. *)
Definition float_of_int (n : Z) : Res float :=
  let x := PyFloat.nearest (inject_Z n) in
  if PrimFloat.is_infinity x then Raise OverflowError else Ok x.

(** [a / b] of two ints, [b] positive: the correctly rounded quotient. *)
Definition truediv (a : Z) (b : positive) : Res float :=
  let x := PyFloat.nearest (a # b) in
  if PrimFloat.is_infinity x then Raise OverflowError else Ok x.

(** What the manager calls of Python and of numpy.  These functions are not
    code of the repository; they are parameters of the embedding. *)
Class Python : Type := {
  (** [float(s)] of a string; [None] when it raises [ValueError]. *)
  py_float : string -> option float;
  (** [int(s)] of a string; [None] when it raises [ValueError]. *)
  py_int : string -> option Z;
  (** [s.isdigit()]. *)
  isdigit : string -> bool;
  (** [round(x, 2)] of a Python float. *)
  py_round2 : float -> float;
  (** [round(x, 2)] of a numpy float, which [np.percentile] returns. *)
  np_round2 : float -> float;
  (** [sum(l)] of a list of floats. *)
  py_sum : list float -> float;
  (** [min(l)] of a non-empty list of floats. *)
  py_min : list float -> float;
  (** [np.percentile(a, q)] of a non-empty list. *)
  np_percentile : list float -> Z -> Res float;
  (** [dt - timedelta(minutes=x)] and [dt + timedelta(minutes=x)]. *)
  datetime_sub_minutes : Z -> float -> Res Z;
  datetime_add_minutes : Z -> float -> Res Z
}.

(** [history.get_significant_states(...).get(entity_id)]: the recorded
    state strings of the entity between two moments, [None] when the
    recorder has no entry for it. *)
Definition Recorder : Type := Entity -> Z -> Z -> option (list string).

(** What one callback invocation reads from the host.  [states e] is
    [hass.states.get(entry.data[e]).state]: the state string, or the
    exception of the lookup ([KeyError] when the entity is not configured,
    [AttributeError] when the host has no state for it).  The number
    entities and the forecast sensors of the integration hold a number. *)
Record World : Type := {
  utcnow : Z;
  states : Entity -> Res string;
  recorder : Recorder;
  heating_temp : float;          (* day heating target *)
  night_heating_temp : float;    (* night pre-heat target *)
  morning_time_time : Z;         (* time of day of the morning deadline *)
  manager_status_select : string;
  pv_generation_forecast_today_sensor : Z;
  pv_generation_forecast_tomorrow_sensor : Z;
  mqtt_connected : bool
}.

(** The calls made on the actuator; a call is taken to return. *)
Inductive ServiceCall : Type :=
| climate_set_temperature (temperature : option float)
| select_select_option (option : string).

(** [hass.data[DOMAIN]], the listeners the host holds, and the trace of
    service calls. *)
Record State : Type := mkState {
  night_heating_event : option nat;
  night_heating_calc_event : option nat;
  night_heating_planned : bool;
  night_heating_calc_planned : bool;
  night_heating_canceled : bool;
  night_preheating : bool;
  boiler_power_on : bool;
  manager_status_sensor : string;
  night_heating_switch : bool;
  listeners : list (nat * Timer);
  next_handle : nat;
  service_calls : list ServiceCall
}.

Definition set_night_heating_event v s :=
  mkState v (night_heating_calc_event s) (night_heating_planned s)
    (night_heating_calc_planned s) (night_heating_canceled s) (night_preheating s)
    (boiler_power_on s) (manager_status_sensor s) (night_heating_switch s)
    (listeners s) (next_handle s) (service_calls s).
Definition set_night_heating_calc_event v s :=
  mkState (night_heating_event s) v (night_heating_planned s)
    (night_heating_calc_planned s) (night_heating_canceled s) (night_preheating s)
    (boiler_power_on s) (manager_status_sensor s) (night_heating_switch s)
    (listeners s) (next_handle s) (service_calls s).
Definition set_night_heating_planned v s :=
  mkState (night_heating_event s) (night_heating_calc_event s) v
    (night_heating_calc_planned s) (night_heating_canceled s) (night_preheating s)
    (boiler_power_on s) (manager_status_sensor s) (night_heating_switch s)
    (listeners s) (next_handle s) (service_calls s).
Definition set_night_heating_calc_planned v s :=
  mkState (night_heating_event s) (night_heating_calc_event s) (night_heating_planned s)
    v (night_heating_canceled s) (night_preheating s)
    (boiler_power_on s) (manager_status_sensor s) (night_heating_switch s)
    (listeners s) (next_handle s) (service_calls s).
Definition set_night_heating_canceled v s :=
  mkState (night_heating_event s) (night_heating_calc_event s) (night_heating_planned s)
    (night_heating_calc_planned s) v (night_preheating s)
    (boiler_power_on s) (manager_status_sensor s) (night_heating_switch s)
    (listeners s) (next_handle s) (service_calls s).
Definition set_night_preheating v s :=
  mkState (night_heating_event s) (night_heating_calc_event s) (night_heating_planned s)
    (night_heating_calc_planned s) (night_heating_canceled s) v
    (boiler_power_on s) (manager_status_sensor s) (night_heating_switch s)
    (listeners s) (next_handle s) (service_calls s).
Definition set_boiler_power_on v s :=
  mkState (night_heating_event s) (night_heating_calc_event s) (night_heating_planned s)
    (night_heating_calc_planned s) (night_heating_canceled s) (night_preheating s)
    v (manager_status_sensor s) (night_heating_switch s)
    (listeners s) (next_handle s) (service_calls s).
Definition set_manager_status_sensor v s :=
  mkState (night_heating_event s) (night_heating_calc_event s) (night_heating_planned s)
    (night_heating_calc_planned s) (night_heating_canceled s) (night_preheating s)
    (boiler_power_on s) v (night_heating_switch s)
    (listeners s) (next_handle s) (service_calls s).
Definition set_listeners v s :=
  mkState (night_heating_event s) (night_heating_calc_event s) (night_heating_planned s)
    (night_heating_calc_planned s) (night_heating_canceled s) (night_preheating s)
    (boiler_power_on s) (manager_status_sensor s) (night_heating_switch s)
    v (next_handle s) (service_calls s).
Definition set_next_handle v s :=
  mkState (night_heating_event s) (night_heating_calc_event s) (night_heating_planned s)
    (night_heating_calc_planned s) (night_heating_canceled s) (night_preheating s)
    (boiler_power_on s) (manager_status_sensor s) (night_heating_switch s)
    (listeners s) v (service_calls s).
Definition set_service_calls v s :=
  mkState (night_heating_event s) (night_heating_calc_event s) (night_heating_planned s)
    (night_heating_calc_planned s) (night_heating_canceled s) (night_preheating s)
    (boiler_power_on s) (manager_status_sensor s) (night_heating_switch s)
    (listeners s) (next_handle s) v.

(** The monad of the callbacks.  The state reached when an exception is
    raised is kept: it is the state the next callback finds. *)
Definition M (A : Type) : Type := State -> Res A * State.

Definition ret {A} (a : A) : M A := fun s => (Ok a, s).
Definition raise {A} (e : Exn) : M A := fun s => (Raise e, s).
Definition bind {A B} (m : M A) (k : A -> M B) : M B :=
  fun s =>
    match m s with
    | (Ok a, s') => k a s'
    | (Raise e, s') => (Raise e, s')
    end.
Definition gets {A} (f : State -> A) : M A := fun s => (Ok (f s), s).
Definition modify (f : State -> State) : M unit := fun s => (Ok tt, f s).
Definition lift {A} (r : Res A) : M A :=
  match r with
  | Ok a => ret a
  | Raise e => raise e
  end.

Declare Scope hass_scope.
Delimit Scope hass_scope with hass.
Notation "x <- m ;; k" := (bind m (fun x => k))
  (at level 61, m at next level, right associativity) : hass_scope.
Notation "m ;; k" := (bind m (fun _ => k))
  (at level 61, right associativity) : hass_scope.
Local Open Scope hass_scope.

(** An operand that must not be [None]. *)
Definition operand (x : option float) : M float :=
  match x with
  | Some v => ret v
  | None => raise TypeError
  end.

Definition track (t : Timer) : M nat :=
  fun s =>
    let h := next_handle s in
    (Ok h, set_next_handle (S h) (set_listeners ((h, t) :: listeners s) s)).

(** [with suppress(KeyError), suppress(TypeError): handle()]. *)
Definition cancel (handle : option nat) : M unit :=
  match handle with
  | None => ret tt
  | Some h =>
      modify (fun s =>
        set_listeners (filter (fun ht => negb (Nat.eqb (fst ht) h)) (listeners s)) s)
  end.

Section Manager.

Context {python : Python}.
Variable entry : Config.

(** [_get_sensor_state(entity_id, type)], one definition for each [type]
    the manager asks for. *)
Definition _get_sensor_state_string (w : World) (entity_id : Entity) : Res string :=
  states w entity_id.

Definition _get_sensor_state_float (w : World) (entity_id : Entity) : Res float :=
  match states w entity_id with
  | Ok state =>
      match py_float state with
      | Some ret => Ok ret
      | None => Raise ValueError
      end
  | Raise e => Raise e
  end.

Definition _get_sensor_state_int (w : World) (entity_id : Entity) : Res Z :=
  match states w entity_id with
  | Ok state =>
      match py_int state with
      | Some ret => Ok ret
      | None => Raise ValueError
      end
  | Raise e => Raise e
  end.

(** [_is_float(value)] of [_get_sensor_history]. *)
Definition _is_float (value : string) : bool :=
  match py_float value with
  | Some _ => true
  | None => false
  end.

(** [[float(s) for s in states if s.isdigit() or _is_float(s)]]: the first
    state that passes the guard and does not convert raises. *)
Fixpoint numeric_states (states : list string) : Res (list float) :=
  match states with
  | [] => Ok []
  | s :: rest =>
      if isdigit s || _is_float s then
        match py_float s with
        | Some x =>
            match numeric_states rest with
            | Ok l => Ok (x :: l)
            | Raise e => Raise e
            end
        | None => Raise ValueError
        end
      else numeric_states rest
  end.

(** [len(l)] as the float the division converts it to. *)
Definition float_of_len (l : list float) : float :=
  PyFloat.nearest (inject_Z (Z.of_nat (List.length l))).

(** [_get_sensor_history(entity_id, s_time, mins, secs, min_val, percentile)],
    with the recorder and the clock as inputs. *)
Definition _get_sensor_history
    (recorder : Recorder) (utcnow : Z)
    (entity_id : Entity) (s_time : option Z) (mins secs : Z)
    (min_val : bool) (percentile : option Z) : Res (option float) :=
  let '(start_time, end_time) := history_window utcnow s_time mins secs in
  match recorder entity_id start_time end_time with
  | None | Some [] => Ok None
  | Some states =>
      match numeric_states states with
      | Raise e => Raise e
      | Ok [] => Ok None
      | Ok numeric_states =>
          let no_percentile :=
            if min_val then
              let min_value := py_min numeric_states in
              Ok (Some (py_round2 min_value))
            else
              let mean_value :=
                (py_sum numeric_states / float_of_len numeric_states)%float in
              Ok (Some (py_round2 mean_value)) in
          match percentile with
          | Some p =>
              if negb (p =? 0) then
                match np_percentile numeric_states p with
                | Ok percentile_value => Ok (Some (np_round2 percentile_value))
                | Raise e => Raise e
                end
              else no_percentile
          | None => no_percentile
          end
      end
  end.

(** [_calculate_boiler_heat(boiler_power, boiler_volume, water_temp,
    temp_to_heat)] on two float temperatures; the ints [0, 0] it returns
    early are the floats [0.0, 0.0] here. *)
Definition _calculate_boiler_heat
    (boiler_power boiler_volume : Z) (water_temp temp_to_heat : float)
    : Res (float * float) :=
  if (boiler_volume =? 0) || (boiler_power =? 0) then Ok (PrimFloat.zero, PrimFloat.zero)
  else if PyFloat.geb water_temp temp_to_heat then Ok (PrimFloat.zero, PrimFloat.zero)
  else
    match float_of_int boiler_volume with
    | Raise e => Raise e
    | Ok volume =>
        let Pt :=
          (PyFloat.nearest (4186 # 1000) * volume * (temp_to_heat - water_temp)
           / PyFloat.nearest 3600)%float in
        match truediv boiler_power 1000 with
        | Raise e => Raise e
        | Ok kilowatts =>
            let Pt_time := (Pt / kilowatts * PyFloat.nearest 60)%float in
            Ok (py_round2 Pt, py_round2 Pt_time)
        end
    end.

(** [_calculate_battery_energy(battery_capacity, battery_soc,
    battery_to_charge=80)]; the capacity is a float at the only call
    site. *)
Definition _calculate_battery_energy
    (battery_capacity : float) (battery_soc : Z) (battery_to_charge : Z) : Res float :=
  if PyFloat.eq_int battery_capacity 0 then Ok PrimFloat.zero
  else if battery_soc >=? battery_to_charge then Ok PrimFloat.zero
  else
    match float_of_int (battery_to_charge - battery_soc) with
    | Raise e => Raise e
    | Ok missing =>
        let energy :=
          (battery_capacity / PyFloat.nearest 1000 * missing / PyFloat.nearest 100)%float in
        Ok (py_round2 energy)
    end.

(** [_boiler_power(power, temp=None)]. *)
Definition _boiler_power (power : bool) (temp : option float) : M unit :=
  let call c := modify (fun s => set_service_calls (service_calls s ++ [c]) s) in
  if power then
    call (climate_set_temperature temp) ;;
    call (select_select_option "MANUAL") ;;
    modify (set_boiler_power_on true)
  else
    call (select_select_option "ANTIFREEZE") ;;
    modify (set_boiler_power_on false).

(** [0.7 * (load + boiler_power)], [0.75 * (load + boiler_power)]: the int
    is converted, the sum and the product are rounded. *)
Definition share (factor : Q) (load : float) (boiler_power : Z) : Res float :=
  match float_of_int boiler_power with
  | Ok p => Ok (PyFloat.nearest factor * (load + p))%float
  | Raise e => Raise e
  end.

(** [boiler_logic()]. *)
Definition boiler_logic (w : World) : M unit :=
  let boiler_power := boiler_power entry in
  let battery_top_threshold := battery_soc_top entry in
  let battery_bottom_threshold := battery_soc_bottom entry in
  let grid_threshold := grid_threshold entry in
  grid_power <- lift (_get_sensor_state_float w grid_l) ;;
  critical_loads_history <-
    lift (_get_sensor_history (recorder w) (utcnow w) critical_load None 0 30
            false (Some 50)) ;;
  pv_power_history <-
    lift (_get_sensor_history (recorder w) (utcnow w) pv_power None 10 0
            false (Some 70)) ;;
  critical_loads <- lift (_get_sensor_state_float w critical_load) ;;
  battery_soc <- lift (_get_sensor_state_float w battery_soc) ;;
  boiler_heating <- lift (states w boiler_heat) ;;
  boiler_power_on <- gets boiler_power_on ;;
  let boiler_temp_to_heat := heating_temp w in
  if boiler_power_on then
    if PyFloat.lt_int battery_soc battery_bottom_threshold then _boiler_power false None
    else if PyFloat.gt_int grid_power grid_threshold then _boiler_power false None
    else if String.eqb boiler_heating "off" then
      clh <- operand critical_loads_history ;;
      limit <- lift (share (7 # 10) clh boiler_power) ;;
      pv <- operand pv_power_history ;;
      if PyFloat.ltb pv limit then
        limit_now <- lift (share (7 # 10) critical_loads boiler_power) ;;
        if PyFloat.ltb pv limit_now then _boiler_power false None else ret tt
      else ret tt
    else
      clh <- operand critical_loads_history ;;
      pv <- operand pv_power_history ;;
      if PyFloat.ltb pv (PyFloat.nearest (7 # 10) * clh)%float then
        if PyFloat.ltb pv (PyFloat.nearest (7 # 10) * critical_loads)%float
        then _boiler_power false None
        else ret tt
      else ret tt
  else
    if PyFloat.lt_int battery_soc battery_top_threshold then ret tt
    else if PyFloat.gt_int grid_power grid_threshold then ret tt
    else
      clh <- operand critical_loads_history ;;
      limit <- lift (share (75 # 100) clh boiler_power) ;;
      pv <- operand pv_power_history ;;
      if PyFloat.ltb pv limit then ret tt
      else _boiler_power true (Some boiler_temp_to_heat).

(** [date.today()] and [datetime.now().date()]: the day of the clock. *)
Definition today (w : World) : Z := PyTime.date_of (utcnow w).

(** [night_pre_heating()]. *)
Definition night_pre_heating (w : World) : M unit :=
  night_heating_planned <- gets night_heating_planned ;;
  night_heating_calc_planned <- gets night_heating_calc_planned ;;
  night_heating_canceled <- gets night_heating_canceled ;;
  night_preheating <- gets night_preheating ;;
  if night_heating_planned || night_heating_calc_planned
     || night_heating_canceled || night_preheating
  then ret tt
  else
    night_heating <- gets night_heating_switch ;;
    if negb night_heating then ret tt
    else
      let water_min_temp := PyFloat.nearest 1 in
      let preheat_temp := night_heating_temp w in
      max_time_to_heat <-
        lift (_calculate_boiler_heat (boiler_power entry) (boiler_volume entry)
                water_min_temp preheat_temp) ;;
      let max_time_to_heat := snd max_time_to_heat in
      let morning_time := morning_time_time w in
      planned_datetime1 <-
        lift (datetime_sub_minutes (PyTime.combine (today w) morning_time)
                max_time_to_heat) ;;
      let planned_time := PyTime.time_of planned_datetime1 in
      let planned_datetime2 :=
        if _planned_to_past (utcnow w) planned_datetime1
        then PyTime.combine (today w + 1) planned_time
        else PyTime.combine (today w) planned_time in
      h <- track (point_in_utc_time planned_datetime2 plan_start_cb) ;;
      modify (set_night_heating_calc_event (Some h)) ;;
      modify (set_night_heating_calc_planned true).

(** [_end_pre_heating(now)]. *)
Definition _end_pre_heating : M unit :=
  ev <- gets night_heating_event ;;
  cancel ev ;;
  canceled <- gets night_heating_canceled ;;
  if canceled then modify (set_night_heating_canceled false)
  else
    _boiler_power false None ;;
    modify (set_night_preheating false).

(** The block that [_start_night_pre_heating] runs, after setting
    [night_heating_canceled] or switching the boiler on, to end the cycle:
    at once when the morning time counts as past, at the morning time
    otherwise. *)
Definition schedule_end (w : World) : M unit :=
  let morning_time := morning_time_time w in
  let check_planned_datetime := PyTime.combine (today w) morning_time in
  if _planned_to_past (utcnow w) check_planned_datetime then
    modify (set_night_heating_planned false) ;;
    _end_pre_heating
  else
    h <- track (time_change (PyTime.hour morning_time)
                  (PyTime.minute morning_time) 0 end_cb) ;;
    modify (set_night_heating_event (Some h)) ;;
    modify (set_night_heating_planned false).

(** [max(x, n)] of a float and an int: the int is taken when it is
    strictly above the float. *)
Definition max_float_int (x : float) (n : Z) : Res float :=
  if PyFloat.lt_int x n then float_of_int n else Ok x.

(** [_start_night_pre_heating(now)]. *)
Definition _start_night_pre_heating (w : World) : M unit :=
  ev <- gets night_heating_event ;;
  cancel ev ;;
  boiler_water_temp <- lift (_get_sensor_state_float w boiler_temp2) ;;
  let boiler_water_temp := (boiler_water_temp - PyFloat.nearest 3)%float in
  let preheat_temp := night_heating_temp w in
  let morning_time := morning_time_time w in
  if PyFloat.geb boiler_water_temp preheat_temp then
    modify (set_night_heating_canceled true) ;;
    schedule_end w
  else
    boiler_heat <-
      lift (_calculate_boiler_heat (boiler_power entry) (boiler_volume entry)
              boiler_water_temp preheat_temp) ;;
    let needed_time := snd boiler_heat in
    let time_now := utcnow w in
    let morning_time2 := PyTime.combine (today w) morning_time in
    let time_left := PyTime.seconds (morning_time2 - time_now) / 60 in
    let time_difference :=
      (PyFloat.nearest (inject_Z time_left) - needed_time)%float in
    if PyFloat.gt_int time_difference 60 then
      planned_datetime <- lift (datetime_add_minutes time_now time_difference) ;;
      let planned_time := PyTime.time_of planned_datetime in
      h <- track (time_change (PyTime.hour planned_time)
                    (PyTime.minute planned_time) 0 start_cb) ;;
      modify (set_night_heating_event (Some h))
    else
      boiler_connection <- lift (_get_sensor_state_string w boiler_state) ;;
      if String.eqb boiler_connection "Disconnected" then
        modify (set_night_heating_canceled true) ;;
        schedule_end w
      else
        let start :=
          modify (set_night_preheating true) ;;
          _boiler_power true (Some preheat_temp) ;;
          schedule_end w in
        let manager_status := manager_status_select w in
        if String.eqb manager_status "Automatic" then
          let heating_temp := heating_temp w in
          let temp_variation := temp_variable entry in
          let min_boiler_temp := boiler_min_temp entry in
          battery_soc <- lift (_get_sensor_state_int w battery_soc) ;;
          let battery_capacity := battery_capacity entry in
          let battery_threshold_bottom := battery_soc_bottom entry in
          desired_batt_cap <-
            lift (truediv (battery_capacity * battery_threshold_bottom) 100) ;;
          let morning_time_check := PyTime.combine (today w) morning_time in
          let pv_forecast :=
            if _planned_to_past (utcnow w) morning_time_check
            then pv_generation_forecast_tomorrow_sensor w
            else pv_generation_forecast_today_sensor w in
          temp_variation <- lift (float_of_int temp_variation) ;;
          min_temp <-
            lift (max_float_int (heating_temp - temp_variation)%float min_boiler_temp) ;;
          delta_temp <- lift (max_float_int (min_temp - preheat_temp)%float 0) ;;
          boiler_energy_day <-
            lift (_calculate_boiler_heat (boiler_power entry) (boiler_volume entry)
                    preheat_temp delta_temp) ;;
          battery_energy <-
            lift (_calculate_battery_energy desired_batt_cap battery_soc
                    battery_to_charge_default) ;;
          forecast <- lift (truediv pv_forecast 1000) ;;
          if PyFloat.gtb (fst boiler_energy_day + battery_energy)%float forecast
          then
            modify (set_night_heating_canceled true) ;;
            schedule_end w
          else start
        else start.

(** [_plan_start_night_pre_heating(now)]. *)
Definition _plan_start_night_pre_heating (w : World) : M unit :=
  ev <- gets night_heating_calc_event ;;
  cancel ev ;;
  let morning_time := morning_time_time w in
  let yesterday_morning_time := PyTime.combine (today w - 1) morning_time in
  yesterday_boiler_temp <-
    lift (_get_sensor_history (recorder w) (utcnow w) boiler_temp2
            (Some yesterday_morning_time) 300 0 true None) ;;
  boiler_temp_now <- lift (_get_sensor_state_float w boiler_temp2) ;;
  y <- operand yesterday_boiler_temp ;;
  let calc_temp := PyFloat.min2 y boiler_temp_now in
  let preheat_temp := night_heating_temp w in
  boiler_heat <-
    lift (_calculate_boiler_heat (boiler_power entry) (boiler_volume entry)
            calc_temp preheat_temp) ;;
  let needed_time :=
    if PyFloat.eq_int (fst boiler_heat) 0
    then PyFloat.nearest 120
    else (snd boiler_heat + PyFloat.nearest 60)%float in
  planned_datetime <-
    lift (datetime_sub_minutes (PyTime.combine (today w) morning_time) needed_time) ;;
  let planned_time := PyTime.time_of planned_datetime in
  (if _planned_to_past (utcnow w) planned_datetime then
     modify (set_night_heating_planned true) ;;
     _start_night_pre_heating w
   else
     h <- track (time_change (PyTime.hour planned_time)
                   (PyTime.minute planned_time) 0 start_cb) ;;
     modify (set_night_heating_event (Some h)) ;;
     modify (set_night_heating_planned true)) ;;
  modify (set_night_heating_calc_planned false).

(** [run()]: one control tick. *)
Definition run (w : World) : M unit :=
  boiler_connection <- lift (_get_sensor_state_string w boiler_state) ;;
  manager_status <- gets manager_status_sensor ;;
  if String.eqb boiler_connection "Disconnected" then
    if negb (String.eqb manager_status "Paused - Warning (Boiler Disconnected)")
    then modify (set_manager_status_sensor "Paused - Warning (Boiler Disconnected)")
    else ret tt
  else
    (if String.eqb manager_status "Paused - Warning (Boiler Disconnected)"
     then modify (set_manager_status_sensor "Running")
     else ret tt) ;;
    if String.eqb (solar_conf_mode entry) "automatic" && negb (mqtt_connected w)
    then ret tt
    else
      night_pre_heating w ;;
      match phase entry with
      | None => ret tt
      | Some p =>
          if p =? 0 then ret tt
          else
            preheating <- gets night_preheating ;;
            if negb preheating then boiler_logic w else ret tt
      end.

(** What happens to the session: a control tick, a listener of the host
    firing. *)
Inductive Event : Type :=
| Tick (w : World)
| Fire (handle : nat) (w : World).

Definition callback (c : Callback) (w : World) : M unit :=
  match c with
  | plan_start_cb => _plan_start_night_pre_heating w
  | start_cb => _start_night_pre_heating w
  | end_cb => _end_pre_heating
  end.

Definition find_listener (h : nat) (s : State) : option Timer :=
  match find (fun ht => Nat.eqb (fst ht) h) (listeners s) with
  | Some (_, t) => Some t
  | None => None
  end.

(** One event, with the result of the callback it runs.  A point-in-time
    listener is dropped by the host when it fires; a time-change listener
    stays until it is cancelled.  A pending listener may fire in any
    world. *)
Definition step (ev : Event) (s : State) : Res unit * State :=
  match ev with
  | Tick w => run w s
  | Fire h w =>
      match find_listener h s with
      | None => (Ok tt, s)
      | Some (point_in_utc_time _ c) => (cancel (Some h) ;; callback c w) s
      | Some (time_change _ _ _ c) => callback c w s
      end
  end.

Definition run_events (evs : list Event) (s : State) : State :=
  fold_left (fun s ev => snd (step ev s)) evs s.

(** Every listener that fires along the run returns; a control tick may
    raise. *)
Fixpoint listeners_return (evs : list Event) (s : State) : Prop :=
  match evs with
  | [] => True
  | ev :: evs' =>
      match ev with
      | Fire _ _ => fst (step ev s) = Ok tt
      | Tick _ => True
      end
      /\ listeners_return evs' (snd (step ev s))
  end.

End Manager.

(* ------------------------------------------------------------------ *)
(** ** Vocabulary of the statements on Home Assistant states *)

Definition and_then {A B} (r : Res A) (k : A -> Res B) : Res B :=
  match r with
  | Ok a => k a
  | Raise e => Raise e
  end.

Notation "'let?' x := r 'in' k" := (and_then r (fun x => k))
  (at level 10, x name, r at level 200, k at level 200) : hass_scope.

(** The service calls made between two states of a session. *)
Definition calls_since (s s' : State) : list ServiceCall :=
  skipn (List.length (service_calls s)) (service_calls s').

(** The command that switches the boiler on to the day heating target, and
    the command that switches it off. *)
Definition on_command (w : World) : list ServiceCall :=
  [climate_set_temperature (Some (heating_temp w)); select_select_option "MANUAL"].
Definition off_command : list ServiceCall :=
  [select_select_option "ANTIFREEZE"].

(** The four flags of the scheduler, in the order calc-planned,
    start-planned, pre-heating, cancelled. *)
Definition flags (s : State) : list bool :=
  [night_heating_calc_planned s; night_heating_planned s;
   night_preheating s; night_heating_canceled s].

Definition at_most_one_flag (s : State) : Prop := (count_true (flags s) <= 1)%nat.

Definition exactly_one_of_three (s : State) : Prop :=
  count_true [night_heating_calc_planned s; night_heating_planned s;
              night_preheating s] = 1%nat.

Definition idle (s : State) : Prop := flags s = [false; false; false; false].

(** The invariant of the scheduler between two callbacks that return: the
    host holds at most one of its listeners, the one whose handle the
    session stores, and the flags tell which callback it is waiting for. *)
Definition scheduler_inv (s : State) : Prop :=
  match listeners s with
  | [] => at_most_one_flag s
  | [(h, t)] =>
      match action_of t with
      | plan_start_cb =>
          flags s = [true; false; false; false]
          /\ night_heating_calc_event s = Some h
      | start_cb =>
          flags s = [false; true; false; false]
          /\ night_heating_event s = Some h
      | end_cb =>
          (flags s = [false; false; false; true]
           \/ flags s = [false; false; true; false])
          /\ night_heating_event s = Some h
      end
  | _ => False
  end.

(** The data [boiler_logic] obtains before it decides. *)
Record Readings : Type := {
  grid_power : float;
  critical_loads_history : option float;
  pv_power_history : option float;
  critical_loads : float;
  battery_soc_now : float;
  boiler_heating : string
}.

Section Vocabulary.

Context {python : Python}.

(** The recorded states a history query fetches. *)
Definition fetched (recorder : Recorder) (utcnow : Z) (entity_id : Entity)
    (s_time : option Z) (mins secs : Z) : list string :=
  let '(start_time, end_time) := history_window utcnow s_time mins secs in
  match recorder entity_id start_time end_time with
  | Some states => states
  | None => []
  end.

(** The numeric samples of a window: the states that [float] converts,
    converted. *)
Fixpoint samples (states : list string) : list float :=
  match states with
  | [] => []
  | s :: rest =>
      match py_float s with
      | Some x => x :: samples rest
      | None => samples rest
      end
  end.



(** The reads of [boiler_logic], in its order: the first that fails raises
    and nothing is decided. *)
Definition readings (w : World) : Res Readings :=
  let? grid_power := _get_sensor_state_float w grid_l in
  let? critical_loads_history :=
    _get_sensor_history (recorder w) (utcnow w) critical_load None 0 30 false (Some 50) in
  let? pv_power_history :=
    _get_sensor_history (recorder w) (utcnow w) pv_power None 10 0 false (Some 70) in
  let? critical_loads := _get_sensor_state_float w critical_load in
  let? battery_soc := _get_sensor_state_float w battery_soc in
  let? boiler_heating := states w boiler_heat in
  Ok {| grid_power := grid_power;
        critical_loads_history := critical_loads_history;
        pv_power_history := pv_power_history;
        critical_loads := critical_loads;
        battery_soc_now := battery_soc;
        boiler_heating := boiler_heating |}.

(** The PV statistic is below [factor * (load + boiler_power)], as the code
    evaluates it: both statistics are numbers, the power converts, and the
    comparison of the doubles holds. *)
Definition pv_below (factor : Q) (pv load : option float) (boiler_power : Z) : Prop :=
  exists pv' load' limit,
    pv = Some pv' /\ load = Some load'
    /\ share factor load' boiler_power = Ok limit
    /\ PyFloat.ltb pv' limit = true.

(** The PV statistic is not below it, evaluated in the same way. *)
Definition pv_not_below (factor : Q) (pv load : option float) (boiler_power : Z) : Prop :=
  exists pv' load' limit,
    pv = Some pv' /\ load = Some load'
    /\ share factor load' boiler_power = Ok limit
    /\ PyFloat.ltb pv' limit = false.

(** The conditions under which the code starts heating: every read
    succeeds and none of its three guards fires. *)
Definition start_conditions (entry : Config) (w : World) : Prop :=
  exists d,
    readings w = Ok d
    /\ PyFloat.lt_int (battery_soc_now d) (battery_soc_top entry) = false
    /\ PyFloat.gt_int (grid_power d) (grid_threshold entry) = false
    /\ pv_not_below (75 # 100) (pv_power_history d) (critical_loads_history d)
         (boiler_power entry).

(** The conditions under which the code stops heating: every read succeeds
    and one of its four tests fires. *)
Definition stop_conditions (entry : Config) (w : World) : Prop :=
  exists d,
    readings w = Ok d
    /\ (PyFloat.lt_int (battery_soc_now d) (battery_soc_bottom entry) = true
        \/ PyFloat.gt_int (grid_power d) (grid_threshold entry) = true
        \/ (boiler_heating d = "off"%string
            /\ pv_below (7 # 10) (pv_power_history d) (critical_loads_history d)
                 (boiler_power entry)
            /\ pv_below (7 # 10) (pv_power_history d) (Some (critical_loads d))
                 (boiler_power entry))
        \/ (boiler_heating d <> "off"%string
            /\ exists pv load,
                 pv_power_history d = Some pv /\ critical_loads_history d = Some load
                 /\ PyFloat.ltb pv (PyFloat.nearest (7 # 10) * load)%float = true
                 /\ PyFloat.ltb pv (PyFloat.nearest (7 # 10) * critical_loads d)%float = true)).

(** The three start conditions as the specification words them, each on
    the reading it names: SOC at or above the top threshold, grid power at
    or below the grid threshold, PV statistic at or above 0.75 of
    (critical-load statistic + boiler power), with the arithmetic of the
    code. *)
Definition claimed_start_conditions (entry : Config) (w : World) : Prop :=
  exists soc grid load pv limit,
    _get_sensor_state_float w battery_soc = Ok soc
    /\ PyFloat.ge_int soc (battery_soc_top entry) = true
    /\ _get_sensor_state_float w grid_l = Ok grid
    /\ PyFloat.le_int grid (grid_threshold entry) = true
    /\ _get_sensor_history (recorder w) (utcnow w) critical_load None 0 30 false (Some 50)
       = Ok (Some load)
    /\ _get_sensor_history (recorder w) (utcnow w) pv_power None 10 0 false (Some 70)
       = Ok (Some pv)
    /\ share (75 # 100) load (boiler_power entry) = Ok limit
    /\ PyFloat.geb pv limit = true.

(** The values the start test compares are numbers: the SOC and the grid
    power are not NaN, and neither are the PV statistic and the share of
    the load it is compared with. *)
Definition numbers_compared (entry : Config) (d : Readings) : Prop :=
  PyFloat.compare_int (battery_soc_now d) (battery_soc_top entry) <> None
  /\ PyFloat.compare_int (grid_power d) (grid_threshold entry) <> None
  /\ forall pv load limit,
       pv_power_history d = Some pv ->
       critical_loads_history d = Some load ->
       share (75 # 100) load (boiler_power entry) = Ok limit ->
       PyFloat.compare pv limit <> None.

(** The first stop condition as the specification words it: the battery
    SOC is below the bottom threshold. *)
Definition claimed_soc_below_bottom (entry : Config) (w : World) : Prop :=
  exists soc,
    _get_sensor_state_float w battery_soc = Ok soc
    /\ PyFloat.lt_int soc (battery_soc_bottom entry) = true.

End Vocabulary.

End Hass.

(* ------------------------------------------------------------------ *)
(** ** A reference implementation of the library calls

    [CPython.python] gives the parameters of [Hass.Python] as CPython 3.12
    and numpy compute them, on state strings of ASCII characters and of the
    superscript digits; it is the instance the examples run on.  The
    theorems that are stated for every [Hass.Python] do not depend on it. *)

Module CPython.

Import PrimFloat.PrimFloatNotations.
Local Open Scope Z_scope.

Definition nan : float := (PrimFloat.zero / PrimFloat.zero)%float.
Definition neg_zero : float := PrimFloat.opp PrimFloat.zero.

Definition is_finite (x : float) : bool :=
  match FloatOps.Prim2SF x with
  | SpecFloat.S754_zero _ | SpecFloat.S754_finite _ _ _ => true
  | _ => false
  end.

Definition is_nan (x : float) : bool :=
  match FloatOps.Prim2SF x with
  | SpecFloat.S754_nan => true
  | _ => false
  end.

Definition is_negative (x : float) : bool :=
  match FloatOps.Prim2SF x with
  | SpecFloat.S754_zero s | SpecFloat.S754_finite s _ _ | SpecFloat.S754_infinity s => s
  | SpecFloat.S754_nan => false
  end.

(** The exact value of a finite float, 0 of the others. *)
Definition exact (x : float) : Q :=
  match PyFloat.value x with
  | Some q => q
  | None => 0%Q
  end.

(** The float of an integer that keeps the sign of [x] when it is zero. *)
Definition integral (n : Z) (x : float) : float :=
  if n =? 0 then (if is_negative x then neg_zero else PrimFloat.zero)
  else PyFloat.nearest (inject_Z n).

(* .................................................................. *)
(** *** Strings *)

Definition code (c : Ascii.ascii) : Z := Z.of_nat (Ascii.nat_of_ascii c).

(** The ASCII characters [str.strip()] removes. *)
Definition is_space (c : Ascii.ascii) : bool :=
  let n := code c in
  (n =? 32) || ((9 <=? n) && (n <=? 13)) || ((28 <=? n) && (n <=? 31)).

Definition is_ascii_digit (c : Ascii.ascii) : bool :=
  let n := code c in (48 <=? n) && (n <=? 57).

Definition lower (c : Ascii.ascii) : Ascii.ascii :=
  let n := code c in
  if (65 <=? n) && (n <=? 90) then Ascii.ascii_of_nat (Z.to_nat (n + 32)) else c.

Fixpoint lstrip (l : list Ascii.ascii) : list Ascii.ascii :=
  match l with
  | c :: l' => if is_space c then lstrip l' else l
  | [] => []
  end.

Definition strip (l : list Ascii.ascii) : list Ascii.ascii :=
  rev (lstrip (rev (lstrip l))).

(** A leading sign: whether it is [-], and the rest. *)
Definition sign (l : list Ascii.ascii) : bool * list Ascii.ascii :=
  match l with
  | c :: l' =>
      if code c =? 45 then (true, l')
      else if code c =? 43 then (false, l')
      else (false, l)
  | [] => (false, [])
  end.

(** The longest prefix of digits and underscores, and the rest. *)
Fixpoint span_digits (l : list Ascii.ascii) : list Ascii.ascii * list Ascii.ascii :=
  match l with
  | c :: l' =>
      if is_ascii_digit c || (code c =? 95) then
        let '(d, r) := span_digits l' in (c :: d, r)
      else ([], l)
  | [] => ([], [])
  end.

(** Digits grouped by single underscores: every underscore stands between
    two digits. *)
Fixpoint grouped (after_digit : bool) (l : list Ascii.ascii) : bool :=
  match l with
  | [] => after_digit
  | c :: l' =>
      if code c =? 95 then after_digit && grouped false l'
      else grouped true l'
  end.

(** The number a run of digits denotes, and how many digits it has. *)
Fixpoint decimal (acc : Z) (count : Z) (l : list Ascii.ascii) : Z * Z :=
  match l with
  | [] => (acc, count)
  | c :: l' =>
      if is_ascii_digit c then decimal (10 * acc + (code c - 48)) (count + 1) l'
      else decimal acc count l'
  end.

(** [int(s)]. *)
Definition py_int (s : string) : option Z :=
  let '(neg, l) := sign (strip (list_ascii_of_string s)) in
  let '(d, r) := span_digits l in
  match d, r with
  | _ :: _, [] =>
      if grouped false d then
        let n := fst (decimal 0 0 d) in
        Some (if neg then - n else n)
      else None
  | _, _ => None
  end.

(** The exponent part of a float literal, when there is one. *)
Definition exponent (l : list Ascii.ascii) : option Z :=
  match l with
  | [] => Some 0
  | c :: l' =>
      if code (lower c) =? 101 then
        let '(neg, l'') := sign l' in
        let '(d, r) := span_digits l'' in
        match d, r with
        | _ :: _, [] =>
            if grouped false d then
              let n := fst (decimal 0 0 d) in
              Some (if neg then - n else n)
            else None
        | _, _ => None
        end
      else None
  end.

Definition with_sign (neg : bool) (x : float) : float :=
  if neg then PrimFloat.opp x else x.

(** [m * 10 ^ e], correctly rounded. *)
Definition scaled (m e : Z) : float :=
  if m =? 0 then PrimFloat.zero
  else if 0 <=? e then PyFloat.nearest (inject_Z (m * 10 ^ e))
  else PyFloat.nearest (m # Z.to_pos (10 ^ (- e))).

(** [float(s)]: a decimal literal with an optional fraction and exponent,
    [nan], [inf] or [infinity] in any case, with an optional sign and
    surrounding whitespace. *)
Definition py_float (s : string) : option float :=
  let '(neg, l) := sign (strip (list_ascii_of_string s)) in
  let word := string_of_list_ascii (map lower l) in
  if String.eqb word "nan" then Some (with_sign neg nan)
  else if String.eqb word "inf" || String.eqb word "infinity"
  then Some (with_sign neg PrimFloat.infinity)
  else
    let '(ip, r) := span_digits l in
    let '(fp, r') :=
      match r with
      | c :: r1 => if code c =? 46 then span_digits r1 else ([], r)
      | [] => ([], [])
      end in
    let well_formed :=
      match ip, fp with
      | [], [] => false
      | [], _ => grouped false fp
      | _, [] => grouped false ip
      | _, _ => grouped false ip && grouped false fp
      end in
    if well_formed then
      match exponent r' with
      | Some e =>
          let '(i, _) := decimal 0 0 ip in
          let '(m, digits) := decimal i 0 fp in
          Some (with_sign neg (scaled m (e - digits)))
      | None => None
      end
    else None.

(** [s.isdigit()]: the string is not empty and each of its characters is a
    digit; besides [0] to [9] the superscripts U+00B2, U+00B3 and U+00B9
    are, which UTF-8 writes as the byte 194 and the byte 178, 179 or 185. *)
Fixpoint all_digits (l : list Ascii.ascii) : bool :=
  match l with
  | [] => true
  | c :: l' =>
      if is_ascii_digit c then all_digits l'
      else if code c =? 194 then
        match l' with
        | c' :: l'' =>
            ((code c' =? 178) || (code c' =? 179) || (code c' =? 185)) && all_digits l''
        | [] => false
        end
      else false
  end.

Definition isdigit (s : string) : bool :=
  match list_ascii_of_string s with
  | [] => false
  | l => all_digits l
  end.

(* .................................................................. *)
(** *** Rounding *)

(** [round(x, 2)] of a Python float: the double nearest to the exact value
    of [x] rounded to two decimals, ties to even; an infinity or a NaN is
    returned as it is. *)
Definition py_round2 (x : float) : float :=
  if is_finite x then
    let r := round_half_even (exact x * 100) in
    if r =? 0 then integral 0 x else PyFloat.nearest (r # 100)
  else x.

(** [np.rint(x)]. *)
Definition rint (x : float) : float :=
  if is_finite x then integral (round_half_even (exact x)) x else x.

(** [round(x, 2)] of a numpy float: [rint(x * 100) / 100] in doubles. *)
Definition np_round2 (x : float) : float :=
  (rint (x * PyFloat.nearest 100) / PyFloat.nearest 100)%float.

(* .................................................................. *)
(** *** [sum] and [min] *)

(** The loop of [sum] on floats, with Neumaier's compensation [c]. *)
Fixpoint neumaier (f_result c : float) (l : list float) : float * float :=
  match l with
  | [] => (f_result, c)
  | x :: l' =>
      let t := (f_result + x)%float in
      let c' :=
        if PyFloat.geb (PrimFloat.abs f_result) (PrimFloat.abs x)
        then (c + ((f_result - t) + x))%float
        else (c + ((x - t) + f_result))%float in
      neumaier t c' l'
  end.

(** [sum(l)] of floats: the start value 0 plus the first item, then the
    compensated loop; the compensation is added when it is finite and not
    zero. *)
Definition py_sum (l : list float) : float :=
  match l with
  | [] => PrimFloat.zero
  | x :: l' =>
      let '(f_result, c) := neumaier (PrimFloat.zero + x)%float PrimFloat.zero l' in
      if is_finite c && negb (PyFloat.eq_int c 0) then (f_result + c)%float
      else f_result
  end.

(** [min(l)]: an item replaces the current minimum when it is strictly
    below it. *)
Definition py_min (l : list float) : float :=
  match l with
  | [] => nan
  | x :: l' => fold_left PyFloat.min2 l' x
  end.

(* .................................................................. *)
(** *** [np.percentile] *)

Fixpoint insert (x : float) (l : list float) : list float :=
  match l with
  | [] => [x]
  | y :: l' => if PyFloat.ltb x y then x :: l else y :: insert x l'
  end.

Definition sort (l : list float) : list float := fold_right insert [] l.

(** [arr[i]], a negative index counting from the end. *)
Definition item (arr : list float) (i : Z) : float :=
  let n := Z.of_nat (List.length arr) in
  nth (Z.to_nat (if i <? 0 then n + i else i)) arr nan.

(** [np.percentile(a, q)] with the default method: the virtual index
    [(n - 1) * (q / 100)], its two neighbours in the sorted samples, and
    the interpolation between them as numpy's [_lerp] computes it.  A
    window with a NaN gives a NaN. *)
Definition np_percentile (a : list float) (q : Z) : Hass.Res float :=
  if (q <? 0) || (100 <? q) then Hass.Raise Hass.ValueError
  else if existsb is_nan a then Hass.Ok nan
  else
    let quantile := PyFloat.nearest (q # 100) in
    let arr := sort a in
    let last := (PyFloat.nearest (inject_Z (Z.of_nat (List.length a) - 1)))%float in
    let virtual_index := (last * quantile)%float in
    let above := PyFloat.geb virtual_index last in
    let floor := Qfloor (exact virtual_index) in
    let previous_index := if above then -1 else floor in
    let next_index := if above then -1 else floor + 1 in
    let previous := item arr previous_index in
    let next := item arr next_index in
    let gamma := (virtual_index - PyFloat.nearest (inject_Z previous_index))%float in
    let diff_b_a := (next - previous)%float in
    Hass.Ok
      (if PyFloat.geb gamma (PyFloat.nearest (1 # 2))
       then (next - diff_b_a * (PyFloat.nearest 1 - gamma))%float
       else (previous + diff_b_a * gamma)%float).

(* .................................................................. *)
(** *** Dates and times *)

(** [timedelta(minutes=x)] in microseconds: the whole minutes, and the
    fraction times [6e7] as a double, rounded to the even microsecond on
    a tie; a NaN is a [ValueError], an infinity or more than 999999999
    days an [OverflowError]. *)
Definition timedelta_minutes (x : float) : Hass.Res Z :=
  if is_nan x then Hass.Raise Hass.ValueError
  else if negb (is_finite x) then Hass.Raise Hass.OverflowError
  else
    let q := exact x in
    let intpart := if Qle_bool 0 q then Qfloor q else Qceiling q in
    let fracpart := (x - PyFloat.nearest (inject_Z intpart))%float in
    let us := (PyFloat.nearest (inject_Z us_per_minute) * fracpart)%float in
    let total := round_half_even (inject_Z (intpart * us_per_minute) + exact us) in
    let days := total / us_per_day in
    if (days <? -999999999) || (999999999 <? days) then Hass.Raise Hass.OverflowError
    else Hass.Ok total.

(** The range of [datetime]: the microseconds from 0001-01-01 00:00 to the
    last of 9999-12-31. *)
Definition datetime_max : Z := 3652059 * us_per_day - 1.

Definition in_range (dt : Z) : Hass.Res Z :=
  if (dt <? 0) || (datetime_max <? dt) then Hass.Raise Hass.OverflowError
  else Hass.Ok dt.

(** [dt - timedelta(minutes=x)] and [dt + timedelta(minutes=x)]. *)
Definition datetime_sub_minutes (dt : Z) (x : float) : Hass.Res Z :=
  match timedelta_minutes x with
  | Hass.Ok delta => in_range (dt - delta)
  | Hass.Raise e => Hass.Raise e
  end.

Definition datetime_add_minutes (dt : Z) (x : float) : Hass.Res Z :=
  match timedelta_minutes x with
  | Hass.Ok delta => in_range (dt + delta)
  | Hass.Raise e => Hass.Raise e
  end.

Definition python : Hass.Python :=
  {| Hass.py_float := py_float;
     Hass.py_int := py_int;
     Hass.isdigit := isdigit;
     Hass.py_round2 := py_round2;
     Hass.np_round2 := np_round2;
     Hass.py_sum := py_sum;
     Hass.py_min := py_min;
     Hass.np_percentile := np_percentile;
     Hass.datetime_sub_minutes := datetime_sub_minutes;
     Hass.datetime_add_minutes := datetime_add_minutes |}.

End CPython.

(* ------------------------------------------------------------------ *)
(** ** Sessions on Home Assistant states, for the examples *)

Module HassExample.

Import Hass.

(** A midday world of the host: the grid sensor, the critical-load sensor,
    the battery sensor and the heating status hold the strings [grid],
    [load], [soc] and [heating]; the recorder holds [loads] for the
    critical load and [pvs] for the PV power; the day target is 60 C. *)
Definition midday (grid load soc heating : string) (loads pvs : list string) : World := {|
  utcnow := at_day 739000 12 0 0;
  states := fun e =>
    match e with
    | grid_l => Ok grid
    | critical_load => Ok load
    | battery_soc => Ok soc
    | boiler_heat => Ok heating
    | boiler_state => Ok "Connected"%string
    | pv_power => Ok "2000"%string
    | boiler_temp2 => Ok "45.0"%string
    end;
  recorder := fun e _ _ =>
    match e with
    | critical_load => Some loads
    | pv_power => Some pvs
    | _ => None
    end;
  heating_temp := PyFloat.nearest 60;
  night_heating_temp := PyFloat.nearest 40;
  morning_time_time := PyTime.hms 6 0 0;
  manager_status_select := "Automatic";
  pv_generation_forecast_today_sensor := 12000;
  pv_generation_forecast_tomorrow_sensor := 12000;
  mqtt_connected := true
|}.

(** A world at day [d], [h]:[m]: the boiler water sensor holds [water],
    the battery sensor [soc], the recorder [history] for the boiler water,
    the manager is in [mode]; the deadline is 06:00, the night target 40 C,
    the day target 60 C and the forecast 12 kWh. *)
Definition night (d h m : Z) (water soc mode : string) (history : list string) : World := {|
  utcnow := at_day d h m 0;
  states := fun e =>
    match e with
    | boiler_temp2 => Ok water
    | battery_soc => Ok soc
    | boiler_state => Ok "Connected"%string
    | boiler_heat => Ok "off"%string
    | _ => Ok "0"%string
    end;
  recorder := fun e _ _ =>
    match e with
    | boiler_temp2 => Some history
    | _ => Some ["0"%string]
    end;
  heating_temp := PyFloat.nearest 60;
  night_heating_temp := PyFloat.nearest 40;
  morning_time_time := PyTime.hms 6 0 0;
  manager_status_select := mode;
  pv_generation_forecast_today_sensor := 12000;
  pv_generation_forecast_tomorrow_sensor := 12000;
  mqtt_connected := true
|}.


(** The session as [async_setup_entry] leaves it, the manager running and
    the night-heating switch on. *)
Definition session_start : State := {|
  night_heating_event := None;
  night_heating_calc_event := None;
  night_heating_planned := false;
  night_heating_calc_planned := false;
  night_heating_canceled := false;
  night_preheating := false;
  boiler_power_on := false;
  manager_status_sensor := "Running";
  night_heating_switch := true;
  listeners := [];
  next_handle := 0;
  service_calls := []
|}.

(** The same session with the boiler commanded on. *)
Definition session_heating : State := set_boiler_power_on true session_start.

(** An evening tick plans the calculation for 02:36; the calculation, with
    the water at 20 C, plans the start; the start at 03:20 switches the
    boiler on to 40 C and plans the end at 06:00. *)
Definition heating_night : list Event :=
  [Tick (night 739000 20 0 "20" "50" "Manual" ["20"%string]);
   Fire 0 (night 739001 2 36 "20" "50" "Manual" ["20"%string]);
   Fire 1 (night 739001 3 20 "20" "50" "Manual" ["20"%string])].

(** The water is at 50 C, above the night target: the start finds it hot
    and cancels the cycle until the morning. *)
Definition warm_night : list Event :=
  [Tick (night 739000 20 0 "50" "50" "Manual" ["50"%string]);
   Fire 0 (night 739001 2 36 "50" "50" "Manual" ["50"%string]);
   Fire 1 (night 739001 4 0 "50" "50" "Manual" ["50"%string])].

(** The water is at 1 C, so the calculation at 02:36 finds the start
    overdue and calls it at once; the manager is in automatic mode and
    the battery sensor holds [50.5], which [int] refuses. *)
Definition cold_evening : World := night 739000 20 0 "1" "50.5" "Automatic" ["1"%string].
Definition cold_morning : World := night 739001 2 36 "1" "50.5" "Automatic" ["1"%string].
Definition cold_night : list Event := [Tick cold_evening; Fire 0 cold_morning].

End HassExample.

(* ================================================================== *)
(** * Properties *)

(* ------------------------------------------------------------------ *)
(** ** Python numbers *)

Lemma Qltb_lt x y : Qltb x y = true <-> (x < y)%Q.
Proof.
  unfold Qltb. rewrite negb_true_iff.
  destruct (Qle_bool y x) eqn:E.
  - apply Qle_bool_iff in E. split; [discriminate|].
    intros H. exfalso. apply (Qlt_not_le _ _ H E).
  - split; [intros _|reflexivity].
    apply Qnot_le_lt. intros H. apply Qle_bool_iff in H. congruence.
Qed.

Lemma Qltb_ge x y : Qltb x y = false <-> (y <= x)%Q.
Proof.
  unfold Qltb. rewrite negb_false_iff. apply Qle_bool_iff.
Qed.

Lemma Qgtb_gt x y : Qgtb x y = true <-> (y < x)%Q.
Proof. apply (Qltb_lt y x). Qed.

Lemma Qgtb_le x y : Qgtb x y = false <-> (x <= y)%Q.
Proof. apply (Qltb_ge y x). Qed.

Lemma Qgeb_ge x y : Qgeb x y = true <-> (y <= x)%Q.
Proof. apply Qle_bool_iff. Qed.

Lemma Qgeb_lt x y : Qgeb x y = false <-> (x < y)%Q.
Proof.
  unfold Qgeb. rewrite <- (negb_true_iff (Qle_bool y x)). apply (Qltb_lt x y).
Qed.

(* ------------------------------------------------------------------ *)
(** ** ThermalModel *)

Lemma py_not_true (x : option Z) : py_not x = true <-> x = None \/ x = Some 0.
Proof.
  destruct x as [z|]; simpl.
  - rewrite Z.eqb_eq. split.
    + intros ->. now right.
    + intros [H|H]; [discriminate | now injection H].
  - split; auto.
Qed.

(** C7.  [_calculate_boiler_heat] returns [(0, 0)], and does not raise,
    whenever the volume is zero or unset, or the power is zero or unset
    (whatever the temperatures are, [None] included), and whenever the
    temperature delta [target - current] is at most zero (whatever the power
    and the volume are). *)
Theorem calculate_boiler_heat_zero :
  forall (power volume : option Z) (water_temp temp_to_heat : option Q),
    (volume = None \/ volume = Some 0 \/ power = None \/ power = Some 0 ->
     _calculate_boiler_heat power volume water_temp temp_to_heat = Ok (0, 0)%Q)
    /\
    (forall w t, water_temp = Some w -> temp_to_heat = Some t -> (t - w <= 0)%Q ->
     _calculate_boiler_heat power volume water_temp temp_to_heat = Ok (0, 0)%Q).
Proof.
  intros power volume water_temp temp_to_heat. split.
  - intros H. unfold _calculate_boiler_heat.
    assert (E : py_not volume || py_not power = true).
    { apply orb_true_iff.
      destruct H as [H|[H|[H|H]]]; [left|left|right|right];
        apply py_not_true; auto. }
    now rewrite E.
  - intros w t -> -> Hdelta. unfold _calculate_boiler_heat.
    destruct (py_not volume || py_not power) eqn:E; [reflexivity|].
    apply orb_false_iff in E. destruct E as [Ev Ep].
    destruct power as [p|]; [|discriminate Ep].
    destruct volume as [v|]; [|discriminate Ev].
    assert (G : Qgeb w t = true).
    { apply Qgeb_ge. apply Qle_minus_iff.
      apply Qle_minus_iff in Hdelta.
      eapply Qle_trans; [exact Hdelta|].
      assert (X : (0 + - (t - w) == w + - t)%Q) by ring.
      rewrite X. apply Qle_refl. }
    now rewrite G.
Qed.

Lemma calculate_boiler_heat_zero_witness :
  _calculate_boiler_heat (Some 2000) None None None = Ok (0, 0)%Q
  /\ _calculate_boiler_heat (Some 2000) (Some 150) (Some 60%Q) (Some 45%Q) = Ok (0, 0)%Q.
Proof.
  split.
  - apply (proj1 (calculate_boiler_heat_zero (Some 2000) None None None)).
    left. reflexivity.
  - apply (proj2 (calculate_boiler_heat_zero (Some 2000) (Some 150)
                    (Some 60%Q) (Some 45%Q)) 60%Q 45%Q).
    + reflexivity.
    + reflexivity.
    + vm_compute. discriminate.
Defined.

(** C8, as the specification words it, fails: for 150 L, 2000 W, 40 C and a
    target of 75 C the result is not near 3.14 kWh and 94.2 minutes, not even
    within one kWh or ten minutes. *)
Lemma calculate_boiler_heat_example_not_3_14 :
  ~ (exists e t,
       _calculate_boiler_heat (Some 2000) (Some 150) (Some 40%Q) (Some 75%Q)
         = Ok (e, t)
       /\ ((Qabs (e - (314 # 100)) <= 1)%Q \/ (Qabs (t - (942 # 10)) <= 10)%Q)).
Proof.
  intros (e & t & H & Hnear).
  vm_compute in H. injection H as <- <-.
  destruct Hnear as [Hn|Hn]; vm_compute in Hn; apply Hn; reflexivity.
Qed.

(** C8, amended.  For 150 L, 2000 W, 40 C and a target of 75 C
    [_calculate_boiler_heat] returns 6.10 kWh of thermal energy and 183.14
    minutes of heating: [4.186 * 150 * 35 / 3600] and that energy over 2 kW. *)
Theorem calculate_boiler_heat_example :
  exists e t,
    _calculate_boiler_heat (Some 2000) (Some 150) (Some 40%Q) (Some 75%Q)
      = Ok (e, t)
    /\ (e == 610 # 100)%Q /\ (t == 18314 # 100)%Q.
Proof.
  exists (61 # 10)%Q, (9157 # 50)%Q. repeat split.
Qed.

(* ------------------------------------------------------------------ *)
(** ** The "planned time is in the past" predicate *)

(** C6.  The predicate departs from "at or before now, or within five
    minutes of now" in both directions: a candidate two minutes ahead of the
    clock is not reported as past; a candidate 23 h 56 min 30 s ahead is; a
    candidate of yesterday evening, forty minutes before the clock, is not. *)
Theorem planned_to_past_misses_guard_band :
  _planned_to_past (at_day 19800 12 0 0) (at_day 19800 12 2 0) = false
  /\ _planned_to_past (at_day 19800 0 0 30) (at_day 19800 23 57 0) = true
  /\ _planned_to_past (at_day 19800 0 10 0) (at_day 19799 23 30 0) = false.
Proof. repeat split. Qed.

(** What the predicate computes: the time of day of the candidate is at or
    before the time of day of the clock, or the seconds field of
    [now - candidate] is below 300. *)
Lemma planned_to_past_spec (now planned : Z) :
  _planned_to_past now planned = true
  <-> PyTime.time_of planned <= PyTime.time_of now
      \/ PyTime.seconds (now - planned) < 300.
Proof.
  unfold _planned_to_past. rewrite orb_true_iff, Z.leb_le, Qltb_lt.
  apply or_iff_compat_l.
  set (k := PyTime.seconds (now - planned)).
  unfold Qlt, Qdiv, Qmult, Qinv, inject_Z; simpl. lia.
Qed.

(** Every candidate later on the same day, up to 23 h 55 min ahead of the
    clock, is reported as not past: the five minutes after the clock are not
    a guard band of the predicate. *)
Lemma planned_to_past_ahead_same_day (now ahead : Z) :
  0 < ahead <= 86100 * us_per_second ->
  PyTime.time_of now + ahead < us_per_day ->
  _planned_to_past now (now + ahead) = false.
Proof.
  intros Hahead Hday.
  destruct (_planned_to_past now (now + ahead)) eqn:E; [|reflexivity].
  exfalso. apply planned_to_past_spec in E.
  unfold PyTime.time_of, PyTime.seconds in *.
  assert (Hd : 0 < us_per_day) by reflexivity.
  pose proof (Z.mod_pos_bound now us_per_day Hd) as Hnow.
  assert (H1 : (now + ahead) mod us_per_day = now mod us_per_day + ahead).
  { symmetry. apply Zmod_unique with (q := now / us_per_day); [lia|].
    pose proof (Z.div_mod now us_per_day ltac:(lia)). lia. }
  assert (H2 : (now - (now + ahead)) mod us_per_day = us_per_day - ahead).
  { symmetry. apply Zmod_unique with (q := -1); [|lia].
    unfold us_per_day, us_per_second in *. lia. }
  rewrite H1, H2 in E. destruct E as [E|E]; [lia|].
  assert (300 <= (us_per_day - ahead) / us_per_second); [|lia].
  apply Z.div_le_lower_bound; [reflexivity|].
  unfold us_per_day, us_per_second in *. lia.
Qed.

(* ------------------------------------------------------------------ *)
(** ** SensorAggregator *)

Lemma get_sensor_history_unfold recorder utcnow entity_id s_time mins secs min_val percentile :
  _get_sensor_history recorder utcnow entity_id s_time mins secs min_val percentile
  = match numeric_states (fetched recorder utcnow entity_id s_time mins secs) with
    | [] => Ok None
    | x :: rest =>
        match percentile with
        | Some p =>
            if negb (p =? 0) then
              match np_percentile (x :: rest) p with
              | Ok v => Ok (Some (round2 v))
              | Raise e => Raise e
              end
            else if min_val then Ok (Some (round2 (list_min x rest)))
            else Ok (Some (round2 (mean (x :: rest))))
        | None =>
            if min_val then Ok (Some (round2 (list_min x rest)))
            else Ok (Some (round2 (mean (x :: rest))))
        end
    end.
Proof.
  unfold _get_sensor_history, fetched.
  destruct (history_window utcnow s_time mins secs) as [start_time end_time].
  destruct (recorder entity_id start_time end_time) as [[|st states]|]; reflexivity.
Qed.

Lemma np_percentile_in_range (a : list Q) (p : Z) :
  0 <= p <= 100 -> exists v, np_percentile a p = Ok v.
Proof.
  intros [H0 H100]. unfold np_percentile.
  assert (E : (p <? 0) || (100 <? p) = false).
  { apply orb_false_iff. split; apply Z.ltb_ge; assumption. }
  rewrite E. eexists. reflexivity.
Qed.

Lemma list_min_member (l : list Q) :
  forall x, In (list_min x l) (x :: l).
Proof.
  unfold list_min. induction l as [|z l IH]; intros x; simpl.
  - now left.
  - destruct (IH (py_min x z)) as [H|H].
    + unfold py_min in H at 1. destruct (Qltb z x); [right; left | left]; exact H.
    + right; right; exact H.
Qed.

(* ------------------------------------------------------------------ *)
(** ** BoilerHysteresisController *)

Lemma skipn_length_app {A} (l l' : list A) : skipn (List.length l) (l ++ l') = l'.
Proof. induction l; simpl; auto. Qed.

Lemma skipn_length_self {A} (l : list A) : skipn (List.length l) l = [].
Proof. induction l; simpl; auto. Qed.

Section Hysteresis.

Variable entry : Config.
Variable w : World.

Let soc := states_float w battery_soc.
Let grid := states_float w grid_l.
Let load_now := states_float w critical_load.
Let power := inject_Z (boiler_power entry).

(** What [boiler_logic] does when the boiler is not commanded on. *)
Lemma boiler_logic_when_off (s : State) :
  boiler_power_on s = false ->
  let s' := snd (boiler_logic entry w s) in
  (start_conditions entry w /\ calls_since s s' = on_command w /\ boiler_power_on s' = true)
  \/ (~ start_conditions entry w /\ calls_since s s' = [] /\ boiler_power_on s' = false).
Proof.
  intros Hoff. unfold boiler_logic, start_conditions, calls_since, on_command.
  fold soc grid power.
  generalize (critical_loads_history w) (pv_power_history w). intros clh pvh.
  destruct s as [ne nce p cp c ph bpo st sw ls nh calls]. cbn in Hoff. subst bpo.
  destruct clh as [load|e1]; cbn.
  2:{ right. rewrite skipn_length_self. repeat split.
      intros (_ & _ & l & pv & H & _). discriminate H. }
  destruct pvh as [pvh|e2]; cbn.
  2:{ right. rewrite skipn_length_self. repeat split.
      intros (_ & _ & l & pv & _ & H & _). discriminate H. }
  destruct (Qltb soc (inject_Z (battery_soc_top entry))) eqn:E1; cbn.
  { right. rewrite skipn_length_self. repeat split.
    intros (H & _). apply Qltb_lt in E1. exact (Qlt_not_le _ _ E1 H). }
  destruct (Qgtb grid (inject_Z (grid_threshold entry))) eqn:E2; cbn.
  { right. rewrite skipn_length_self. repeat split.
    intros (_ & H & _). apply Qgtb_gt in E2. exact (Qlt_not_le _ _ E2 H). }
  destruct load as [load|]; cbn.
  2:{ right. rewrite skipn_length_self. repeat split.
      intros (_ & _ & l & pv & H & _). discriminate H. }
  destruct pvh as [pvh|]; cbn.
  2:{ right. rewrite skipn_length_self. repeat split.
      intros (_ & _ & l & pv & _ & H & _). discriminate H. }
  destruct (Qltb pvh ((75 # 100) * (load + power))) eqn:E3; cbn.
  { right. rewrite skipn_length_self. repeat split.
    intros (_ & _ & l & pv & Hl & Hp & H).
    injection Hl as <-. injection Hp as <-.
    apply Qltb_lt in E3. exact (Qlt_not_le _ _ E3 H). }
  left. apply Qltb_ge in E1, E3. apply Qgtb_le in E2. repeat split; auto.
  - exists load, pvh. auto.
  - rewrite <- app_assoc. apply skipn_length_app.
Qed.

(** The percentiles [boiler_logic] asks for are in range: its two history
    queries do not raise. *)
Lemma boiler_logic_histories_ok :
  exists load pv, critical_loads_history w = Ok load /\ pv_power_history w = Ok pv.
Proof.
  unfold critical_loads_history, pv_power_history.
  rewrite !get_sensor_history_unfold.
  destruct (numeric_states (fetched (recorder w) (utcnow w) critical_load None 0 30))
    as [|x rest];
    destruct (numeric_states (fetched (recorder w) (utcnow w) pv_power None 10 0))
    as [|y rest'];
    cbn [negb Z.eqb];
    try (destruct (np_percentile_in_range (x :: rest) 50) as [v ->]; [lia|]);
    try (destruct (np_percentile_in_range (y :: rest') 70) as [v' ->]; [lia|]);
    eexists; eexists; split; reflexivity.
Qed.

Ltac absurd_comparison :=
  match goal with
  | E : Qltb ?a ?b = false, H : (?a < ?b)%Q |- _ =>
      apply Qltb_ge in E; exact (Qlt_not_le _ _ H E)
  | E : Qgtb ?a ?b = false, H : (?b < ?a)%Q |- _ =>
      apply Qgtb_le in E; exact (Qlt_not_le _ _ H E)
  | E : String.eqb ?a ?b = false, H : ?a = ?b |- _ =>
      apply String.eqb_neq in E; contradiction
  | E : String.eqb ?a ?b = true, H : ?a <> ?b |- _ =>
      apply String.eqb_eq in E; contradiction
  end.

Ltac no_stop :=
  let H := fresh "H" in
  let Hl := fresh "Hl" in
  let Hp := fresh "Hp" in
  intros [H|[H|[(H & ? & ? & Hl & Hp & ? & ?)|(H & ? & ? & Hl & Hp & ? & ?)]]];
  try absurd_comparison;
  try discriminate Hl; try discriminate Hp;
  injection Hl as <-; injection Hp as <-; absurd_comparison.

(** What [boiler_logic] does when the boiler is commanded on. *)
Lemma boiler_logic_when_on (s : State) :
  boiler_power_on s = true ->
  let s' := snd (boiler_logic entry w s) in
  (stop_conditions entry w /\ calls_since s s' = off_command /\ boiler_power_on s' = false)
  \/ (~ stop_conditions entry w /\ calls_since s s' = [] /\ boiler_power_on s' = true).
Proof.
  intros Hon. unfold boiler_logic, stop_conditions, calls_since, off_command.
  fold soc grid power load_now.
  destruct boiler_logic_histories_ok as (clh & pvh & -> & ->).
  destruct s as [ne nce p cp c ph bpo st sw ls nh calls]. cbn in Hon. subst bpo.
  assert (Hstop : forall P : Prop, P ->
            P /\ skipn (List.length calls) (calls ++ [select_select_option "ANTIFREEZE"])
                 = [select_select_option "ANTIFREEZE"] /\ false = false).
  { intros P HP. split; [exact HP|]. split; [apply skipn_length_app | reflexivity]. }
  assert (Hkeep : forall P : Prop, ~ P ->
            ~ P /\ skipn (List.length calls) calls = [] /\ true = true).
  { intros P HP. split; [exact HP|]. split; [apply skipn_length_self | reflexivity]. }
  cbn.
  destruct (Qltb soc (inject_Z (battery_soc_bottom entry))) eqn:E1; cbn.
  { left. apply Hstop. left. now apply Qltb_lt. }
  destruct (Qgtb grid (inject_Z (grid_threshold entry))) eqn:E2; cbn.
  { left. apply Hstop. right; left. now apply Qgtb_gt. }
  destruct (String.eqb (states_str w boiler_heat) "off") eqn:E3; cbn.
  - destruct clh as [load|]; cbn; [|right; apply Hkeep; no_stop].
    destruct pvh as [pv|]; cbn; [|right; apply Hkeep; no_stop].
    destruct (Qltb pv ((7 # 10) * (load + power))) eqn:E4; cbn;
      [|right; apply Hkeep; no_stop].
    destruct (Qltb pv ((7 # 10) * (load_now + power))) eqn:E5; cbn;
      [|right; apply Hkeep; no_stop].
    left. apply Hstop. right; right; left.
    apply String.eqb_eq in E3. apply Qltb_lt in E4, E5.
    split; [exact E3|]. exists load, pv. auto.
  - destruct clh as [load|]; cbn; [|right; apply Hkeep; no_stop].
    destruct pvh as [pv|]; cbn; [|right; apply Hkeep; no_stop].
    destruct (Qltb pv ((7 # 10) * load)) eqn:E4; cbn;
      [|right; apply Hkeep; no_stop].
    destruct (Qltb pv ((7 # 10) * load_now)) eqn:E5; cbn;
      [|right; apply Hkeep; no_stop].
    left. apply Hstop. right; right; right.
    apply String.eqb_neq in E3. apply Qltb_lt in E4, E5.
    split; [exact E3|]. exists load, pv. auto.
Qed.

End Hysteresis.

(* ------------------------------------------------------------------ *)
(** ** NightPreheatScheduler *)

Lemma calculate_boiler_heat_returns (p v : Z) (w t : Q) :
  exists r, _calculate_boiler_heat (Some p) (Some v) (Some w) (Some t) = Ok r.
Proof.
  unfold _calculate_boiler_heat.
  destruct (py_not (Some v) || py_not (Some p)); [eexists; reflexivity|].
  destruct (Qgeb w t); eexists; reflexivity.
Qed.

Ltac no_raise :=
  match goal with
  | E : _calculate_boiler_heat (Some ?p) (Some ?v) (Some ?w) (Some ?t) = Raise _ |- _ =>
      let E' := fresh in
      destruct (calculate_boiler_heat_returns p v w t) as [? E'];
      rewrite E' in E; discriminate E
  end.

Ltac exec :=
  cbv beta iota zeta delta
    [bind ret raise gets modify lift operand track cancel not_awaited
     _boiler_power callback
     set_night_heating_event set_night_heating_calc_event
     set_night_heating_planned set_night_heating_calc_planned
     set_night_heating_canceled set_night_preheating set_boiler_power_on
     set_manager_status_sensor set_night_heating_switch set_listeners
     set_next_handle set_service_calls
     night_heating_event night_heating_calc_event night_heating_planned
     night_heating_calc_planned night_heating_canceled night_preheating
     boiler_power_on manager_status_sensor night_heating_switch listeners
     next_handle service_calls
     fst snd filter find negb orb andb action_of];
  rewrite ?Nat.eqb_refl.

Ltac path_step :=
  match goal with
  | |- context [lift ?r] => destruct r eqn:?; try no_raise
  | |- context [operand ?x] => destruct x
  | |- context [match ?r with Ok _ => _ | Raise _ => _ end] =>
      destruct r eqn:?; try no_raise
  | |- context [if ?c then _ else _] => destruct c eqn:?
  | |- context [match ?x with Some _ => _ | None => _ end] => destruct x
  | |- context [let (_, _) := ?p in _] =>
      match type of p with (Q * Q)%type => destruct p end
  end; exec.

Ltac all_paths := exec; repeat path_step.

Section Scheduler.

Variable entry : Config.
Variable w : World.

Ltac inv_done :=
  unfold scheduler_inv, at_most_one_flag, count_true, flags; exec; cbn;
  repeat split; auto; try lia.

Lemma plan_start_inv (s : State) :
  flags s = [true; false; false; false] ->
  (listeners s = []
   \/ exists h t, listeners s = [(h, t)] /\ night_heating_calc_event s = Some h) ->
  scheduler_inv (snd (_plan_start_night_pre_heating entry w s)).
Proof.
  destruct s as [ne nce p cp c ph bpo st sw ls nh calls]; unfold flags; cbn.
  intros [= -> -> -> ->] [->|(h & t & -> & ->)];
    unfold _plan_start_night_pre_heating, _start_night_pre_heating,
      schedule_end, _end_pre_heating;
    [destruct nce|]; destruct ne; all_paths; inv_done.
Qed.

Lemma start_inv (s : State) :
  flags s = [false; true; false; false] ->
  (listeners s = []
   \/ exists h t, listeners s = [(h, t)] /\ night_heating_event s = Some h) ->
  scheduler_inv (snd (_start_night_pre_heating entry w s)).
Proof.
  destruct s as [ne nce p cp c ph bpo st sw ls nh calls]; unfold flags; cbn.
  intros [= -> -> -> ->] [->|(h & t & -> & ->)];
    unfold _start_night_pre_heating, schedule_end, _end_pre_heating;
    [destruct ne|]; all_paths; inv_done.
Qed.

Lemma end_inv (s : State) :
  flags s = [false; false; false; true] \/ flags s = [false; false; true; false] ->
  (listeners s = []
   \/ exists h t, listeners s = [(h, t)] /\ night_heating_event s = Some h) ->
  scheduler_inv (snd (_end_pre_heating s)).
Proof.
  destruct s as [ne nce p cp c ph bpo st sw ls nh calls]; unfold flags; cbn.
  intros [[= -> -> -> ->]|[= -> -> -> ->]] [->|(h & t & -> & ->)];
    unfold _end_pre_heating; try destruct ne; all_paths; inv_done.
Qed.

Lemma run_inv (s : State) :
  scheduler_inv s -> scheduler_inv (snd (run entry w s)).
Proof.
  destruct s as [ne nce p cp c ph bpo st sw ls nh calls].
  unfold scheduler_inv at 1, at_most_one_flag, count_true, flags; cbn.
  destruct ls as [|[h t] [|? ?]]; [| |contradiction].
  - intros Hflags.
    unfold run, night_pre_heating, boiler_logic.
    destruct cp, p, ph, c; cbn in Hflags; try lia;
      all_paths; inv_done.
  - destruct t as [pt [| |]|hh mm ss [| |]]; cbn;
      intros [Hflags ->];
      [injection Hflags as -> -> -> -> | injection Hflags as -> -> -> ->
      | destruct Hflags as [Hflags|Hflags]; injection Hflags as -> -> -> ->
      | injection Hflags as -> -> -> -> | injection Hflags as -> -> -> ->
      | destruct Hflags as [Hflags|Hflags]; injection Hflags as -> -> -> ->];
      unfold run, night_pre_heating, boiler_logic;
      all_paths; inv_done.
Qed.

End Scheduler.

Lemma callback_inv (entry : Config) (w : World) (c : Callback) (s : State) :
  match c with
  | plan_start_cb =>
      flags s = [true; false; false; false]
      /\ (listeners s = []
          \/ exists h t, listeners s = [(h, t)] /\ night_heating_calc_event s = Some h)
  | start_cb =>
      flags s = [false; true; false; false]
      /\ (listeners s = []
          \/ exists h t, listeners s = [(h, t)] /\ night_heating_event s = Some h)
  | end_cb =>
      (flags s = [false; false; false; true] \/ flags s = [false; false; true; false])
      /\ (listeners s = []
          \/ exists h t, listeners s = [(h, t)] /\ night_heating_event s = Some h)
  end ->
  scheduler_inv (snd (callback entry c w s)).
Proof.
  destruct c; intros [Hflags Hls]; cbn [callback].
  - now apply plan_start_inv.
  - now apply start_inv.
  - now apply end_inv.
Qed.

(** Every event other than a toggle of the switch keeps the invariant. *)
Lemma step_inv (entry : Config) (ev : Event) (s : State) :
  match ev with Toggle _ _ => False | _ => True end ->
  scheduler_inv s -> scheduler_inv (step entry ev s).
Proof.
  destruct ev as [w|h w|v w]; [intros _|intros _|contradiction].
  - apply run_inv.
  - intros Hinv. unfold step, find_listener.
    destruct s as [ne nce p cp c ph bpo st sw ls nh calls].
    revert Hinv. unfold scheduler_inv at 1. cbn [listeners].
    destruct ls as [|[h' t] [|? ?]]; [auto| |contradiction].
    cbn [find fst]. destruct (Nat.eqb h' h) eqn:Eh; [|auto].
    apply Nat.eqb_eq in Eh. subst h'.
    destruct t as [pt a|hh mm ss a]; cbn [action_of]; intros Hinv.
    + change (scheduler_inv
                (snd (callback entry a w
                        (set_listeners
                           (filter (fun ht => negb (Nat.eqb (fst ht) h)) [(h, point_in_utc_time pt a)])
                           (mkState ne nce p cp c ph bpo st sw
                              [(h, point_in_utc_time pt a)] nh calls))))).
      cbn [filter fst]. rewrite Nat.eqb_refl. cbn [negb].
      apply callback_inv.
      destruct a; destruct Hinv as [Hflags _]; (split; [exact Hflags | now left]).
    + apply callback_inv.
      destruct a; destruct Hinv as [Hflags Hh];
        (split; [exact Hflags | right; eexists; eexists; split; [reflexivity | exact Hh]]).
Qed.

Lemma run_events_inv (entry : Config) (evs : list Event) :
  forall s, switch_untouched evs -> scheduler_inv s ->
            scheduler_inv (run_events entry evs s).
Proof.
  induction evs as [|ev evs IH]; intros s Hevs Hinv; cbn.
  - exact Hinv.
  - apply IH.
    + intros ev' Hin. apply Hevs. now right.
    + apply step_inv; [apply Hevs; now left | exact Hinv].
Qed.

(* ------------------------------------------------------------------ *)
(** ** The night-heating switch *)

(** Toggling the switch never reaches the actuator: the only call of
    [_boiler_power] in [_toggle_state] is not awaited. *)
Lemma toggle_state_makes_no_service_call (value : bool) (w : World) (s : State) :
  service_calls (snd (_toggle_state value w s)) = service_calls s.
Proof.
  destruct s as [ne nce p cp c ph bpo st sw ls nh calls].
  unfold _toggle_state. destruct value, ne, nce; all_paths; reflexivity.
Qed.


(** C4.  In the session above pre-heating is active, the boiler is commanded
    on and the hardware reports it heating.  Turning the switch off at 04:00
    cancels the pending listener and resets the four flags, but no off
    command reaches the actuator: no service call is made at all and the
    boiler stays commanded on. *)
Theorem switch_off_sends_no_off_command :
  let w := Example.world 19801 4 0 20 75 "Manual" 50 0 in
  let s' := step Example.entry (Toggle false w) preheat_active in
  night_preheating preheat_active = true
  /\ boiler_power_on preheat_active = true
  /\ states_str w boiler_heat = "on"%string
  /\ calls_since preheat_active s' = []
  /\ count_occ ServiceCall_eq_dec (service_calls s')
       (select_select_option "ANTIFREEZE") = 0%nat
  /\ boiler_power_on s' = true
  /\ listeners s' = []
  /\ idle s'.
Proof. vm_compute. repeat split. Qed.

(* ------------------------------------------------------------------ *)
(** ** ForecastEnergyBalancer *)

Lemma claimed_battery_energy_nonneg (capacity_Wh soc_target soc_now : Z) :
  0 <= capacity_Wh -> (0 <= claimed_battery_energy capacity_Wh soc_target soc_now)%Q.
Proof.
  intros Hc. unfold claimed_battery_energy.
  assert (Hm : 0 <= Z.max (soc_target - soc_now) 0) by lia.
  unfold Qle, Qdiv, Qmult, Qinv, inject_Z; simpl. nia.
Qed.

(** The function itself computes the top-up of the specification's example:
    0.72 kWh for 4800 Wh from 50 to 65 percent. *)
Lemma calculate_battery_energy_example :
  (_calculate_battery_energy 4800 50 65 == 72 # 100)%Q.
Proof. reflexivity. Qed.

(** C5.  In forecast-driven mode the start trigger does not balance the
    energy the specification describes.

    First input: 150 l, day target 75 C, temperature variable 20, night target
    40 C, battery 4800 Wh at 50 percent, forecast 2000 Wh.  The day needs a
    rise of 15 degrees, 2.62 kWh, which alone exceeds the forecast, whatever
    the battery needs; the code calls the thermal model with the rise as the
    target temperature, gets 0, and starts pre-heating.

    Second input: day target 60 C (no day-heating need), forecast 800 Wh.
    The specification's top-up to 65 percent is 0.72 kWh, within the
    forecast; the code takes [capacity * bottom threshold / 100] as the
    capacity and 80 percent as the target, gets 0.86 kWh, and cancels. *)
Theorem forecast_balance_departs_from_claim :
  let w1 := Example.world 19801 3 15 20 75 "Automatic" 50 2000 in
  let s1 := step Example.entry (Fire 1 w1) start_planned in
  let w2 := Example.world 19801 3 15 20 60 "Automatic" 50 800 in
  let s2 := step Example.entry (Fire 1 w2) start_planned in
  ((inject_Z 2000 / 1000 < claimed_thermal_energy 150 75 20 10 40)%Q
   /\ _calculate_boiler_heat (Some 2000) (Some 150) (Some 40%Q) (Some 15%Q)
      = Ok (0, 0)%Q
   /\ night_preheating s1 = true
   /\ calls_since start_planned s1
      = [climate_set_temperature (Some 40%Q); select_select_option "MANUAL"])
  /\
  ((claimed_required_energy 150 60 20 10 40 4800 65 50 == 72 # 100)%Q
   /\ (claimed_required_energy 150 60 20 10 40 4800 65 50 <= inject_Z 800 / 1000)%Q
   /\ (_calculate_battery_energy (4800 * 60 / 100) 50 battery_to_charge_default
       == 86 # 100)%Q
   /\ night_heating_canceled s2 = true
   /\ night_preheating s2 = false
   /\ calls_since start_planned s2 = []).
Proof.
  vm_compute. repeat split; intros H; discriminate H.
Qed.

(** The first input, for every target of the battery top-up: the claimed
    requirement exceeds the forecast of 2 kWh. *)
Lemma claimed_required_energy_exceeds_forecast (soc_target : Z) :
  (inject_Z 2000 / 1000 < claimed_required_energy 150 75 20 10 40 4800 soc_target 50)%Q.
Proof.
  unfold claimed_required_energy.
  assert (H := claimed_battery_energy_nonneg 4800 soc_target 50 ltac:(lia)).
  assert (T : (inject_Z 2000 / 1000 < claimed_thermal_energy 150 75 20 10 40)%Q)
    by reflexivity.
  eapply Qlt_le_trans; [exact T|].
  rewrite <- (Qplus_0_r (claimed_thermal_energy 150 75 20 10 40)) at 1.
  apply Qplus_le_r. exact H.
Qed.

(* ================================================================== *)
(** * Further properties of the code *)

(* ------------------------------------------------------------------ *)
(** ** Rounding *)

Lemma round_half_even_comp (x y : Q) :
  (x == y)%Q -> round_half_even x = round_half_even y.
Proof.
  intros H. unfold round_half_even.
  rewrite (Qfloor_comp x y H).
  assert (E : ((x - inject_Z (Qfloor y)) ?= 1 # 2)%Q
              = ((y - inject_Z (Qfloor y)) ?= 1 # 2)%Q).
  { apply Qcompare_comp; [rewrite H; reflexivity | reflexivity]. }
  now rewrite E.
Qed.

(** The rounded integer is within one half of the number. *)
Lemma round_half_even_near (x : Q) :
  (inject_Z (round_half_even x) - (1 # 2) <= x
   /\ x <= inject_Z (round_half_even x) + (1 # 2))%Q.
Proof.
  unfold round_half_even.
  pose proof (Qfloor_le x) as Hlo.
  pose proof (Qlt_floor x) as Hhi.
  rewrite inject_Z_plus in Hhi. change (inject_Z 1) with 1%Q in Hhi.
  destruct (Qcompare_spec (x - inject_Z (Qfloor x)) (1 # 2)) as [E|E|E].
  - destruct (Z.even (Qfloor x));
      [|rewrite inject_Z_plus; change (inject_Z 1) with 1%Q]; lra.
  - lra.
  - rewrite inject_Z_plus. change (inject_Z 1) with 1%Q. lra.
Qed.

Lemma round_half_even_mono (x y : Q) :
  (x <= y)%Q -> round_half_even x <= round_half_even y.
Proof.
  intros Hxy.
  destruct (Z_le_gt_dec (round_half_even x) (round_half_even y)) as [H|H]; [exact H|].
  exfalso.
  destruct (round_half_even_near x) as [Hx _].
  destruct (round_half_even_near y) as [_ Hy].
  assert (Hz : (inject_Z (round_half_even y) + 1 <= inject_Z (round_half_even x))%Q).
  { change 1%Q with (inject_Z 1). rewrite <- inject_Z_plus, <- Zle_Qle. lia. }
  assert (Heq : (x == y)%Q) by lra.
  apply round_half_even_comp in Heq. lia.
Qed.

Lemma round2_comp (x y : Q) : (x == y)%Q -> round2 x = round2 y.
Proof.
  intros H. unfold round2.
  rewrite (round_half_even_comp (x * 100) (y * 100)); [reflexivity|].
  now rewrite H.
Qed.

Lemma round2_mono (x y : Q) : (x <= y)%Q -> (round2 x <= round2 y)%Q.
Proof.
  intros H. unfold round2. rewrite !Qred_correct.
  unfold Qle; simpl.
  apply Z.mul_le_mono_nonneg_r; [lia|].
  apply round_half_even_mono. lra.
Qed.

Lemma round2_nonneg (x : Q) : (0 <= x)%Q -> (0 <= round2 x)%Q.
Proof.
  intros H. change 0%Q with (round2 0). now apply round2_mono.
Qed.

(** Rounding to two decimals moves a number by at most 0.005. *)
Lemma round2_near (x : Q) :
  (round2 x - (5 # 1000) <= x /\ x <= round2 x + (5 # 1000))%Q.
Proof.
  unfold round2. rewrite Qred_correct.
  destruct (round_half_even_near (x * 100)) as [Hlo Hhi].
  assert (E : (round_half_even (x * 100) # 100
               == inject_Z (round_half_even (x * 100)) * (1 # 100))%Q).
  { unfold Qeq, Qmult, inject_Z; simpl. lia. }
  rewrite E. split; lra.
Qed.

(* ------------------------------------------------------------------ *)
(** ** ThermalModel, further *)

Lemma thermal_energy_mono (v : Z) (d d' : Q) :
  0 <= v -> (d <= d')%Q ->
  ((4186 # 1000) * inject_Z v * d / 3600 <= (4186 # 1000) * inject_Z v * d' / 3600)%Q.
Proof.
  intros Hv Hd.
  assert (Hc : (0 <= (4186 # 1000) * inject_Z v)%Q).
  { apply Qmult_le_0_compat; [discriminate|].
    change 0%Q with (inject_Z 0). now rewrite <- Zle_Qle. }
  unfold Qdiv. apply Qmult_le_compat_r; [|discriminate].
  rewrite !(Qmult_comm ((4186 # 1000) * inject_Z v)).
  now apply Qmult_le_compat_r.
Qed.

Lemma heating_minutes_mono (p : Z) (e e' : Q) :
  0 < p -> (e <= e')%Q ->
  (e / (inject_Z p / 1000) * 60 <= e' / (inject_Z p / 1000) * 60)%Q.
Proof.
  intros Hp He.
  assert (Hk : (0 < inject_Z p / 1000)%Q).
  { apply Qlt_shift_div_l; [reflexivity|].
    rewrite Qmult_0_l. change 0%Q with (inject_Z 0). now rewrite <- Zlt_Qlt. }
  apply Qmult_le_compat_r; [|discriminate].
  unfold Qdiv at 1 3. apply Qmult_le_compat_r; [exact He|].
  apply Qlt_le_weak. now apply Qinv_lt_0_compat.
Qed.

(** Neither component of a result of the thermal model is negative. *)
Lemma boiler_heat_result_nonneg (p v : Z) (w t e m : Q) :
  0 < p -> 0 <= v ->
  _calculate_boiler_heat (Some p) (Some v) (Some w) (Some t) = Ok (e, m) ->
  (0 <= e)%Q /\ (0 <= m)%Q.
Proof.
  intros Hp Hv. unfold _calculate_boiler_heat.
  destruct (py_not (Some v) || py_not (Some p)).
  { intros [= <- <-]. split; apply Qle_refl. }
  destruct (Qgeb w t) eqn:E.
  { intros [= <- <-]. split; apply Qle_refl. }
  apply Qgeb_lt in E. intros [= <- <-].
  assert (He : (0 <= (4186 # 1000) * inject_Z v * (t - w) / 3600)%Q).
  { assert (Z0 : (0 == (4186 # 1000) * inject_Z v * 0 / 3600)%Q) by (unfold Qdiv; ring).
    rewrite Z0 at 1. apply thermal_energy_mono; [exact Hv | lra]. }
  split; apply round2_nonneg; [exact He|].
  assert (Z0 : (0 == 0 / (inject_Z p / 1000) * 60)%Q)
    by (unfold Qdiv; ring).
  rewrite Z0 at 1. now apply heating_minutes_mono.
Qed.

(** X1.  For a positive power and a non-negative volume the thermal model
    returns an energy and a duration, neither of them negative. *)
Theorem calculate_boiler_heat_nonneg (p v : Z) (w t : Q) :
  0 < p -> 0 <= v ->
  exists e m,
    _calculate_boiler_heat (Some p) (Some v) (Some w) (Some t) = Ok (e, m)
    /\ (0 <= e)%Q /\ (0 <= m)%Q.
Proof.
  intros Hp Hv.
  destruct (calculate_boiler_heat_returns p v w t) as [[e m] H].
  exists e, m. split; [exact H|].
  exact (boiler_heat_result_nonneg p v w t e m Hp Hv H).
Qed.

Lemma calculate_boiler_heat_nonneg_witness :
  exists e m,
    _calculate_boiler_heat (Some 2000) (Some 150) (Some 40%Q) (Some 75%Q) = Ok (e, m)
    /\ (0 <= e)%Q /\ (0 <= m)%Q.
Proof.
  apply (calculate_boiler_heat_nonneg 2000 150 40 75); lia.
Defined.

(** X2.  A larger temperature rise never needs less energy nor less time:
    with the same positive power and non-negative volume, if
    [t - w <= t' - w'] then the energy and the duration returned for
    [(w', t')] are at least those returned for [(w, t)]. *)
Theorem calculate_boiler_heat_mono (p v : Z) (w t w' t' e m e' m' : Q) :
  0 < p -> 0 <= v -> (t - w <= t' - w')%Q ->
  _calculate_boiler_heat (Some p) (Some v) (Some w) (Some t) = Ok (e, m) ->
  _calculate_boiler_heat (Some p) (Some v) (Some w') (Some t') = Ok (e', m') ->
  (e <= e')%Q /\ (m <= m')%Q.
Proof.
  intros Hp Hv Hd H H'.
  pose proof (boiler_heat_result_nonneg p v w' t' e' m' Hp Hv H') as Hnn.
  revert H H'. unfold _calculate_boiler_heat.
  destruct (py_not (Some v) || py_not (Some p)).
  { intros [= <- <-] _. exact Hnn. }
  destruct (Qgeb w t) eqn:E.
  { intros [= <- <-] _. exact Hnn. }
  apply Qgeb_lt in E.
  destruct (Qgeb w' t') eqn:E'.
  { apply Qgeb_ge in E'. exfalso. lra. }
  intros [= <- <-] [= <- <-].
  pose proof (thermal_energy_mono v (t - w) (t' - w') Hv Hd) as He.
  split; apply round2_mono; [exact He|].
  now apply heating_minutes_mono.
Qed.

Lemma calculate_boiler_heat_mono_witness :
  (157 # 50 <= 61 # 10)%Q /\ (4709 # 50 <= 9157 # 50)%Q.
Proof.
  apply (calculate_boiler_heat_mono 2000 150 40 58 40 75);
    [lia | lia | vm_compute; discriminate | reflexivity | reflexivity].
Defined.

(** X3.  The battery top-up is never negative for a non-negative capacity,
    is zero once the state of charge has reached the target, and never grows
    with the state of charge. *)
Theorem calculate_battery_energy_bounds (capacity : Q) (soc soc' target : Z) :
  (0 <= capacity)%Q -> soc <= soc' ->
  (0 <= _calculate_battery_energy capacity soc' target)%Q
  /\ (_calculate_battery_energy capacity soc' target
      <= _calculate_battery_energy capacity soc target)%Q
  /\ (target <= soc -> _calculate_battery_energy capacity soc target = 0%Q).
Proof.
  intros Hc Hs.
  assert (Hnn : forall x, (0 <= _calculate_battery_energy capacity x target)%Q).
  { intros x. unfold _calculate_battery_energy.
    destruct (Qeq_bool capacity 0); [apply Qle_refl|].
    destruct (x >=? target) eqn:E; [apply Qle_refl|].
    apply round2_nonneg.
    assert (Hx : (0 <= inject_Z (target - x))%Q).
    { change 0%Q with (inject_Z 0). rewrite <- Zle_Qle.
      rewrite Z.geb_leb in E. apply Z.leb_gt in E. lia. }
    unfold Qdiv. repeat apply Qmult_le_0_compat; try discriminate; assumption. }
  split; [apply Hnn|]. split.
  - unfold _calculate_battery_energy at 1.
    destruct (Qeq_bool capacity 0) eqn:E0.
    { unfold _calculate_battery_energy. rewrite E0. apply Qle_refl. }
    destruct (soc' >=? target) eqn:E'; [apply Hnn|].
    unfold _calculate_battery_energy. rewrite E0.
    rewrite Z.geb_leb in E'. apply Z.leb_gt in E'.
    replace (soc >=? target) with false
      by (symmetry; rewrite Z.geb_leb; apply Z.leb_gt; lia).
    apply round2_mono.
    assert (Hd : (inject_Z (target - soc') <= inject_Z (target - soc))%Q)
      by (rewrite <- Zle_Qle; lia).
    assert (Hk : (0 <= capacity / 1000)%Q)
      by (unfold Qdiv; apply Qmult_le_0_compat; [assumption | discriminate]).
    unfold Qdiv. apply Qmult_le_compat_r; [|discriminate].
    rewrite !(Qmult_comm (capacity * / 1000)).
    now apply Qmult_le_compat_r.
  - intros Ht. unfold _calculate_battery_energy.
    destruct (Qeq_bool capacity 0); [reflexivity|].
    replace (soc >=? target) with true
      by (symmetry; rewrite Z.geb_leb; apply Z.leb_le; lia).
    reflexivity.
Qed.

Lemma calculate_battery_energy_bounds_witness :
  (0 <= _calculate_battery_energy 2880 70 80)%Q
  /\ (_calculate_battery_energy 2880 70 80 <= _calculate_battery_energy 2880 50 80)%Q
  /\ (80 <= 50 -> _calculate_battery_energy 2880 50 80 = 0%Q).
Proof.
  apply (calculate_battery_energy_bounds 2880 50 70 80); [discriminate | lia].
Defined.

(* ------------------------------------------------------------------ *)
(** ** The "planned time is in the past" predicate, further *)

(** X4.  The predicate ignores dates: moving the candidate, or the clock, by
    whole days does not change its answer. *)
Theorem planned_to_past_ignores_dates (now planned k : Z) :
  _planned_to_past now (planned + k * us_per_day) = _planned_to_past now planned
  /\ _planned_to_past (now + k * us_per_day) planned = _planned_to_past now planned.
Proof.
  assert (Hd : us_per_day <> 0) by discriminate.
  unfold _planned_to_past, PyTime.time_of, PyTime.seconds. split.
  - rewrite Z.mod_add by exact Hd.
    replace (now - (planned + k * us_per_day))
      with (now - planned + (- k) * us_per_day) by ring.
    rewrite Z.mod_add by exact Hd. reflexivity.
  - rewrite Z.mod_add by exact Hd.
    replace (now + k * us_per_day - planned)
      with (now - planned + k * us_per_day) by ring.
    rewrite Z.mod_add by exact Hd. reflexivity.
Qed.

(* ------------------------------------------------------------------ *)
(** ** The control tick *)

(** The state a control tick leaves with the boiler disconnected. *)
Lemma run_when_disconnected (entry : Config) (w : World) (s : State) :
  states_str w boiler_state = "Disconnected"%string ->
  snd (run entry w s) = set_manager_status_sensor paused s.
Proof.
  intros Hd. destruct s as [ne nce p cp c ph bpo st sw ls nh calls].
  unfold run, paused. exec. rewrite Hd. cbn [String.eqb Ascii.eqb Bool.eqb].
  destruct (String.eqb st "Paused - Warning (Boiler Disconnected)") eqn:E; exec.
  - apply String.eqb_eq in E. subst st. reflexivity.
  - reflexivity.
Qed.

(** X6.  With the boiler disconnected a control tick returns normally and
    does nothing but set the manager status to the pause warning: no flag,
    listener, handle or service call changes. *)
Theorem run_boiler_disconnected (entry : Config) (w : World) (s : State) :
  states_str w boiler_state = "Disconnected"%string ->
  run entry w s = (Ok tt, set_manager_status_sensor paused s).
Proof.
  intros Hd. destruct s as [ne nce p cp c ph bpo st sw ls nh calls].
  unfold run, paused. exec. rewrite Hd. cbn [String.eqb Ascii.eqb Bool.eqb].
  destruct (String.eqb st "Paused - Warning (Boiler Disconnected)") eqn:E; exec.
  - apply String.eqb_eq in E. subst st. reflexivity.
  - reflexivity.
Qed.

Lemma run_boiler_disconnected_witness :
  run Example.entry
         {| utcnow := 0; states_float := fun _ => 0%Q; states_int := fun _ => 0;
            states_str := fun _ => "Disconnected"%string;
            recorder := fun _ _ _ => None; heating_temp := 0; night_heating_temp := 0;
            morning_time_time := 0; manager_status_select := "Manual";
            pv_generation_forecast_today_sensor := 0;
            pv_generation_forecast_tomorrow_sensor := 0; mqtt_connected := true |}
         Example.session_start
  = (Ok tt, set_manager_status_sensor paused Example.session_start).
Proof. apply run_boiler_disconnected. reflexivity. Defined.

(** X7.  A control tick makes no service call and leaves the commanded-on
    flag alone while night pre-heating is active, while the phase is unknown,
    and while MQTT is down under the automatic solar configuration. *)
Theorem run_hysteresis_gated (entry : Config) (w : World) (s : State) :
  night_preheating s = true
  \/ phase entry = None \/ phase entry = Some 0
  \/ (solar_conf_mode entry = "automatic"%string /\ mqtt_connected w = false) ->
  let s' := snd (run entry w s) in
  service_calls s' = service_calls s /\ boiler_power_on s' = boiler_power_on s.
Proof.
  destruct s as [ne nce p cp c ph bpo st sw ls nh calls]. cbn [night_preheating].
  intros H. unfold run, night_pre_heating. 
  destruct H as [->|[H|[H|[H1 H2]]]].
  - all_paths; split; reflexivity.
  - rewrite H. all_paths; split; reflexivity.
  - rewrite H. all_paths; solve [split; reflexivity | discriminate].
  - rewrite H1, H2. cbn [String.eqb Ascii.eqb Bool.eqb andb negb].
    all_paths; split; reflexivity.
Qed.

Lemma run_hysteresis_gated_witness :
  let s' := snd (run Example.entry (midday 3000 90 "off") preheat_active) in
  service_calls s' = service_calls preheat_active
  /\ boiler_power_on s' = boiler_power_on preheat_active.
Proof.
  apply run_hysteresis_gated. left. reflexivity.
Defined.

(** X8.  After the boiler reconnects the status is [Running], whatever it
    was before the pause: a tick with the boiler disconnected followed by a
    tick with the boiler connected leaves the status sensor at [Running]. *)
Theorem run_pause_resume (entry : Config) (w1 w2 : World) (s : State) :
  states_str w1 boiler_state = "Disconnected"%string ->
  states_str w2 boiler_state <> "Disconnected"%string ->
  manager_status_sensor (snd (run entry w2 (snd (run entry w1 s)))) = "Running"%string.
Proof.
  intros H1 H2. rewrite (run_when_disconnected entry w1 s H1).
  apply String.eqb_neq in H2.
  destruct s as [ne nce p cp c ph bpo st sw ls nh calls].
  unfold run, night_pre_heating, boiler_logic, paused. exec. rewrite H2.
  cbn [String.eqb Ascii.eqb Bool.eqb]. all_paths; reflexivity.
Qed.

Lemma run_pause_resume_witness :
  manager_status_sensor
    (snd (run Example.entry (midday 3000 90 "off")
            (snd (run Example.entry
                    {| utcnow := 0; states_float := fun _ => 0%Q; states_int := fun _ => 0;
                       states_str := fun _ => "Disconnected"%string;
                       recorder := fun _ _ _ => None; heating_temp := 0;
                       night_heating_temp := 0; morning_time_time := 0;
                       manager_status_select := "Manual";
                       pv_generation_forecast_today_sensor := 0;
                       pv_generation_forecast_tomorrow_sensor := 0;
                       mqtt_connected := true |}
                    Example.session_start))))
  = "Running"%string.
Proof.
  apply run_pause_resume; [reflexivity | discriminate].
Defined.

(* ------------------------------------------------------------------ *)
(** ** BoilerHysteresisController, further *)

(** The start conditions exclude the stop conditions. *)
Lemma start_excludes_stop (entry : Config) (w : World) :
  battery_soc_bottom entry <= battery_soc_top entry ->
  0 <= boiler_power entry ->
  (forall load, critical_loads_history w = Ok (Some load) -> (0 <= load)%Q) ->
  start_conditions entry w -> stop_conditions entry w -> False.
Proof.
  intros Hbt Hp Hload (Hsoc & Hgrid & load & pv & Hl & Hpv & Hstart) Hstop.
  pose proof (Hload load Hl) as Hl0.
  assert (Hp0 : (0 <= inject_Z (boiler_power entry))%Q)
    by (change 0%Q with (inject_Z 0); now rewrite <- Zle_Qle).
  assert (Hbt0 : (inject_Z (battery_soc_bottom entry)
                  <= inject_Z (battery_soc_top entry))%Q)
    by now rewrite <- Zle_Qle.
  destruct Hstop as [H|[H|[(_ & l & p & Hl' & Hp' & H & _)|(_ & l & p & Hl' & Hp' & H & _)]]].
  - lra.
  - lra.
  - rewrite Hl in Hl'. rewrite Hpv in Hp'.
    injection Hl' as <-. injection Hp' as <-. lra.
  - rewrite Hl in Hl'. rewrite Hpv in Hp'.
    injection Hl' as <-. injection Hp' as <-. lra.
Qed.

(** X9.  With the bottom threshold not above the top threshold, a
    non-negative boiler power and a non-negative critical-load statistic, the
    start conditions and the stop conditions never hold together. *)
Theorem start_stop_exclusive (entry : Config) (w : World) :
  battery_soc_bottom entry <= battery_soc_top entry ->
  0 <= boiler_power entry ->
  (forall load, critical_loads_history w = Ok (Some load) -> (0 <= load)%Q) ->
  ~ (start_conditions entry w /\ stop_conditions entry w).
Proof.
  intros Hbt Hp Hload [Hstart Hstop].
  exact (start_excludes_stop entry w Hbt Hp Hload Hstart Hstop).
Qed.

Lemma start_stop_exclusive_witness :
  ~ (start_conditions Example.entry (midday 3000 90 "off")
     /\ stop_conditions Example.entry (midday 3000 90 "off")).
Proof.
  apply start_stop_exclusive.
  - vm_compute. discriminate.
  - vm_compute. discriminate.
  - intros load H. vm_compute in H. injection H as <-. discriminate.
Defined.

(** X10.  Under the same assumptions the controller does not oscillate on
    stable readings: a second run of [boiler_logic] in the same world makes
    no service call and leaves the commanded-on flag as the first run set
    it. *)
Theorem boiler_logic_stable (entry : Config) (w : World) (s : State) :
  battery_soc_bottom entry <= battery_soc_top entry ->
  0 <= boiler_power entry ->
  (forall load, critical_loads_history w = Ok (Some load) -> (0 <= load)%Q) ->
  let s1 := snd (boiler_logic entry w s) in
  let s2 := snd (boiler_logic entry w s1) in
  calls_since s1 s2 = [] /\ boiler_power_on s2 = boiler_power_on s1.
Proof.
  intros Hbt Hp Hload s1 s2.
  assert (Hex : ~ (start_conditions entry w /\ stop_conditions entry w))
    by (intros [Hs Ht]; exact (start_excludes_stop entry w Hbt Hp Hload Hs Ht)).
  destruct (boiler_power_on s) eqn:Hflag.
  - destruct (boiler_logic_when_on entry w s Hflag) as [(Hc & _ & H1)|(Hc & _ & H1)];
      fold s1 in H1.
    + destruct (boiler_logic_when_off entry w s1 H1) as [(Hc' & _)|(_ & H2 & H3)].
      * exfalso. apply Hex. split; assumption.
      * fold s2 in H2, H3. rewrite H1, H3. split; [exact H2 | reflexivity].
    + destruct (boiler_logic_when_on entry w s1 H1) as [(Hc' & _)|(_ & H2 & H3)].
      * contradiction.
      * fold s2 in H2, H3. rewrite H1, H3. split; [exact H2 | reflexivity].
  - destruct (boiler_logic_when_off entry w s Hflag) as [(Hc & _ & H1)|(Hc & _ & H1)];
      fold s1 in H1.
    + destruct (boiler_logic_when_on entry w s1 H1) as [(Hc' & _)|(_ & H2 & H3)].
      * exfalso. apply Hex. split; assumption.
      * fold s2 in H2, H3. rewrite H1, H3. split; [exact H2 | reflexivity].
    + destruct (boiler_logic_when_off entry w s1 H1) as [(Hc' & _)|(_ & H2 & H3)].
      * contradiction.
      * fold s2 in H2, H3. rewrite H1, H3. split; [exact H2 | reflexivity].
Qed.

Lemma boiler_logic_stable_witness :
  let s1 := snd (boiler_logic Example.entry (midday 3000 90 "off") Example.session_start) in
  let s2 := snd (boiler_logic Example.entry (midday 3000 90 "off") s1) in
  calls_since s1 s2 = [] /\ boiler_power_on s2 = boiler_power_on s1.
Proof.
  apply boiler_logic_stable.
  - vm_compute. discriminate.
  - vm_compute. discriminate.
  - intros load H. vm_compute in H. injection H as <-. discriminate.
Defined.

(* ------------------------------------------------------------------ *)
(** ** NightPreheatScheduler, further *)

Lemma clock_split (w : World) :
  utcnow w = today w * us_per_day + PyTime.time_of (utcnow w)
  /\ 0 <= PyTime.time_of (utcnow w) < us_per_day.
Proof.
  unfold today, PyTime.date_of, PyTime.time_of. split.
  - rewrite Z.mul_comm. apply Z.div_mod. discriminate.
  - apply Z.mod_pos_bound. reflexivity.
Qed.

(** X11.  In an idle scheduler with the switch on, [night_pre_heating]
    registers one point-in-time listener for the calculation, stores its
    handle, sets the calc-planned flag and makes no service call; the moment
    it plans is after the clock and before the end of tomorrow. *)
Theorem night_pre_heating_plans_ahead (entry : Config) (w : World) (s : State) :
  idle s -> night_heating_switch s = true ->
  let s' := snd (night_pre_heating entry w s) in
  exists point,
    listeners s' = (next_handle s, point_in_utc_time point plan_start_cb) :: listeners s
    /\ night_heating_calc_event s' = Some (next_handle s)
    /\ flags s' = [true; false; false; false]
    /\ service_calls s' = service_calls s
    /\ utcnow w < point < (today w + 2) * us_per_day.
Proof.
  destruct s as [ne nce p cp c ph bpo st sw ls nh calls].
  unfold idle, flags; cbn. intros [= -> -> -> ->] ->.
  unfold night_pre_heating.
  destruct (calculate_boiler_heat_returns (boiler_power entry) (boiler_volume entry)
              1 (night_heating_temp w)) as [[e m] Hr].
  exec. rewrite Hr. exec.
  eexists. repeat split.
  - destruct (clock_split w) as [Hnow Hbound].
    set (p1 := PyTime.combine (today w) (morning_time_time w)
               - PyTime.timedelta_minutes m).
    assert (Hp1 : 0 <= PyTime.time_of p1 < us_per_day)
      by (apply Z.mod_pos_bound; reflexivity).
    destruct (_planned_to_past (utcnow w) p1) eqn:E; unfold PyTime.combine.
    + lia.
    + assert (Hn : ~ (PyTime.time_of p1 <= PyTime.time_of (utcnow w)
                      \/ PyTime.seconds (utcnow w - p1) < 300)).
      { intros H. apply planned_to_past_spec in H. congruence. }
      lia.
  - destruct (clock_split w) as [Hnow Hbound].
    set (p1 := PyTime.combine (today w) (morning_time_time w)
               - PyTime.timedelta_minutes m).
    assert (Hp1 : 0 <= PyTime.time_of p1 < us_per_day)
      by (apply Z.mod_pos_bound; reflexivity).
    destruct (_planned_to_past (utcnow w) p1); unfold PyTime.combine;
      change us_per_day with 86400000000 in *; lia.
Qed.

Lemma night_pre_heating_plans_ahead_witness :
  exists point,
    listeners (snd (night_pre_heating Example.entry
                      (Example.world 19800 20 0 20 75 "Manual" 50 0)
                      Example.session_start))
    = [(0%nat, point_in_utc_time point plan_start_cb)]
    /\ at_day 19800 20 0 0 < point < at_day 19802 0 0 0.
Proof.
  destruct (night_pre_heating_plans_ahead Example.entry
              (Example.world 19800 20 0 20 75 "Manual" 50 0)
              Example.session_start eq_refl eq_refl)
    as (point & Hl & _ & _ & _ & Hp).
  exists point. split; [exact Hl | exact Hp].
Defined.



(** X13.  When the end listener fires while pre-heating is active, the
    boiler receives exactly one off command, the listener is gone and the
    scheduler is idle; when it fires on a cancelled cycle no service call is
    made and the scheduler is idle as well. *)
Theorem end_listener_fires (entry : Config) (w : World) (s : State) (h : nat) (t : Timer) :
  listeners s = [(h, t)] -> action_of t = end_cb -> night_heating_event s = Some h ->
  let s' := step entry (Fire h w) s in
  (flags s = [false; false; true; false] ->
   calls_since s s' = off_command /\ boiler_power_on s' = false
   /\ listeners s' = [] /\ idle s')
  /\ (flags s = [false; false; false; true] ->
      calls_since s s' = [] /\ boiler_power_on s' = boiler_power_on s
      /\ listeners s' = [] /\ idle s').
Proof.
  destruct s as [ne nce p cp c ph bpo st sw ls nh calls].
  unfold flags, idle, calls_since, off_command; cbn.
  intros -> Ha ->. unfold step, find_listener.
  cbn [find fst listeners]. rewrite Nat.eqb_refl.
  destruct t as [pt a|hh mm ss a]; cbn in Ha; subst a;
    (split; intros [= -> -> -> ->]; exec; unfold _end_pre_heating; all_paths;
     rewrite ?skipn_length_app, ?skipn_length_self; repeat split).
Qed.

Lemma end_listener_fires_witness :
  let s' := step Example.entry (Fire 2 (Example.world 19801 6 0 45 75 "Manual" 50 0))
              preheat_active in
  calls_since preheat_active s' = off_command /\ boiler_power_on s' = false
  /\ listeners s' = [] /\ idle s'.
Proof.
  apply (proj1 (end_listener_fires Example.entry
                  (Example.world 19801 6 0 45 75 "Manual" 50 0)
                  preheat_active 2 (time_change 6 0 0 end_cb)
                  eq_refl eq_refl eq_refl)).
  reflexivity.
Defined.




(** X15.  From an idle scheduler without pending listener, and as long as
    the switch is not toggled, the host never holds more than one listener of
    the scheduler, and the session stores the handle of the one it holds. *)
Theorem at_most_one_listener (entry : Config) (evs : list Event) (s0 : State) :
  idle s0 -> listeners s0 = [] -> switch_untouched evs ->
  let s := run_events entry evs s0 in
  (List.length (listeners s) <= 1)%nat
  /\ forall h t, In (h, t) (listeners s) ->
       match action_of t with
       | plan_start_cb => night_heating_calc_event s = Some h
       | _ => night_heating_event s = Some h
       end.
Proof.
  intros Hidle Hls Hevs s.
  assert (H : scheduler_inv s).
  { apply run_events_inv; [exact Hevs|].
    unfold scheduler_inv, at_most_one_flag. rewrite Hls, Hidle. cbn. lia. }
  revert H. unfold scheduler_inv.
  destruct (listeners s) as [|[h t] [|? ?]]; [| |contradiction].
  - intros _. split; [cbn; lia | intros ? ? []].
  - intros H. split; [cbn; lia|].
    intros h' t' [[= <- <-]|[]].
    destruct (action_of t); destruct H as [_ H]; exact H.
Qed.

Lemma at_most_one_listener_witness :
  (List.length (listeners preheat_active) <= 1)%nat.
Proof.
  apply (at_most_one_listener Example.entry
           [Tick (Example.world 19800 20 0 20 75 "Manual" 50 0);
            Fire 0 (Example.world 19801 2 36 20 75 "Manual" 50 0);
            Fire 1 (Example.world 19801 3 15 20 75 "Manual" 50 0)]
           Example.session_start eq_refl eq_refl).
  intros ev [<-|[<-|[<-|[]]]]; exact I.
Defined.

(* ------------------------------------------------------------------ *)
(** ** The night-heating switch, further *)




(* ------------------------------------------------------------------ *)
(** ** The manager select and the grid handler *)

Ltac exec_select :=
  cbv beta iota zeta delta
    [on_data cancel_host track_host set_data set_select_state set_cancel_manager
     set_cancel_grid_lost_handler set_host_listeners set_next_host_handle
     data select_state cancel_manager cancel_grid_lost_handler host_listeners
     next_host_handle];
  exec.

Ltac select_path :=
  match goal with
  | |- context [if ?c then _ else _] => destruct c eqn:?
  | |- context [match ?x with Some _ => _ | None => _ end] => destruct x
  end; exec_select.

Ltac select_paths := exec_select; repeat select_path.

Ltac select_inv_leaf :=
  first
    [ left; reflexivity
    | right; split;
      [ apply String.eqb_neq; assumption
      | split;
        [ first [discriminate | assumption]
        | eexists _, _, _; repeat split; first [reflexivity | assumption | lia] ] ] ].

(** X17.  Selecting [Off] once the manager is past its initialisation
    switches the boiler off exactly when the boiler mode selector reads
    [MANUAL] (one off command, none otherwise), resets the four scheduler
    flags, and leaves the status and the select at [Off]. *)
Theorem set_state_off (entry : Config) (w : World) (i : HostInputs) (x : Session) :
  manager_status_sensor (data x) <> "Initializing"%string ->
  let x' := _set_state entry w i "Off" x in
  calls_since (data x) (data x')
  = (if String.eqb (boiler_mode i) "MANUAL" then off_command else [])
  /\ boiler_power_on (data x')
     = (if String.eqb (boiler_mode i) "MANUAL" then false else boiler_power_on (data x))
  /\ idle (data x')
  /\ manager_status_sensor (data x') = "Off"%string
  /\ select_state x' = "Off"%string.
Proof.
  intros Hst. apply String.eqb_neq in Hst.
  destruct x as [[ne nce p cp c ph bpo st sw ls nh calls] sel cm cg hls nhh].
  cbn [data manager_status_sensor] in Hst.
  unfold _set_state, calls_since, idle, flags, off_command.
  cbn [String.eqb Ascii.eqb Bool.eqb orb andb].
  exec_select. rewrite Hst. cbn [negb].
  destruct cm, cg, ne, nce, (String.eqb (boiler_mode i) "MANUAL");
    exec_select; rewrite ?skipn_length_app, ?skipn_length_self; repeat split.
Qed.

Lemma set_state_off_witness :
  let x' := _set_state Example.entry (midday 3000 90 "on")
              (host_inputs "MANUAL" "0") "Off" manual_session in
  calls_since (data manual_session) (data x') = off_command
  /\ boiler_power_on (data x') = false
  /\ idle (data x')
  /\ manager_status_sensor (data x') = "Off"%string
  /\ select_state x' = "Off"%string.
Proof.
  apply (set_state_off Example.entry (midday 3000 90 "on")
           (host_inputs "MANUAL" "0") manual_session).
  vm_compute. discriminate.
Defined.

Lemma set_state_inv (entry : Config) (w : World) (i : HostInputs)
    (state : string) (x : Session) :
  select_inv x -> select_inv (_set_state entry w i state x).
Proof.
  destruct x as [[ne nce p cp c ph bpo st sw ls nh calls] sel cm cg hls nhh].
  unfold select_inv, _set_state. cbv zeta.
  cbn [data select_state cancel_manager cancel_grid_lost_handler host_listeners
       manager_status_sensor].
  intros [-> | (Hsel & Hst & h1 & h2 & secs & -> & -> & -> & Hne)].
  - destruct (String.eqb state "Off") eqn:Eoff.
    + apply String.eqb_eq in Eoff; subst state.
      cbn [String.eqb Ascii.eqb Bool.eqb orb andb].
      destruct (String.eqb st "Initializing"), (String.eqb (boiler_mode i) "MANUAL"),
        cm, cg, ne, nce; exec_select; left; reflexivity.
    + select_paths; select_inv_leaf.
  - apply String.eqb_neq in Hsel, Hst.
    destruct (String.eqb state "Off") eqn:Eoff.
    + apply String.eqb_eq in Eoff; subst state.
      cbn [String.eqb Ascii.eqb Bool.eqb orb andb].
      rewrite Hst.
      destruct (String.eqb (boiler_mode i) "MANUAL"), ne, nce; exec_select;
        destruct (Nat.eqb h2 h1); exec_select; left; reflexivity.
    + cbv beta iota. cbn [select_state]. rewrite Hsel, andb_false_r. exec_select.
      right. split; [apply String.eqb_neq; assumption|].
      split; [apply String.eqb_neq; assumption|].
      exists h1, h2, secs. repeat split. assumption.
Qed.

Lemma grid_lost_handler_inv (entry : Config) (w : World) (i : HostInputs)
    (new_data : option string) (x : Session) :
  select_inv x -> select_inv (grid_lost_handler entry w i new_data x).
Proof.
  intros Hx.
  assert (Hoff : forall status,
            select_inv (on_data (modify (set_manager_status_sensor status))
                          (_set_state entry w i "Off" x))).
  { intros status.
    destruct x as [[ne nce p cp c ph bpo st sw ls nh calls] sel cm cg hls nhh].
    unfold select_inv, _set_state in *. cbv zeta.
    cbn [data select_state cancel_manager cancel_grid_lost_handler host_listeners
         manager_status_sensor] in *.
    cbn [String.eqb Ascii.eqb Bool.eqb orb andb].
    destruct Hx as [-> | (Hsel & Hst & h1 & h2 & secs & -> & -> & -> & Hne)].
    - destruct (String.eqb st "Initializing"), (String.eqb (boiler_mode i) "MANUAL"),
        cm, cg, ne, nce; exec_select; left; reflexivity.
    - apply String.eqb_neq in Hst. rewrite Hst.
      destruct (String.eqb (boiler_mode i) "MANUAL"), ne, nce; exec_select;
        destruct (Nat.eqb h2 h1); exec_select; left; reflexivity. }
  unfold grid_lost_handler.
  destruct (String.eqb (solar_conf_mode entry) "automatic" && negb (mqtt_connected w));
    [exact Hx|].
  destruct (negb (component_loading i)); [|exact Hx].
  destruct (state_is new_data "1"); [apply Hoff|].
  destruct (negb (state_is new_data "0" || false)); [apply Hoff | exact Hx].
Qed.

(** The status a control tick leaves: the one it found, the pause warning,
    or [Running]. *)
Lemma run_status (entry : Config) (w : World) (s : State) :
  let status := manager_status_sensor (snd (run entry w s)) in
  status = manager_status_sensor s
  \/ status = "Paused - Warning (Boiler Disconnected)"%string
  \/ status = "Running"%string.
Proof.
  destruct s as [ne nce p cp c ph bpo st sw ls nh calls].
  unfold run, night_pre_heating, boiler_logic.
  all_paths; auto.
Qed.

Lemma select_step_inv (entry : Config) (ev : SelectEvent) (x : Session) :
  select_inv x -> select_inv (select_step entry ev x).
Proof.
  destruct ev as [state w i | new_data w i | w]; cbn [select_step].
  - apply set_state_inv.
  - apply grid_lost_handler_inv.
  - intros Hx. destruct (existsb is_manager_interval (host_listeners x)); [|exact Hx].
    destruct Hx as [Hx | (Hsel & Hst & Hl)]; [left; exact Hx|].
    right. split; [exact Hsel|]. split; [|exact Hl].
    unfold on_data, set_data; cbn [data].
    destruct (run_status entry w (data x)) as [-> | [-> | ->]];
      [exact Hst | discriminate | discriminate].
Qed.

Lemma select_events_inv (entry : Config) (evs : list SelectEvent) (x : Session) :
  select_inv x -> select_inv (select_events entry evs x).
Proof.
  revert x. induction evs as [|ev evs IH]; intros x Hx; [exact Hx|].
  apply IH, select_step_inv, Hx.
Qed.

(** X18.  Selecting [Off] past the initialisation cancels every listener:
    the control tick and the grid listener of the select, and the pending
    callback of the night scheduler. *)
Theorem set_state_off_cancels (entry : Config) (w : World) (i : HostInputs) (x : Session) :
  manager_status_sensor (data x) <> "Initializing"%string ->
  select_inv x ->
  scheduler_inv (data x) ->
  let x' := _set_state entry w i "Off" x in
  host_listeners x' = [] /\ listeners (data x') = [].
Proof.
  intros Hst Hx Hs. apply String.eqb_neq in Hst.
  destruct x as [[ne nce p cp c ph bpo st sw ls nh calls] sel cm cg hls nhh].
  unfold select_inv, scheduler_inv, flags, _set_state in *. cbv zeta.
  cbn [data select_state cancel_manager cancel_grid_lost_handler host_listeners
       manager_status_sensor listeners night_heating_event night_heating_calc_event] in *.
  cbn [String.eqb Ascii.eqb Bool.eqb orb andb]. rewrite Hst.
  assert (Hh : forall (hl : list (nat * HostListener)) hl',
            match cm with
            | Some h => filter (fun e => negb (Nat.eqb (fst e) h)) hls
            | None => hls
            end = hl ->
            match cg with
            | Some h => filter (fun e => negb (Nat.eqb (fst e) h)) hl
            | None => hl
            end = hl' -> hl' = []).
  { destruct Hx as [-> | (_ & _ & h1 & h2 & secs & -> & -> & -> & Hne)].
    - intros hl hl' <- <-. destruct cm, cg; reflexivity.
    - intros hl hl' <- <-. cbn. rewrite !Nat.eqb_refl.
      destruct (Nat.eqb h2 h1); cbn; rewrite ?Nat.eqb_refl; reflexivity. }
  assert (Hl : forall (l : list (nat * Timer)) l',
            match ne with
            | Some h => filter (fun e => negb (Nat.eqb (fst e) h)) ls
            | None => ls
            end = l ->
            match nce with
            | Some h => filter (fun e => negb (Nat.eqb (fst e) h)) l
            | None => l
            end = l' -> l' = []).
  { destruct ls as [|[h t] [|? ?]]; [| |contradiction].
    - intros l l' <- <-. destruct ne, nce; reflexivity.
    - intros l l' <- <-.
      destruct (action_of t); destruct Hs as (_ & ->);
        repeat match goal with
               | |- context [match ?o with Some _ => _ | None => _ end] =>
                   is_var o; destruct o
               end;
        cbn; rewrite ?Nat.eqb_refl; cbn; try reflexivity;
        match goal with |- context [Nat.eqb ?a ?b] => destruct (Nat.eqb a b) end;
        cbn; rewrite ?Nat.eqb_refl; reflexivity. }
  destruct (String.eqb (boiler_mode i) "MANUAL"), cm, cg, ne, nce; exec_select;
    (split; [eapply Hh; reflexivity | eapply Hl; reflexivity]).
Qed.

Lemma set_state_off_cancels_witness :
  let x' := _set_state Example.entry (midday 3000 90 "on")
              (host_inputs "MANUAL" "0") "Off" manual_session in
  host_listeners x' = [] /\ listeners (data x') = [].
Proof.
  apply set_state_off_cancels.
  - vm_compute. discriminate.
  - right. split; [vm_compute; discriminate|]. split; [vm_compute; discriminate|].
    exists 0%nat, 1%nat, 10. vm_compute. repeat split. discriminate.
  - vm_compute. split; reflexivity.
Defined.



(** X20.  From a session in which the select holds no listener yet (as
    after the setup), through any sequence of selections, grid changes and
    control ticks, the host holds at most one control tick of the manager,
    and none of the select's listeners while the select reads [Off]. *)
Theorem select_listeners (entry : Config) (evs : list SelectEvent) (x0 : Session) :
  host_listeners x0 = [] ->
  let x := select_events entry evs x0 in
  (List.length (filter is_manager_interval (host_listeners x)) <= 1)%nat
  /\ (select_state x = "Off"%string -> host_listeners x = []).
Proof.
  intros H0. cbv zeta.
  destruct (select_events_inv entry evs x0 (or_introl H0))
    as [H | (Hsel & _ & h1 & h2 & secs & H & _)].
  - rewrite H. split; [cbn; lia | reflexivity].
  - rewrite H. split; [cbn; lia | intros E; contradiction].
Qed.

Lemma select_listeners_witness :
  let x := select_events Example.entry
             [Select "Manual" (midday 3000 90 "off") (host_inputs "ANTIFREEZE" "0");
              Select "Manual" (midday 3000 90 "off") (host_inputs "ANTIFREEZE" "0");
              IntervalFires (midday 3000 90 "off");
              GridChange (Some "1"%string) (midday 3000 90 "off") (host_inputs "MANUAL" "1")]
             setup_session in
  (List.length (filter is_manager_interval (host_listeners x)) <= 1)%nat
  /\ (select_state x = "Off"%string -> host_listeners x = []).
Proof. apply select_listeners. reflexivity. Defined.

(** X21.  A change of the grid sensor that is not ignored and whose new
    state is not ["0"] (a lost grid, an unknown state, or no state at all)
    turns the manager off: the select reads [Off], its listeners are
    cancelled, the scheduler is idle, and the status names the grid; a
    change to ["0"], or an ignored change, leaves the session as it is. *)
Theorem grid_lost_handler_outcome (entry : Config) (w : World) (i : HostInputs)
    (new_data : option string) (x : Session) :
  select_inv x ->
  let x' := grid_lost_handler entry w i new_data x in
  (grid_change_ignored entry w i \/ new_data = Some "0"%string -> x' = x)
  /\ (~ grid_change_ignored entry w i -> new_data <> Some "0"%string ->
      select_state x' = "Off"%string
      /\ host_listeners x' = []
      /\ idle (data x')
      /\ manager_status_sensor (data x')
         = (if state_is new_data "1"
            then "Off - Warning (Grid Lost)"
            else "Off - Warning (Grid Unknown)")%string).
Proof.
  intros Hx.
  assert (Hoff : forall status,
            let x' := on_data (modify (set_manager_status_sensor status))
                        (_set_state entry w i "Off" x) in
            select_state x' = "Off"%string
            /\ host_listeners x' = []
            /\ idle (data x')
            /\ manager_status_sensor (data x') = status).
  { intros status.
    destruct x as [[ne nce p cp c ph bpo st sw ls nh calls] sel cm cg hls nhh].
    unfold select_inv, _set_state, idle, flags in *. cbv zeta.
    cbn [data select_state cancel_manager cancel_grid_lost_handler host_listeners
         manager_status_sensor] in *.
    cbn [String.eqb Ascii.eqb Bool.eqb orb andb].
    destruct Hx as [-> | (Hsel & Hst & h1 & h2 & secs & -> & -> & -> & Hne)].
    - destruct (String.eqb st "Initializing"), (String.eqb (boiler_mode i) "MANUAL"),
        cm, cg, ne, nce; exec_select; repeat split.
    - apply String.eqb_neq in Hst. rewrite Hst.
      destruct (String.eqb (boiler_mode i) "MANUAL"), ne, nce; exec_select;
        destruct (Nat.eqb h2 h1); exec_select; repeat split. }
  unfold grid_lost_handler, grid_change_ignored. cbv zeta. split.
  - intros [[[-> ->] | ->] | ->]; cbn [String.eqb Ascii.eqb Bool.eqb andb negb];
      try reflexivity.
    + destruct (String.eqb (solar_conf_mode entry) "automatic" && negb (mqtt_connected w));
        reflexivity.
    + destruct (String.eqb (solar_conf_mode entry) "automatic" && negb (mqtt_connected w));
        [reflexivity|].
      destruct (negb (component_loading i)); reflexivity.
  - intros Hni Hnz.
    destruct (String.eqb (solar_conf_mode entry) "automatic") eqn:Esolar;
      destruct (mqtt_connected w) eqn:Emqtt;
      try (apply String.eqb_eq in Esolar; exfalso; apply Hni; left; split;
           [exact Esolar | reflexivity]);
      cbn [andb negb];
      (destruct (component_loading i) eqn:Eload;
       [exfalso; apply Hni; right; reflexivity|]); cbn [negb];
      (destruct (state_is new_data "1") eqn:E1; [apply Hoff|]);
      (destruct (state_is new_data "0") eqn:E0;
       [ exfalso; apply Hnz; destruct new_data as [d|]; [|discriminate E0];
         cbn in E0; apply String.eqb_eq in E0; subst d; reflexivity
       | cbn [orb negb]; apply Hoff ]).
Qed.

Lemma grid_lost_handler_outcome_witness :
  let x' := grid_lost_handler Example.entry (midday 3000 90 "on")
              (host_inputs "MANUAL" "1") (Some "1"%string) manual_session in
  (grid_change_ignored Example.entry (midday 3000 90 "on") (host_inputs "MANUAL" "1")
   \/ Some "1"%string = Some "0"%string -> x' = manual_session)
  /\ (~ grid_change_ignored Example.entry (midday 3000 90 "on") (host_inputs "MANUAL" "1") ->
      Some "1"%string <> Some "0"%string ->
      select_state x' = "Off"%string
      /\ host_listeners x' = []
      /\ idle (data x')
      /\ manager_status_sensor (data x')
         = (if state_is (Some "1"%string) "1"
            then "Off - Warning (Grid Lost)"
            else "Off - Warning (Grid Unknown)")%string).
Proof.
  apply (grid_lost_handler_outcome Example.entry (midday 3000 90 "on")
           (host_inputs "MANUAL" "1") (Some "1"%string) manual_session).
  right. split; [vm_compute; discriminate|]. split; [vm_compute; discriminate|].
  exists 0%nat, 1%nat, 10. vm_compute. repeat split. discriminate.
Defined.

(* ------------------------------------------------------------------ *)
(** ** The configuration flow and the night target *)

(** X22.  A form of the step [additionals] within the ranges of its schema
    is accepted exactly when the bottom threshold is below the top one; an
    accepted configuration has [0 <= bottom < top <= 100], a capacity that
    is zero or at least 1000 (a capacity below 1000 is multiplied by 1000),
    and the other fields as entered. *)
Theorem additionals_accepted (u : ConfigFlow.UserInput) :
  ConfigFlow.data_schema u ->
  (ConfigFlow.battery_soc_bottom u < ConfigFlow.battery_soc_top u <->
   exists c, ConfigFlow.async_step_additionals u = ConfigFlow.config_update c)
  /\ forall c, ConfigFlow.async_step_additionals u = ConfigFlow.config_update c ->
       0 <= ConfigFlow.battery_soc_bottom c < ConfigFlow.battery_soc_top c
       /\ ConfigFlow.battery_soc_top c <= 100
       /\ (ConfigFlow.battery_capacity c = 0 \/ 1000 <= ConfigFlow.battery_capacity c)
       /\ ConfigFlow.battery_capacity c
          = (if ConfigFlow.battery_capacity u <? 1000
             then ConfigFlow.battery_capacity u * 1000
             else ConfigFlow.battery_capacity u)
       /\ ConfigFlow.battery_soc_top c = ConfigFlow.battery_soc_top u
       /\ ConfigFlow.battery_soc_bottom c = ConfigFlow.battery_soc_bottom u
       /\ ConfigFlow.temp_variable c = ConfigFlow.temp_variable u
       /\ ConfigFlow.grid_threshold c = ConfigFlow.grid_threshold u
       /\ ConfigFlow.manager_updates c = ConfigFlow.manager_updates u.
Proof.
  destruct u as [cap top bottom tv gt mu].
  unfold ConfigFlow.data_schema, ConfigFlow.async_step_additionals. cbn.
  intros (Hcap & Htop & Hbottom & _).
  destruct (Z.ltb_spec cap 1000) as [Hlt|Hge]; cbn;
    destruct (Z.geb_spec bottom top) as [Hbt|Hbt]; cbn.
  all: split;
    [ split;
      [ intros H; first [lia | eexists; reflexivity]
      | intros [c Hc]; first [discriminate Hc | lia] ]
    | intros c Hc; first [discriminate Hc | injection Hc as <-; cbn; repeat split; lia] ].
Qed.

Lemma additionals_accepted_witness :
  let u := ConfigFlow.mkUserInput 5 65 60 20 150 10 in
  (ConfigFlow.battery_soc_bottom u < ConfigFlow.battery_soc_top u <->
   exists c, ConfigFlow.async_step_additionals u = ConfigFlow.config_update c)
  /\ forall c, ConfigFlow.async_step_additionals u = ConfigFlow.config_update c ->
       0 <= ConfigFlow.battery_soc_bottom c < ConfigFlow.battery_soc_top c
       /\ ConfigFlow.battery_soc_top c <= 100
       /\ (ConfigFlow.battery_capacity c = 0 \/ 1000 <= ConfigFlow.battery_capacity c)
       /\ ConfigFlow.battery_capacity c
          = (if ConfigFlow.battery_capacity u <? 1000
             then ConfigFlow.battery_capacity u * 1000
             else ConfigFlow.battery_capacity u)
       /\ ConfigFlow.battery_soc_top c = ConfigFlow.battery_soc_top u
       /\ ConfigFlow.battery_soc_bottom c = ConfigFlow.battery_soc_bottom u
       /\ ConfigFlow.temp_variable c = ConfigFlow.temp_variable u
       /\ ConfigFlow.grid_threshold c = ConfigFlow.grid_threshold u
       /\ ConfigFlow.manager_updates c = ConfigFlow.manager_updates u.
Proof.
  apply (additionals_accepted (ConfigFlow.mkUserInput 5 65 60 20 150 10)).
  unfold ConfigFlow.data_schema. cbn. lia.
Defined.

(** X23.  With stored number data and [min <= max], the night target
    restored at start-up is the stored value unless that is below the
    minimum, in which case it is the minimum: it is never below the minimum,
    and a stored value above the maximum is kept as it is. *)
Theorem night_heating_temp_restore (native_min_value native_max_value v : Q) :
  (native_min_value <= native_max_value)%Q ->
  exists r,
    NightHeatingTemp.async_added_to_hass native_min_value native_max_value (Some v) = Some r
    /\ (native_min_value <= r)%Q
    /\ ((native_min_value <= v)%Q -> r = v)
    /\ ((v < native_min_value)%Q -> r = native_min_value).
Proof.
  intros Hmm. unfold NightHeatingTemp.async_added_to_hass. cbn [andb].
  destruct (Qltb v native_min_value) eqn:Elt; cbn [negb orb].
  - apply Qltb_lt in Elt.
    destruct (Qgtb v native_max_value) eqn:Egt.
    + apply Qgtb_gt in Egt. exfalso. lra.
    + exists native_min_value. repeat split; [lra | intros; lra].
  - apply Qltb_ge in Elt. exists v. repeat split; [exact Elt | intros; lra].
Qed.

Lemma night_heating_temp_restore_witness :
  exists r,
    NightHeatingTemp.async_added_to_hass 10 80 (Some 95%Q) = Some r
    /\ (10 <= r)%Q
    /\ ((10 <= 95)%Q -> r = 95%Q)
    /\ ((95 < 10)%Q -> r = 10%Q).
Proof.
  apply (night_heating_temp_restore 10 80 95). vm_compute. discriminate.
Defined.

(* ================================================================== *)
(** * Properties on Home Assistant states *)

Ltac hexec :=
  cbv beta iota zeta delta
    [Hass.bind Hass.ret Hass.raise Hass.gets Hass.modify Hass.lift Hass.operand
     Hass.track Hass.cancel Hass._boiler_power Hass.callback Hass.and_then
     Hass.set_night_heating_event Hass.set_night_heating_calc_event
     Hass.set_night_heating_planned Hass.set_night_heating_calc_planned
     Hass.set_night_heating_canceled Hass.set_night_preheating
     Hass.set_boiler_power_on Hass.set_manager_status_sensor
     Hass.set_listeners Hass.set_next_handle Hass.set_service_calls
     Hass.night_heating_event Hass.night_heating_calc_event
     Hass.night_heating_planned Hass.night_heating_calc_planned
     Hass.night_heating_canceled Hass.night_preheating Hass.boiler_power_on
     Hass.manager_status_sensor Hass.night_heating_switch Hass.listeners
     Hass.next_handle Hass.service_calls
     Hass.grid_power Hass.critical_loads_history Hass.pv_power_history
     Hass.critical_loads Hass.battery_soc_now Hass.boiler_heating
     fst snd filter find negb orb andb action_of];
  rewrite ?Nat.eqb_refl.

Ltac hpath :=
  match goal with
  | |- context [match ?r with Hass.Ok _ => _ | Hass.Raise _ => _ end] =>
      destruct r eqn:?
  | |- context [if ?c then _ else _] => destruct c eqn:?
  | |- context [match ?x with Some _ => _ | None => _ end] => destruct x eqn:?
  | |- context [let (_, _) := ?p in _] => destruct p eqn:?
  end; hexec.

Ltac hpaths := hexec; repeat hpath.

(** The fields of the readings, in a hypothesis. *)
Ltac readings_in H :=
  cbv beta iota delta
    [Hass.grid_power Hass.critical_loads_history Hass.pv_power_history
     Hass.critical_loads Hass.battery_soc_now Hass.boiler_heating] in H.

(* ------------------------------------------------------------------ *)
(** ** Comparisons *)

Lemma ge_int_not_lt (x : float) (n : Z) :
  PyFloat.compare_int x n <> None ->
  PyFloat.ge_int x n = negb (PyFloat.lt_int x n).
Proof.
  unfold PyFloat.ge_int, PyFloat.lt_int.
  destruct (PyFloat.compare_int x n) as [[]|]; cbn; congruence.
Qed.

Lemma le_int_not_gt (x : float) (n : Z) :
  PyFloat.compare_int x n <> None ->
  PyFloat.le_int x n = negb (PyFloat.gt_int x n).
Proof.
  unfold PyFloat.le_int, PyFloat.gt_int.
  destruct (PyFloat.compare_int x n) as [[]|]; cbn; congruence.
Qed.

Lemma geb_not_ltb (x y : float) :
  PyFloat.compare x y <> None ->
  PyFloat.geb x y = negb (PyFloat.ltb x y).
Proof.
  unfold PyFloat.geb, PyFloat.ltb.
  destruct (PyFloat.compare x y) as [[]|]; cbn; congruence.
Qed.

(* ------------------------------------------------------------------ *)
(** ** BoilerHysteresisController on the states of the host *)

Section HassHysteresis.

Context {python : Hass.Python}.
Variable entry : Config.
Variable w : Hass.World.

(** The readings are the six reads of [boiler_logic]. *)
Lemma readings_reads (d : Hass.Readings) :
  Hass.readings w = Hass.Ok d ->
  Hass._get_sensor_state_float w grid_l = Hass.Ok (Hass.grid_power d)
  /\ Hass._get_sensor_history (Hass.recorder w) (Hass.utcnow w) critical_load
       None 0 30 false (Some 50) = Hass.Ok (Hass.critical_loads_history d)
  /\ Hass._get_sensor_history (Hass.recorder w) (Hass.utcnow w) pv_power
       None 10 0 false (Some 70) = Hass.Ok (Hass.pv_power_history d)
  /\ Hass._get_sensor_state_float w critical_load = Hass.Ok (Hass.critical_loads d)
  /\ Hass._get_sensor_state_float w battery_soc = Hass.Ok (Hass.battery_soc_now d)
  /\ Hass.states w boiler_heat = Hass.Ok (Hass.boiler_heating d).
Proof.
  unfold Hass.readings, Hass.and_then.
  repeat match goal with
    | |- context [match ?r with Hass.Ok _ => _ | Hass.Raise _ => _ end] =>
        destruct r eqn:?; [|discriminate]
    end.
  intros [= <-]. cbn. repeat split; reflexivity.
Qed.

(** On readings that are numbers, the start conditions of the code are the
    three conditions as the specification words them. *)
Lemma start_conditions_as_claimed (d : Hass.Readings) :
  Hass.readings w = Hass.Ok d ->
  Hass.numbers_compared entry d ->
  Hass.start_conditions entry w <-> Hass.claimed_start_conditions entry w.
Proof.
  intros Hd (Hsoc & Hgrid & Hpv).
  destruct (readings_reads d Hd) as (Rg & Rl & Rp & Rc & Rs & Rh).
  unfold Hass.start_conditions, Hass.claimed_start_conditions, Hass.pv_not_below.
  split.
  - intros (d' & Hd' & H1 & H2 & pv & load & limit & Ep & El & Es & Hlt).
    assert (d' = d) by congruence. subst d'.
    exists (Hass.battery_soc_now d), (Hass.grid_power d), load, pv, limit.
    rewrite ge_int_not_lt, le_int_not_gt, geb_not_ltb by eauto.
    rewrite H1, H2, Hlt. rewrite <- El, <- Ep. repeat split; assumption.
  - intros (soc & grid & load & pv & limit & Es & Hs & Eg & Hg & El & Ep & Esh & Hge).
    assert (soc = Hass.battery_soc_now d) by congruence.
    assert (grid = Hass.grid_power d) by congruence.
    assert (Some load = Hass.critical_loads_history d) by congruence.
    assert (Some pv = Hass.pv_power_history d) by congruence.
    subst soc grid.
    rewrite ge_int_not_lt in Hs by assumption.
    rewrite le_int_not_gt in Hg by assumption.
    rewrite geb_not_ltb in Hge by eauto.
    exists d. repeat split; try assumption.
    + now destruct (PyFloat.lt_int _ _).
    + now destruct (PyFloat.gt_int _ _).
    + exists pv, load, limit. repeat split; try congruence.
      now destruct (PyFloat.ltb _ _).
Qed.

(** What [boiler_logic] does when the boiler is commanded off. *)
Lemma hass_boiler_logic_when_off (s : Hass.State) :
  Hass.boiler_power_on s = false ->
  let s' := snd (Hass.boiler_logic entry w s) in
  (Hass.start_conditions entry w
   /\ Hass.calls_since s s' = Hass.on_command w /\ Hass.boiler_power_on s' = true)
  \/ (~ Hass.start_conditions entry w
      /\ Hass.calls_since s s' = [] /\ Hass.boiler_power_on s' = false).
Proof.
  intros Hoff.
  destruct s as [ne nce p cp c ph bpo st sw ls nh calls]. cbn in Hoff. subst bpo.
  unfold Hass.boiler_logic, Hass.start_conditions, Hass.readings, Hass.calls_since,
    Hass.on_command, Hass.pv_not_below.
  hpaths.
  all: first
    [ right; split;
      [ intros (d & Hd & H1 & H2 & pv' & load' & limit & Hpv & Hload & Hshare & Hlt);
        first [discriminate Hd | injection Hd as <-; cbn in *; congruence]
      | split; [apply skipn_length_self | reflexivity] ]
    | left; split;
      [ eexists; split; [reflexivity|]; cbn; repeat split; try assumption;
        do 3 eexists; repeat split; eassumption
      | split; [rewrite <- ?app_assoc; apply skipn_length_app | reflexivity] ] ].
Qed.

(** What [boiler_logic] does when the boiler is commanded on. *)
Lemma hass_boiler_logic_when_on (s : Hass.State) :
  Hass.boiler_power_on s = true ->
  let s' := snd (Hass.boiler_logic entry w s) in
  (Hass.stop_conditions entry w
   /\ Hass.calls_since s s' = Hass.off_command /\ Hass.boiler_power_on s' = false)
  \/ (~ Hass.stop_conditions entry w
      /\ Hass.calls_since s s' = [] /\ Hass.boiler_power_on s' = true).
Proof.
  intros Hon.
  destruct s as [ne nce p cp c ph bpo st sw ls nh calls]. cbn in Hon. subst bpo.
  unfold Hass.boiler_logic, Hass.stop_conditions, Hass.readings, Hass.calls_since,
    Hass.off_command, Hass.pv_below.
  hpaths.
  all: try match goal with
    | H : String.eqb _ _ = true |- _ => apply String.eqb_eq in H
    | H : String.eqb _ _ = false |- _ => apply String.eqb_neq in H
    end.
  all: first
    [ right; split;
      [ intros (d & Hd & Hc);
        first
          [ discriminate Hd
          | injection Hd as <-; readings_in Hc;
            destruct Hc as
              [Hc | [Hc | [(Hh & (? & ? & ? & ? & ? & ? & ?) & (? & ? & ? & ? & ? & ? & ?))
                          | (Hh & ? & ? & ? & ? & ? & ?)]]];
            congruence ]
      | split; [apply skipn_length_self | reflexivity] ]
    | left; split;
      [ eexists; split; [reflexivity|]; cbn;
        first
          [ left; assumption
          | right; left; assumption
          | right; right; left; split; [assumption|];
            split; do 3 eexists; repeat split; eassumption
          | right; right; right; split; [assumption|];
            do 2 eexists; repeat split; eassumption ]
      | split; [apply skipn_length_app | reflexivity] ] ].
Qed.

End HassHysteresis.

(** C1 (amended). With [boiler_power_on] false, [boiler_logic] commands the
    boiler on with the day heating target exactly when every reading it
    takes is obtained and none of its three tests fires; otherwise (a test
    fires, a statistic is missing, or a read raises) it issues no actuator
    command and the flag stays false.  When the compared values are numbers
    (no NaN) these are the three start conditions: SOC at or above the top
    threshold, grid power at or below the grid threshold, PV statistic at or
    above 0.75 of (critical-load statistic + boiler power). *)
Theorem hass_boiler_logic_off_to_on
    (python : Hass.Python) (entry : Config) (w : Hass.World) (s : Hass.State) :
  Hass.boiler_power_on s = false ->
  let s' := snd (Hass.boiler_logic entry w s) in
  ((Hass.start_conditions entry w
    /\ Hass.calls_since s s' = Hass.on_command w /\ Hass.boiler_power_on s' = true)
   \/ (~ Hass.start_conditions entry w
       /\ Hass.calls_since s s' = [] /\ Hass.boiler_power_on s' = false))
  /\ (forall d,
        Hass.readings w = Hass.Ok d ->
        Hass.numbers_compared entry d ->
        (Hass.start_conditions entry w <-> Hass.claimed_start_conditions entry w))
  /\ (forall e,
        Hass.readings w = Hass.Raise e ->
        Hass.calls_since s s' = [] /\ Hass.boiler_power_on s' = false).
Proof.
  intros Hoff s'.
  pose proof (hass_boiler_logic_when_off entry w s Hoff) as H.
  split; [exact H|]. split.
  - intros d. apply start_conditions_as_claimed.
  - intros e He. destruct H as [((d & Hd & _) & _)|(_ & H)]; [congruence|exact H].
Qed.

(** C2 (amended). With [boiler_power_on] true, [boiler_logic] commands the
    boiler off exactly when every reading it takes is obtained and one of
    the four stop conditions holds: SOC below the bottom threshold; grid
    power above the grid threshold; heating status [off] and the PV statistic
    below 0.7 of (critical-load statistic + boiler power) and below 0.7 of
    (instantaneous critical load + boiler power); heating status not [off]
    and the PV statistic below 0.7 of the critical-load statistic and below
    0.7 of the instantaneous critical load.  Otherwise, and whenever a read
    raises, it issues no actuator command and the flag stays true. *)
Theorem hass_boiler_logic_on_to_off
    (python : Hass.Python) (entry : Config) (w : Hass.World) (s : Hass.State) :
  Hass.boiler_power_on s = true ->
  let s' := snd (Hass.boiler_logic entry w s) in
  ((Hass.stop_conditions entry w
    /\ Hass.calls_since s s' = Hass.off_command /\ Hass.boiler_power_on s' = false)
   \/ (~ Hass.stop_conditions entry w
       /\ Hass.calls_since s s' = [] /\ Hass.boiler_power_on s' = true))
  /\ (forall e,
        Hass.readings w = Hass.Raise e ->
        Hass.calls_since s s' = [] /\ Hass.boiler_power_on s' = true).
Proof.
  intros Hon s'.
  pose proof (hass_boiler_logic_when_on entry w s Hon) as H.
  split; [exact H|].
  intros e He. destruct H as [((d & Hd & _) & _)|(_ & H)]; [congruence|exact H].
Qed.

Section HassHysteresisExamples.

Import HassExample.
#[local] Existing Instance CPython.python.
Local Open Scope string_scope.

Let entry := Example.entry.

(** At 95 percent, 20 W from the grid and 2000 W of PV over a load of
    400 W, the boiler is commanded on to 60 C. *)
Lemma hass_midday_starts :
  let w := midday "20" "400" "95" "on" ["400"] ["2000"] in
  let s' := snd (Hass.boiler_logic entry w session_start) in
  Hass.calls_since session_start s' = Hass.on_command w
  /\ Hass.boiler_power_on s' = true.
Proof. vm_compute. split; reflexivity. Qed.

Lemma hass_boiler_logic_off_to_on_witness :
  let w := midday "20" "400" "95" "on" ["400"] ["2000"] in
  let s := session_start in
  Hass.boiler_power_on s = false
  /\ let s' := snd (Hass.boiler_logic entry w s) in
     ((Hass.start_conditions entry w
       /\ Hass.calls_since s s' = Hass.on_command w /\ Hass.boiler_power_on s' = true)
      \/ (~ Hass.start_conditions entry w
          /\ Hass.calls_since s s' = [] /\ Hass.boiler_power_on s' = false))
     /\ (forall d,
           Hass.readings w = Hass.Ok d ->
           Hass.numbers_compared entry d ->
           (Hass.start_conditions entry w <-> Hass.claimed_start_conditions entry w))
     /\ (forall e,
           Hass.readings w = Hass.Raise e ->
           Hass.calls_since s s' = [] /\ Hass.boiler_power_on s' = false).
Proof.
  intros w s. split; [reflexivity|].
  apply (hass_boiler_logic_off_to_on CPython.python entry w s). reflexivity.
Defined.

(** C1, as stated, fails on the code.  With the three start conditions
    holding (SOC 95, grid 20 W, PV 2000 W over a load statistic of 400 W)
    and the critical-load sensor [unavailable] at the tick, the read raises
    and no command is issued; with the SOC sensor holding [nan] the first
    condition does not hold and the on command is issued. *)
Lemma hass_start_conditions_not_decisive :
  let s := session_start in
  (let w := midday "20" "unavailable" "95" "on" ["400"] ["2000"] in
   let s' := snd (Hass.boiler_logic entry w s) in
   Hass.claimed_start_conditions entry w
   /\ Hass.calls_since s s' = [] /\ Hass.boiler_power_on s' = false)
  /\ (let w := midday "20" "400" "nan" "on" ["400"] ["2000"] in
      let s' := snd (Hass.boiler_logic entry w s) in
      ~ Hass.claimed_start_conditions entry w
      /\ Hass.calls_since s s' = Hass.on_command w /\ Hass.boiler_power_on s' = true).
Proof.
  intros s. split.
  - intros w s'. split.
    + exists (PyFloat.nearest 95), (PyFloat.nearest 20), (PyFloat.nearest 400),
        (PyFloat.nearest 2000), (PyFloat.nearest 1800).
      vm_compute. repeat split; reflexivity.
    + vm_compute. split; reflexivity.
  - intros w s'. split.
    + intros (soc & grid & load & pv & limit & Es & Hs & _).
      vm_compute in Es. injection Es as <-. vm_compute in Hs. discriminate Hs.
    + vm_compute. split; reflexivity.
Qed.

Lemma hass_boiler_logic_on_to_off_witness :
  let w := midday "20" "400" "40" "on" ["400"] ["2000"] in
  let s := session_heating in
  Hass.boiler_power_on s = true
  /\ let s' := snd (Hass.boiler_logic entry w s) in
     ((Hass.stop_conditions entry w
       /\ Hass.calls_since s s' = Hass.off_command /\ Hass.boiler_power_on s' = false)
      \/ (~ Hass.stop_conditions entry w
          /\ Hass.calls_since s s' = [] /\ Hass.boiler_power_on s' = true))
     /\ (forall e,
           Hass.readings w = Hass.Raise e ->
           Hass.calls_since s s' = [] /\ Hass.boiler_power_on s' = true).
Proof.
  intros w s. split; [reflexivity|].
  apply (hass_boiler_logic_on_to_off CPython.python entry w s). reflexivity.
Defined.

(** With the battery at 40 percent, below the bottom threshold of 60, the
    boiler is commanded off. *)
Lemma hass_low_battery_stops :
  let w := midday "20" "400" "40" "on" ["400"] ["2000"] in
  let s' := snd (Hass.boiler_logic entry w session_heating) in
  Hass.calls_since session_heating s' = Hass.off_command
  /\ Hass.boiler_power_on s' = false.
Proof. vm_compute. split; reflexivity. Qed.

(** C2, as stated, fails on the code.  With the SOC at 40 percent, below the
    bottom threshold of 60, and the grid sensor [unavailable], the first
    read raises: no off command is issued and the flag stays true. *)
Lemma hass_low_battery_without_grid :
  let w := midday "unavailable" "400" "40" "on" ["400"] ["2000"] in
  let s := session_heating in
  let s' := snd (Hass.boiler_logic entry w s) in
  Hass.claimed_soc_below_bottom entry w
  /\ fst (Hass.boiler_logic entry w s) = Hass.Raise Hass.ValueError
  /\ Hass.calls_since s s' = [] /\ Hass.boiler_power_on s' = true.
Proof.
  intros w s s'. split.
  - exists (PyFloat.nearest 40). vm_compute. split; reflexivity.
  - vm_compute. repeat split; reflexivity.
Qed.

(** The comparisons are those of the doubles.  With a load statistic of
    380.40 W and a PV statistic of 1785.30 W, 0.75 * (380.4 + 2000) is the
    double above 1785.3 and the boiler stays off; with the boiler on and
    heating, a load of 300.60 W and a PV statistic of 210.42 W,
    0.7 * 300.6 is the double above 210.42 and the boiler is commanded
    off. *)
Lemma hass_doubles_decide :
  (let w := midday "20" "380.40" "95" "on" ["380.40"] ["1785.30"] in
   let s' := snd (Hass.boiler_logic entry w session_start) in
   Hass.calls_since session_start s' = [] /\ Hass.boiler_power_on s' = false)
  /\ (let w := midday "20" "300.60" "95" "on" ["300.60"] ["210.42"] in
      let s' := snd (Hass.boiler_logic entry w session_heating) in
      Hass.calls_since session_heating s' = Hass.off_command
      /\ Hass.boiler_power_on s' = false).
Proof. vm_compute. repeat split; reflexivity. Qed.

End HassHysteresisExamples.

(* ------------------------------------------------------------------ *)
(** ** NightPreheatScheduler on the states of the host *)

(** The next test a callback makes: the scrutinee at the head of the
    term. *)
Ltac head_test t :=
  lazymatch t with
  | (_, _) => fail
  | if ?c then _ else _ => head_test c
  | match ?r with Hass.Ok _ => _ | Hass.Raise _ => _ end => head_test r
  | match ?x with Some _ => _ | None => _ end => head_test x
  | let (_, _) := ?p in _ => head_test p
  | ?f _ =>
      lazymatch f with
      | if _ then _ else _ => head_test f
      | match _ with Hass.Ok _ => _ | Hass.Raise _ => _ end => head_test f
      | match _ with Some _ => _ | None => _ end => head_test f
      | let (_, _) := _ in _ => head_test f
      | _ => destruct t eqn:?
      end
  | _ => destruct t eqn:?
  end.

Ltac hstep := lazymatch goal with |- ?X = _ -> _ => head_test X end; hexec.

(** Every path of a callback, from a goal [callback s = (r, s') -> _]. *)
Ltac hwalk := hexec; repeat hstep.

Section HassScheduler.

Context {python : Hass.Python}.
Variable entry : Config.
Variable w : Hass.World.

Ltac hinv_done :=
  try discriminate;
  unfold Hass.scheduler_inv, Hass.at_most_one_flag, count_true, Hass.flags; hexec; cbn;
  repeat split; auto; try lia.

(** A start that returns leaves the scheduler waiting for one callback, or
    idle, once the calculation flag is cleared. *)
Lemma hass_start_returns (s : Hass.State) :
  Hass.night_heating_planned s = true ->
  Hass.night_preheating s = false ->
  Hass.night_heating_canceled s = false ->
  (Hass.listeners s = []
   \/ exists h t, Hass.listeners s = [(h, t)] /\ Hass.night_heating_event s = Some h) ->
  forall s',
    Hass._start_night_pre_heating entry w s = (Hass.Ok tt, s') ->
    Hass.scheduler_inv (Hass.set_night_heating_calc_planned false s')
    /\ Hass.night_heating_calc_planned s' = Hass.night_heating_calc_planned s.
Proof.
  destruct s as [ne nce p cp c ph bpo st sw ls nh calls]; cbn.
  intros -> -> -> [->|(h & t & -> & ->)] s';
    unfold Hass._start_night_pre_heating, Hass.schedule_end, Hass._end_pre_heating;
    [destruct ne|].
  all: hwalk; intros [= <-]; hinv_done.
Qed.

Lemma hass_start_inv (s : Hass.State) :
  Hass.flags s = [false; true; false; false] ->
  (Hass.listeners s = []
   \/ exists h t, Hass.listeners s = [(h, t)] /\ Hass.night_heating_event s = Some h) ->
  forall s',
    Hass._start_night_pre_heating entry w s = (Hass.Ok tt, s') ->
    Hass.scheduler_inv s'.
Proof.
  intros Hflags Hls s' Hret.
  injection Hflags as Hcp Hp Hph Hc.
  destruct (hass_start_returns s Hp Hph Hc Hls s' Hret) as [Hinv Hcp'].
  rewrite Hcp in Hcp'.
  destruct s'; cbn in Hcp'; subst; exact Hinv.
Qed.

Lemma hass_plan_start_inv (s : Hass.State) :
  Hass.flags s = [true; false; false; false] ->
  (Hass.listeners s = []
   \/ exists h t, Hass.listeners s = [(h, t)] /\ Hass.night_heating_calc_event s = Some h) ->
  forall s',
    Hass._plan_start_night_pre_heating entry w s = (Hass.Ok tt, s') ->
    Hass.scheduler_inv s'.
Proof.
  destruct s as [ne nce p cp c ph bpo st sw ls nh calls]; unfold Hass.flags; cbn.
  intros [= -> -> -> ->] [->|(h & t & -> & ->)] s';
    unfold Hass._plan_start_night_pre_heating; [destruct nce|].
  all: hwalk; intros [= <-]; try solve [hinv_done].
  all: repeat match goal with u : unit |- _ => destruct u end.
  all: match goal with
    | H : Hass._start_night_pre_heating _ _ ?s0 = (Hass.Ok tt, ?s1) |- _ =>
        apply (hass_start_returns s0) in H;
          [exact (proj1 H) | reflexivity | reflexivity | reflexivity | now left]
    end.
Qed.

Lemma hass_end_inv (s : Hass.State) :
  Hass.flags s = [false; false; false; true] \/ Hass.flags s = [false; false; true; false] ->
  (Hass.listeners s = []
   \/ exists h t, Hass.listeners s = [(h, t)] /\ Hass.night_heating_event s = Some h) ->
  Hass.scheduler_inv (snd (Hass._end_pre_heating s)).
Proof.
  destruct s as [ne nce p cp c ph bpo st sw ls nh calls]; unfold Hass.flags; cbn.
  intros [[= -> -> -> ->]|[= -> -> -> ->]] [->|(h & t & -> & ->)];
    unfold Hass._end_pre_heating; try destruct ne; hpaths; hinv_done.
Qed.

(** [boiler_logic] touches the commanded-on flag and the trace of calls
    only. *)
Lemma hass_boiler_logic_frame (s : Hass.State) :
  exists bpo calls,
    snd (Hass.boiler_logic entry w s)
    = Hass.set_service_calls calls (Hass.set_boiler_power_on bpo s).
Proof.
  destruct s as [ne nce p cp c ph bpo st sw ls nh calls].
  unfold Hass.boiler_logic. hpaths; eexists; eexists; hexec; reflexivity.
Qed.

(** A control tick keeps the invariant, whether it returns or raises. *)
Lemma hass_run_inv (s : Hass.State) :
  Hass.scheduler_inv s -> Hass.scheduler_inv (snd (Hass.run entry w s)).
Proof.
  intros Hinv.
  destruct (Hass.run entry w s) as [r s'] eqn:Hrun. cbn [snd].
  revert Hinv Hrun.
  destruct s as [ne nce p cp c ph bpo st sw ls nh calls].
  unfold Hass.scheduler_inv at 1, Hass.at_most_one_flag, count_true, Hass.flags; cbn.
  destruct ls as [|[h t] [|? ?]]; [| |contradiction].
  - intros Hflags.
    unfold Hass.run, Hass.night_pre_heating.
    destruct cp, p, ph, c; cbn in Hflags; try lia.
    all: hwalk; intros [= <- <-]; try solve [hinv_done].
    all: match goal with
      | H : Hass.boiler_logic _ _ ?s0 = (_, ?s1) |- _ =>
          let Hf := fresh in
          destruct (hass_boiler_logic_frame s0) as (? & ? & Hf);
          rewrite H in Hf; cbn [snd] in Hf; subst s1
      end; hinv_done.
  - destruct t as [pt [| |]|hh mm ss [| |]]; cbn;
      intros [Hflags ->];
      [injection Hflags as -> -> -> -> | injection Hflags as -> -> -> ->
      | destruct Hflags as [Hflags|Hflags]; injection Hflags as -> -> -> ->
      | injection Hflags as -> -> -> -> | injection Hflags as -> -> -> ->
      | destruct Hflags as [Hflags|Hflags]; injection Hflags as -> -> -> ->];
      unfold Hass.run, Hass.night_pre_heating.
    all: hwalk; intros [= <- <-]; try solve [hinv_done].
    all: match goal with
      | H : Hass.boiler_logic _ _ ?s0 = (_, ?s1) |- _ =>
          let Hf := fresh in
          destruct (hass_boiler_logic_frame s0) as (? & ? & Hf);
          rewrite H in Hf; cbn [snd] in Hf; subst s1
      end; hinv_done.
Qed.

End HassScheduler.

Section HassSchedulerRuns.

Context {python : Hass.Python}.
Variable entry : Config.

Lemma hass_callback_inv (w : Hass.World) (c : Callback) (s : Hass.State) :
  match c with
  | plan_start_cb =>
      Hass.flags s = [true; false; false; false]
      /\ (Hass.listeners s = []
          \/ exists h t, Hass.listeners s = [(h, t)]
                         /\ Hass.night_heating_calc_event s = Some h)
  | start_cb =>
      Hass.flags s = [false; true; false; false]
      /\ (Hass.listeners s = []
          \/ exists h t, Hass.listeners s = [(h, t)]
                         /\ Hass.night_heating_event s = Some h)
  | end_cb =>
      (Hass.flags s = [false; false; false; true]
       \/ Hass.flags s = [false; false; true; false])
      /\ (Hass.listeners s = []
          \/ exists h t, Hass.listeners s = [(h, t)]
                         /\ Hass.night_heating_event s = Some h)
  end ->
  fst (Hass.callback entry c w s) = Hass.Ok tt ->
  Hass.scheduler_inv (snd (Hass.callback entry c w s)).
Proof.
  destruct c; intros [Hflags Hls]; cbn [Hass.callback].
  - destruct (Hass._plan_start_night_pre_heating entry w s) as [r s'] eqn:E.
    cbn. intros ->. now apply (hass_plan_start_inv entry w s).
  - destruct (Hass._start_night_pre_heating entry w s) as [r s'] eqn:E.
    cbn. intros ->. now apply (hass_start_inv entry w s).
  - intros _. now apply hass_end_inv.
Qed.

(** A control tick keeps the invariant, and so does a listener that
    returns. *)
Lemma hass_step_inv (ev : Hass.Event) (s : Hass.State) :
  Hass.scheduler_inv s ->
  match ev with
  | Hass.Fire _ _ => fst (Hass.step entry ev s) = Hass.Ok tt
  | Hass.Tick _ => True
  end ->
  Hass.scheduler_inv (snd (Hass.step entry ev s)).
Proof.
  destruct ev as [w|h w]; intros Hinv.
  - intros _. now apply hass_run_inv.
  - unfold Hass.step, Hass.find_listener.
    destruct s as [ne nce p cp c ph bpo st sw ls nh calls].
    revert Hinv. unfold Hass.scheduler_inv at 1. cbn [Hass.listeners].
    destruct ls as [|[h' t] [|? ?]]; [auto| |contradiction].
    cbn [find fst]. destruct (Nat.eqb h' h) eqn:Eh; [|auto].
    apply Nat.eqb_eq in Eh. subst h'.
    destruct t as [pt a|hh mm ss a]; cbn [action_of]; intros Hinv.
    + change ((Hass.bind (Hass.cancel (Some h)) (fun _ => Hass.callback entry a w))
                (Hass.mkState ne nce p cp c ph bpo st sw
                   [(h, point_in_utc_time pt a)] nh calls))
        with (Hass.callback entry a w
                (Hass.set_listeners
                   (filter (fun ht => negb (Nat.eqb (fst ht) h))
                      [(h, point_in_utc_time pt a)])
                   (Hass.mkState ne nce p cp c ph bpo st sw
                      [(h, point_in_utc_time pt a)] nh calls))).
      cbn [filter fst]. rewrite Nat.eqb_refl. cbn [negb].
      apply hass_callback_inv.
      destruct a; destruct Hinv as [Hflags _]; (split; [exact Hflags | now left]).
    + apply hass_callback_inv.
      destruct a; destruct Hinv as [Hflags Hh];
        (split; [exact Hflags | right; eexists; eexists; split; [reflexivity | exact Hh]]).
Qed.

Lemma hass_run_events_inv (evs : list Hass.Event) :
  forall s, Hass.listeners_return entry evs s -> Hass.scheduler_inv s ->
            Hass.scheduler_inv (Hass.run_events entry evs s).
Proof.
  induction evs as [|ev evs IH]; intros s Hret Hinv; cbn.
  - exact Hinv.
  - destruct Hret as [Hev Hret]. apply IH; [exact Hret|].
    apply hass_step_inv; assumption.
Qed.

End HassSchedulerRuns.

Lemma hass_scheduler_inv_at_most_one (s : Hass.State) :
  Hass.scheduler_inv s -> Hass.at_most_one_flag s.
Proof.
  unfold Hass.scheduler_inv, Hass.at_most_one_flag.
  destruct (Hass.listeners s) as [|[h t] [|? ?]]; [auto| |contradiction].
  destruct (action_of t); intros [H _];
    [| |destruct H as [H|H]]; rewrite H; cbn; lia.
Qed.

(** C3 (amended).  From an idle scheduler (the four flags false, no
    listener pending), after every sequence of control ticks and listener
    firings in which each listener that fires returns, at most one of the
    three flags calc-planned, start-planned and pre-heating is true, and at
    most one of the four flags including cancelled.  A control tick may
    raise. *)
Theorem hass_at_most_one_scheduler_flag
    (python : Hass.Python) (entry : Config) (evs : list Hass.Event) (s0 : Hass.State) :
  Hass.idle s0 -> Hass.listeners s0 = [] ->
  Hass.listeners_return entry evs s0 ->
  let s := Hass.run_events entry evs s0 in
  (count_true [Hass.night_heating_calc_planned s; Hass.night_heating_planned s;
               Hass.night_preheating s] <= 1)%nat
  /\ Hass.at_most_one_flag s.
Proof.
  intros Hidle Hls Hevs s.
  assert (H : Hass.at_most_one_flag s).
  { apply hass_scheduler_inv_at_most_one, hass_run_events_inv; [exact Hevs|].
    unfold Hass.scheduler_inv, Hass.at_most_one_flag. rewrite Hls, Hidle. cbn. lia. }
  split; [|exact H].
  revert H. unfold Hass.at_most_one_flag, Hass.flags, count_true.
  destruct (Hass.night_heating_calc_planned s), (Hass.night_heating_planned s),
    (Hass.night_preheating s), (Hass.night_heating_canceled s); cbn; lia.
Qed.

(* ------------------------------------------------------------------ *)
(** ** SensorAggregator on the states of the host *)

Section HassHistory.

Context {python : Hass.Python}.


(** A state that [s.isdigit()] accepts and [float] rejects raises. *)
Lemma numeric_states_raises (states : list string) :
  (exists s, In s states /\ Hass.isdigit s = true /\ Hass.py_float s = None) ->
  Hass.numeric_states states = Hass.Raise Hass.ValueError.
Proof.
  intros (s & Hin & Hd & Hf).
  induction states as [|s' rest IH]; [contradiction|].
  cbn. unfold Hass._is_float. destruct Hin as [->|Hin].
  - rewrite Hd, Hf. reflexivity.
  - specialize (IH Hin).
    destruct (Hass.py_float s') eqn:E'.
    + rewrite orb_true_r, IH. reflexivity.
    + rewrite orb_false_r. destruct (Hass.isdigit s'); [reflexivity|exact IH].
Qed.

Variable recorder : Hass.Recorder.
Variable utcnow : Z.
Variable entity_id : Entity.
Variable s_time : option Z.
Variables mins secs : Z.

Let window := Hass.fetched recorder utcnow entity_id s_time mins secs.

Lemma hass_get_sensor_history_unfold (min_val : bool) (percentile : option Z) :
  Hass._get_sensor_history recorder utcnow entity_id s_time mins secs min_val percentile
  = match window with
    | [] => Hass.Ok None
    | _ =>
        match Hass.numeric_states window with
        | Hass.Raise e => Hass.Raise e
        | Hass.Ok [] => Hass.Ok None
        | Hass.Ok l =>
            let no_percentile :=
              if min_val then Hass.Ok (Some (Hass.py_round2 (Hass.py_min l)))
              else Hass.Ok (Some (Hass.py_round2
                                    (PrimFloat.div (Hass.py_sum l) (Hass.float_of_len l)))) in
            match percentile with
            | Some p =>
                if p =? 0 then no_percentile
                else
                  match Hass.np_percentile l p with
                  | Hass.Ok v => Hass.Ok (Some (Hass.np_round2 v))
                  | Hass.Raise e => Hass.Raise e
                  end
            | None => no_percentile
            end
        end
    end.
Proof.
  unfold window, Hass._get_sensor_history, Hass.fetched.
  destruct (history_window utcnow s_time mins secs) as [start_time end_time].
  destruct (recorder entity_id start_time end_time) as [[|s l]|]; try reflexivity.
  destruct (Hass.numeric_states (s :: l)) as [[|x l']|]; try reflexivity.
  destruct percentile as [p|]; [|reflexivity].
  destruct (p =? 0); reflexivity.
Qed.


End HassHistory.



Section HassHistoryExamples.

Import HassExample.
#[local] Existing Instance CPython.python.
Local Open Scope string_scope.

(** A window of [unavailable] and [unknown] gives [None]; the median of
    399.5 W and 401.5 W around an [unavailable] is 400.5 W. *)
Lemma hass_history_examples :
  Hass._get_sensor_history (fun _ _ _ => Some ["unavailable"; "unknown"]) 0
    critical_load None 0 30 false (Some 50) = Hass.Ok None
  /\ Hass._get_sensor_history (fun _ _ _ => Some ["399.5"; "unavailable"; "401.5"]) 0
       critical_load None 0 30 false (Some 50)
     = Hass.Ok (Some (PyFloat.nearest (4005 # 10))).
Proof. vm_compute. split; reflexivity. Qed.

(** [round] works on the double: the mean of three samples 0.045 is the
    double above 0.045 and rounds to 0.05, and the percentile 156.975
    rounds, as numpy rounds it, to 156.98 where [round] of the Python
    float gives 156.97. *)
Lemma hass_rounding_examples :
  Hass._get_sensor_history (fun _ _ _ => Some ["0.045"; "0.045"; "0.045"]) 0
    critical_load None 0 30 false None
  = Hass.Ok (Some (PyFloat.nearest (5 # 100)))
  /\ Hass._get_sensor_history (fun _ _ _ => Some ["156.975"]) 0
       critical_load None 0 30 false (Some 50)
     = Hass.Ok (Some (PyFloat.nearest (15698 # 100)))
  /\ Hass._get_sensor_history (fun _ _ _ => Some ["156.975"]) 0
       critical_load None 0 30 true None
     = Hass.Ok (Some (PyFloat.nearest (15697 # 100))).
Proof. vm_compute. repeat split; reflexivity. Qed.




End HassHistoryExamples.

(* ------------------------------------------------------------------ *)
(** ** The minimum of a window *)

Lemma min2_cases (a b : float) : PyFloat.min2 a b = a \/ PyFloat.min2 a b = b.
Proof. unfold PyFloat.min2. destruct (PyFloat.ltb b a); auto. Qed.

Lemma fold_min2_in (l : list float) :
  forall x, In (fold_left PyFloat.min2 l x) (x :: l).
Proof.
  induction l as [|y l IH]; intros x; cbn [fold_left].
  - now left.
  - destruct (IH (PyFloat.min2 x y)) as [H|H].
    + destruct (min2_cases x y) as [E|E]; rewrite E in *.
      * left. exact H.
      * right. left. exact H.
    + right. now right.
Qed.

(** When the comprehension returns, it returns the samples. *)
Lemma numeric_states_ok {python : Hass.Python} (states : list string) :
  forall l, Hass.numeric_states states = Hass.Ok l -> l = Hass.samples states.
Proof.
  induction states as [|s rest IH]; cbn; intros l.
  - now intros [= <-].
  - unfold Hass._is_float. destruct (Hass.py_float s) as [x|] eqn:Ex.
    + rewrite orb_true_r.
      destruct (Hass.numeric_states rest) as [l'|]; [|discriminate].
      intros [= <-]. f_equal. now apply IH.
    + rewrite orb_false_r. destruct (Hass.isdigit s); [discriminate|]. apply IH.
Qed.

(** X5.  With [min_val] set and no percentile, a number that
    [_get_sensor_history] returns is [round(x, 2)] of one of the numeric
    samples [x] of the window, [min] being the minimum of CPython. *)
Theorem hass_get_sensor_history_minimum
    (recorder : Hass.Recorder) (utcnow : Z) (entity_id : Entity)
    (s_time : option Z) (mins secs : Z) (v : float) :
  @Hass._get_sensor_history CPython.python recorder utcnow entity_id s_time mins secs
    true None = Hass.Ok (Some v) ->
  exists x,
    In x (@Hass.samples CPython.python
            (@Hass.fetched recorder utcnow entity_id s_time mins secs))
    /\ v = CPython.py_round2 x.
Proof.
  rewrite hass_get_sensor_history_unfold.
  destruct (Hass.fetched recorder utcnow entity_id s_time mins secs) as [|s0 w0] eqn:Ew;
    [discriminate|].
  destruct (Hass.numeric_states (s0 :: w0)) as [[|x l]|] eqn:En; try discriminate.
  apply numeric_states_ok in En.
  cbv zeta. intros [= <-].
  exists (CPython.py_min (x :: l)). split; [|reflexivity].
  rewrite <- En. apply fold_min2_in.
Qed.

Lemma hass_get_sensor_history_minimum_witness :
  let recorder : Hass.Recorder :=
    fun _ _ _ => Some ["41.237"%string; "unavailable"%string; "38.456"%string] in
  @Hass._get_sensor_history CPython.python recorder 0 boiler_temp2 (Some 0) 300 0 true None
  = Hass.Ok (Some (PyFloat.nearest (3846 # 100)))
  /\ exists x,
       In x (@Hass.samples CPython.python (Hass.fetched recorder 0 boiler_temp2 (Some 0) 300 0))
       /\ PyFloat.nearest (3846 # 100) = CPython.py_round2 x.
Proof.
  intros recorder.
  assert (H : @Hass._get_sensor_history CPython.python recorder 0 boiler_temp2
                (Some 0) 300 0 true None
              = Hass.Ok (Some (PyFloat.nearest (3846 # 100)))).
  { vm_compute. reflexivity. }
  split; [exact H|].
  apply (hass_get_sensor_history_minimum recorder 0 boiler_temp2 (Some 0) 300 0), H.
Defined.

Section HassSchedulerExamples.

Import HassExample.
#[local] Existing Instance CPython.python.
Local Open Scope string_scope.

Let entry := Example.entry.

Lemma hass_heating_night :
  let s := Hass.run_events entry heating_night session_start in
  Hass.flags s = [false; false; true; false]
  /\ Hass.service_calls s
     = [Hass.climate_set_temperature (Some (PyFloat.nearest 40));
        Hass.select_select_option "MANUAL"]
  /\ map snd (Hass.listeners s) = [time_change 6 0 0 end_cb].
Proof. vm_compute. repeat split; reflexivity. Qed.

Lemma hass_at_most_one_scheduler_flag_witness :
  Hass.idle session_start /\ Hass.listeners session_start = []
  /\ Hass.listeners_return entry heating_night session_start
  /\ let s := Hass.run_events entry heating_night session_start in
     (count_true [Hass.night_heating_calc_planned s; Hass.night_heating_planned s;
                  Hass.night_preheating s] <= 1)%nat
     /\ Hass.at_most_one_flag s.
Proof.
  assert (Hret : Hass.listeners_return entry heating_night session_start).
  { vm_compute. repeat split; reflexivity. }
  split; [reflexivity|]. split; [reflexivity|]. split; [exact Hret|].
  apply (hass_at_most_one_scheduler_flag CPython.python entry heating_night session_start).
  - reflexivity.
  - reflexivity.
  - exact Hret.
Defined.

(** C3, as stated, fails on the code.  In the warm night every listener
    returns and none of calc-planned, start-planned and pre-heating is
    true at the end, only the cancelled flag is; so is none in the idle
    state before the first tick.  In the cold night the start raises
    [ValueError] out of the calculation callback, and both calc-planned
    and start-planned stay true. *)
Lemma hass_scheduler_flags_fail :
  (Hass.listeners_return entry warm_night session_start
   /\ Hass.flags (Hass.run_events entry warm_night session_start)
      = [false; false; false; true]
   /\ ~ Hass.exactly_one_of_three (Hass.run_events entry warm_night session_start)
   /\ ~ Hass.exactly_one_of_three session_start)
  /\ (fst (Hass.step entry (Hass.Fire 0 cold_morning)
             (Hass.run_events entry [Hass.Tick cold_evening] session_start))
      = Hass.Raise Hass.ValueError
      /\ Hass.flags (Hass.run_events entry cold_night session_start)
         = [true; true; false; false]
      /\ ~ Hass.at_most_one_flag (Hass.run_events entry cold_night session_start)).
Proof.
  split; [split; [|split; [|split]] | split; [|split]].
  - vm_compute. repeat split; reflexivity.
  - vm_compute. reflexivity.
  - vm_compute. discriminate.
  - vm_compute. discriminate.
  - vm_compute. reflexivity.
  - vm_compute. reflexivity.
  - vm_compute. lia.
Qed.

End HassSchedulerExamples.
